(** * Google Forms tooling: duplication, sanitisation, personalisation, export

  A shallow embedding of the orchestration code of
  [src/src/gforms/api.py] (the packaged client) and of its older copy
  [src/forms_api.py] (the client of the MCP server), with the properties
  of the item sanitizer, of the two duplication paths, of the
  personalisation loop and of the CSV export.

  Python values read from the remote API are JSON trees; Python's
  dynamic typing is kept: every primitive the code uses ([k in v],
  [v[k]], [v.get], [v.pop], [v.replace], [for x in v]) is given on every
  JSON value, raising the exception Python raises when the value has
  the wrong type.  Remote calls are recorded in a trace and answered by
  an arbitrary remote service. *)

From Stdlib Require Import String Ascii List ZArith Lia Bool Arith.
Import ListNotations.
Local Open Scope string_scope.

(** ** Exceptions and fallible computations *)

(** The exception classes the modelled code raises or lets through.
  [PyException] is the plain [Exception(...)] the wrappers raise; its
  message keeps the constant prefix of the f-string. *)
Inductive exn : Type :=
| HttpError
| KeyError
| TypeError
| AttributeError
| IndexError
| ValueError (msg : string)
| PyException (msg : string).

Inductive result (A : Type) : Type :=
| Ok (a : A)
| Raise (e : exn).
Arguments Ok {A} a.
Arguments Raise {A} e.

Definition rbind {A B : Type} (m : result A) (k : A -> result B) : result B :=
  match m with
  | Ok a => k a
  | Raise e => Raise e
  end.

Notation "'let*' x ':=' c1 'in' c2" := (rbind c1 (fun x => c2))
  (at level 61, x name, c1 at next level, right associativity).

Fixpoint mapM {A B : Type} (f : A -> result B) (l : list A) : result (list B) :=
  match l with
  | [] => Ok []
  | x :: r =>
      let* y := f x in
      let* ys := mapM f r in
      Ok (y :: ys)
  end.

(** ** Python strings *)

Module Str.

Definition LF : ascii := "010"%char.
Definition CR : ascii := "013"%char.
Definition SP : ascii := " "%char.

(** [s.replace(old, new)] for a non-empty [old]: a left-to-right scan
    that, at a match, emits [new] and skips the matched characters.
    [skip] counts the characters of the current match still to drop. *)
Fixpoint replace_scan (old new : string) (skip : nat) (s : string) : string :=
  match s with
  | EmptyString => EmptyString
  | String c rest =>
      match skip with
      | S k => replace_scan old new k rest
      | O =>
          if prefix old s
          then new ++ replace_scan old new (String.length old - 1) rest
          else String c (replace_scan old new 0 rest)
      end
  end.

(** With an empty [old], Python inserts [new] before every character
    and at the end. *)
Fixpoint interleave (new s : string) : string :=
  match s with
  | EmptyString => new
  | String c rest => new ++ String c (interleave new rest)
  end.

Definition replace (old new s : string) : string :=
  match old with
  | EmptyString => interleave new s
  | String _ _ => replace_scan old new 0 s
  end.

(** [sub in s] *)
Fixpoint contains (sub s : string) : bool :=
  prefix sub s ||
  match s with
  | EmptyString => false
  | String _ rest => contains sub rest
  end.

(** [s.replace('\n', ' ').replace('\r', '')] *)
Definition clean_newlines (s : string) : string :=
  replace (String CR EmptyString) EmptyString
    (replace (String LF EmptyString) (String SP EmptyString) s).

(** Characters [str.strip()] removes, among the code points below 256. *)
Definition is_space (c : ascii) : bool :=
  let n := nat_of_ascii c in
  (Nat.leb 9 n && Nat.leb n 13) || (Nat.leb 28 n && Nat.leb n 32)
  || Nat.eqb n 133 || Nat.eqb n 160.

Fixpoint lstrip (s : string) : string :=
  match s with
  | EmptyString => EmptyString
  | String c rest => if is_space c then lstrip rest else s
  end.

Fixpoint rstrip (s : string) : string :=
  match s with
  | EmptyString => EmptyString
  | String c rest =>
      match rstrip rest with
      | EmptyString => if is_space c then EmptyString else String c EmptyString
      | r => String c r
      end
  end.

Definition strip (s : string) : string := rstrip (lstrip s).

(** [s[:n]] *)
Fixpoint take (n : nat) (s : string) : string :=
  match n, s with
  | S k, String c rest => String c (take k rest)
  | _, _ => EmptyString
  end.

(** [sep.join(l)] *)
Fixpoint join (sep : string) (l : list string) : string :=
  match l with
  | [] => EmptyString
  | [x] => x
  | x :: r => x ++ sep ++ join sep r
  end.

Fixpoint has_char (c : ascii) (s : string) : bool :=
  match s with
  | EmptyString => false
  | String a rest => Ascii.eqb a c || has_char c rest
  end.

(** What the newline normalisation does, character by character. *)
Fixpoint map_newlines (s : string) : string :=
  match s with
  | EmptyString => EmptyString
  | String c rest =>
      if Ascii.eqb c LF then String SP (map_newlines rest)
      else if Ascii.eqb c CR then map_newlines rest
      else String c (map_newlines rest)
  end.

(** Substitution for a one-character pattern, character by character. *)
Fixpoint subst_char (c : ascii) (new s : string) : string :=
  match s with
  | EmptyString => EmptyString
  | String a rest =>
      if Ascii.eqb a c then new ++ subst_char c new rest
      else String a (subst_char c new rest)
  end.

Definition no_linebreak (s : string) : Prop :=
  has_char LF s = false /\ has_char CR s = false.

End Str.

(** ** JSON values and dictionaries *)

#[local] Set Warnings "-register-all".

Inductive json : Type :=
| JNull
| JBool (b : bool)
| JNum (n : Z)
| JStr (s : string)
| JArr (xs : list json)
| JObj (kvs : list (string * json)).

(** A Python [dict] with string keys: the bindings in insertion order,
  one per key. *)
Definition dict (V : Type) : Type := list (string * V).

Fixpoint dict_get {V : Type} (k : string) (d : dict V) : option V :=
  match d with
  | [] => None
  | (k', v) :: r => if String.eqb k k' then Some v else dict_get k r
  end.

(** [d[k] = v]: an existing key keeps its place, a new one goes last. *)
Fixpoint dict_set {V : Type} (k : string) (v : V) (d : dict V) : dict V :=
  match d with
  | [] => [(k, v)]
  | (k', v') :: r =>
      if String.eqb k k' then (k, v) :: r else (k', v') :: dict_set k v r
  end.

Definition dict_del {V : Type} (k : string) (d : dict V) : dict V :=
  filter (fun kv => negb (String.eqb k (fst kv))) d.

Definition dict_has {V : Type} (k : string) (d : dict V) : bool :=
  match dict_get k d with Some _ => true | None => false end.

Definition dict_keys {V : Type} (d : dict V) : list string := map fst d.

(** Following a path of keys through nested objects. *)
Fixpoint json_path (p : list string) (v : json) : option json :=
  match p with
  | [] => Some v
  | k :: p' =>
      match v with
      | JObj d =>
          match dict_get k d with
          | Some v' => json_path p' v'
          | None => None
          end
      | _ => None
      end
  end.

(** ** The Python operations the code applies to JSON values *)

Module Py.

Definition is_str (k : string) (v : json) : bool :=
  match v with JStr s => String.eqb s k | _ => false end.

(** [k in v] for a string [k] *)
Definition contains (k : string) (v : json) : result bool :=
  match v with
  | JObj d => Ok (dict_has k d)
  | JArr xs => Ok (existsb (is_str k) xs)
  | JStr s => Ok (Str.contains k s)
  | _ => Raise TypeError
  end.

(** [v[k]] for a string [k] *)
Definition getitem (v : json) (k : string) : result json :=
  match v with
  | JObj d =>
      match dict_get k d with
      | Some x => Ok x
      | None => Raise KeyError
      end
  | _ => Raise TypeError
  end.

(** [v[k] = x] for a string [k] *)
Definition setitem (v : json) (k : string) (x : json) : result json :=
  match v with
  | JObj d => Ok (JObj (dict_set k x d))
  | _ => Raise TypeError
  end.

(** [v.get(k, default)] *)
Definition get (v : json) (k : string) (default : json) : result json :=
  match v with
  | JObj d =>
      match dict_get k d with
      | Some x => Ok x
      | None => Ok default
      end
  | _ => Raise AttributeError
  end.

(** [v.pop(k, None)], the popped value dropped *)
Definition pop (v : json) (k : string) : result json :=
  match v with
  | JObj d => Ok (JObj (dict_del k d))
  | JArr _ => Raise TypeError
  | _ => Raise AttributeError
  end.

(** [v.copy()] *)
Definition copy (v : json) : result json :=
  match v with
  | JObj _ | JArr _ => Ok v
  | _ => Raise AttributeError
  end.

(** [v.replace('\n', ' ').replace('\r', '')] *)
Definition clean_newlines (v : json) : result json :=
  match v with
  | JStr s => Ok (JStr (Str.clean_newlines s))
  | _ => Raise AttributeError
  end.

(** The elements a [for x in v] loop visits. *)
Definition iter (v : json) : result (list json) :=
  match v with
  | JArr xs => Ok xs
  | JObj d => Ok (map JStr (dict_keys d))
  | JStr s =>
      Ok (map (fun c => JStr (String c EmptyString)) (list_ascii_of_string s))
  | _ => Raise TypeError
  end.

(** [len(v)] *)
Definition len (v : json) : result nat :=
  match v with
  | JArr xs => Ok (List.length xs)
  | JObj d => Ok (List.length d)
  | JStr s => Ok (String.length s)
  | _ => Raise TypeError
  end.

(** Truth value of [v] in [if v:] and [not v]. *)
Definition truthy (v : json) : bool :=
  match v with
  | JNull => false
  | JBool b => b
  | JNum n => negb (Z.eqb n 0)
  | JStr s => negb (String.eqb s EmptyString)
  | JArr xs => match xs with [] => false | _ => true end
  | JObj d => match d with [] => false | _ => true end
  end.

(** [if k in v: <update v[k] in place with f>].  The object reached
    through [v[k]] is the one stored in [v], so the update shows in
    [v]. *)
Definition update (k : string) (f : json -> result json) (v : json)
  : result json :=
  let* b := contains k v in
  if b then
    let* x := getitem v k in
    let* x' := f x in
    setitem v k x'
  else Ok v.

(** [for x in v: <update x in place with f>].  Only the elements of a
    list are objects that can change; the keys of a dict and the
    characters of a string are visited but stay what they are. *)
Definition for_each (f : json -> result json) (v : json) : result json :=
  let* xs := iter v in
  let* xs' := mapM f xs in
  Ok (match v with JArr _ => JArr xs' | _ => v end).

(** [v.replace(old, new)] *)
Definition replace (old new : string) (v : json) : result json :=
  match v with
  | JStr s => Ok (JStr (Str.replace old new s))
  | _ => Raise AttributeError
  end.

(** [v.replace('\n', ' ').replace('\r', '').strip()] *)
Definition clean_strip (v : json) : result json :=
  match v with
  | JStr s => Ok (JStr (Str.strip (Str.clean_newlines s)))
  | _ => Raise AttributeError
  end.

(** A value that has to be a string, as an element of [sep.join]. *)
Definition as_str (v : json) : result string :=
  match v with
  | JStr s => Ok s
  | _ => Raise TypeError
  end.

(** [a == b]: numbers are integers, [True] and [False] equal 1 and 0,
    lists are compared in order and dicts key by key. *)
Fixpoint eq (a b : json) {struct a} : bool :=
  match a, b with
  | JNull, JNull => true
  | JBool x, JBool y => Bool.eqb x y
  | JBool x, JNum y => Z.eqb (if x then 1 else 0) y
  | JNum x, JBool y => Z.eqb x (if y then 1 else 0)
  | JNum x, JNum y => Z.eqb x y
  | JStr x, JStr y => String.eqb x y
  | JArr xs, JArr ys =>
      (fix go (xs ys : list json) {struct xs} : bool :=
         match xs, ys with
         | [], [] => true
         | x :: xs', y :: ys' => eq x y && go xs' ys'
         | _, _ => false
         end) xs ys
  | JObj xs, JObj ys =>
      Nat.eqb (List.length xs) (List.length ys) &&
      (fix go (xs : list (string * json)) {struct xs} : bool :=
         match xs with
         | [] => true
         | (k, x) :: xs' =>
             match dict_get k ys with
             | Some y => eq x y
             | None => false
             end && go xs'
         end) xs
  | _, _ => false
  end.

(** [x in v] for any value [x]: a list or a dict cannot be looked up in
    a dict, and only a string can be looked up in a string. *)
Definition contains_value (x v : json) : result bool :=
  match v with
  | JObj d =>
      match x with
      | JStr k => Ok (dict_has k d)
      | JArr _ | JObj _ => Raise TypeError
      | _ => Ok false
      end
  | JArr xs => Ok (existsb (eq x) xs)
  | JStr s =>
      match x with
      | JStr k => Ok (Str.contains k s)
      | _ => Raise TypeError
      end
  | _ => Raise TypeError
  end.

(** [xs[i]] for a list and an integer, counted from the end when
    negative. *)
Definition list_index (xs : list json) (i : Z) : result json :=
  let j := if Z.ltb i 0 then (Z.of_nat (List.length xs) + i)%Z else i in
  if Z.ltb j 0 then Raise IndexError
  else match nth_error xs (Z.to_nat j) with
       | Some x => Ok x
       | None => Raise IndexError
       end.

(** [v[x]] for a value [x] found with [x in v]. *)
Definition getitem_value (v x : json) : result json :=
  match x, v with
  | JStr k, _ => getitem v k
  | JNum i, JArr xs => list_index xs i
  | JBool b, JArr xs => list_index xs (if b then 1 else 0)
  | _, _ => Raise TypeError
  end.

End Py.

(** ** The remote services *)

(** One HTTP request to the Forms or the Drive API: the method called and
  its arguments. *)
Inductive call : Type :=
| FormsCreate (body : json)
| FormsGet (formId : json)
| FormsBatchUpdate (formId : json) (body : json)
| ResponsesList (formId : json) (params : dict json)
| DriveFilesUpdate (fileId : json) (body : json).

(** The remote side: given the requests made so far and a new one, the
  body of its 2xx response, or [None] when the request fails and the
  client library raises [HttpError]. *)
Definition remote : Type := list call -> call -> option json.

(** Computations that make remote calls: the calls made so far go in,
  the outcome and the extended trace come out.  The trace is kept when
  an exception is raised. *)
Definition io (A : Type) : Type := list call -> result A * list call.

Definition ret {A : Type} (a : A) : io A := fun h => (Ok a, h).

Definition raise {A : Type} (e : exn) : io A := fun h => (Raise e, h).

Definition bind {A B : Type} (m : io A) (k : A -> io B) : io B :=
  fun h =>
    match m h with
    | (Ok a, h') => k a h'
    | (Raise e, h') => (Raise e, h')
    end.

Definition lift {A : Type} (r : result A) : io A := fun h => (r, h).

Notation "'do' x <- c1 ;; c2" := (bind c1 (fun x => c2))
  (at level 61, x name, c1 at next level, right associativity).

(** [request.execute()] *)
Definition execute (svc : remote) (c : call) : io json :=
  fun h =>
    (match svc h c with
     | Some response => Ok response
     | None => Raise HttpError
     end, (h ++ [c])%list).

(** [try: m  except HttpError: handler] *)
Definition except_http {A : Type} (m : io A) (handler : io A) : io A :=
  fun h =>
    match m h with
    | (Raise HttpError, h') => handler h'
    | r => r
    end.

(** [try: m  except Exception: handler] *)
Definition except_any {A : Type} (m : io A) (handler : io A) : io A :=
  fun h =>
    match m h with
    | (Raise _, h') => handler h'
    | r => r
    end.

(** The batched writes among the calls of a trace. *)
Definition is_batch_update (c : call) : bool :=
  match c with FormsBatchUpdate _ _ => true | _ => false end.

(** ** Requests of a batched write *)

Definition requests_body (requests : list json) : json :=
  JObj [("requests", JArr requests)].

Definition update_form_info (field : string) (value : json) : json :=
  JObj [("updateFormInfo",
         JObj [("info", JObj [(field, value)]); ("updateMask", JStr field)])].

Definition default_quiz_settings : json :=
  JObj [("updateSettings",
         JObj [("settings", JObj [("quizSettings", JObj [("isQuiz", JBool false)])]);
               ("updateMask", JStr "quizSettings.isQuiz")])].

Definition update_settings (settings : json) : json :=
  JObj [("updateSettings",
         JObj [("settings", settings); ("updateMask", JStr "*")])].

Definition create_item (clean_item : json) (i : nat) : json :=
  JObj [("createItem",
         JObj [("item", clean_item);
               ("location", JObj [("index", JNum (Z.of_nat i))])])].

(** ['createItem' in r] for a request the code built. *)
Definition is_create_item (r : json) : bool :=
  match r with JObj d => dict_has "createItem" d | _ => false end.

Definition is_update_settings (r : json) : bool :=
  match r with JObj d => dict_has "updateSettings" d | _ => false end.

(** [range(0, stop, step)] for a positive [step]; [fuel] bounds the number
  of elements. *)
Fixpoint range_from (fuel i stop step : nat) : list nat :=
  match fuel with
  | O => []
  | S f => if Nat.ltb i stop then i :: range_from f (i + step) stop step else []
  end.

Definition range_step (stop step : nat) : list nat :=
  range_from stop 0 stop step.

(** What one duplication run reports.  The dict the code returns also
  holds [executionTime], a wall-clock reading, left out here. *)
Record DuplicationResult : Type := {
  newFormId : json;
  responderUri : json;
  editUri : json;
  copiedItems : nat;
  totalItems : nat;
  apiCalls : nat;
  method : string;
  chunked : option bool
}.

(** What one personalisation run reports. *)
Record PersonalizeResult : Type := {
  p_formId : json;
  itemsUpdated : nat;
  p_totalItems : nat;
  updates : list string
}.

(** What a CSV export returns. *)
Record ExportResult : Type := {
  csv : string;
  rowCount : nat
}.

(** ** Rows of the CSV export *)

Fixpoint foldM {A S : Type} (f : A -> S -> result S) (l : list A) (s : S)
    : result S :=
  match l with
  | [] => Ok s
  | x :: r =>
      let* s' := f x s in
      foldM f r s'
  end.

(** [question_map[k] = v] on a dict whose keys are values read from the
  form: lists and dicts cannot be keys. *)
Fixpoint assoc_set (k v : json) (m : list (json * json)) : list (json * json) :=
  match m with
  | [] => [(k, v)]
  | (k', v') :: r =>
      if Py.eq k' k then (k', v) :: r else (k', v') :: assoc_set k v r
  end.

Definition question_map_set (k v : json) (m : list (json * json))
    : result (list (json * json)) :=
  match k with
  | JArr _ | JObj _ => Raise TypeError
  | _ => Ok (assoc_set k v m)
  end.

(** The cell of one question in the row of one response
  ([api.py] lines 704-712, [forms_api.py] lines 629-637). *)
Definition answer_cell (answers question_id : json) : result json :=
  let* present := Py.contains_value question_id answers in
  if present then
    let* answer := Py.getitem_value answers question_id in
    let* has_text := Py.contains "textAnswers" answer in
    if has_text then
      let* text_answers := Py.getitem answer "textAnswers" in
      let* l := Py.get text_answers "answers" (JArr []) in
      let* xs := Py.iter l in
      let* values := mapM (fun a => Py.get a "value" (JStr "")) xs in
      let* texts := mapM Py.as_str values in
      Ok (JStr (Str.join "; " texts))
    else Ok (JStr "")
  else Ok (JStr "").

(** The row of one response ([api.py] lines 696-712). *)
Definition response_row (include_timestamps include_email : bool)
    (question_ids : list json) (response : json) : result (list json) :=
  let* stamp :=
    if include_timestamps then
      let* t := Py.get response "createTime" (JStr "") in Ok [t]
    else Ok [] in
  let* email :=
    if include_email then
      let* e := Py.get response "respondentEmail" (JStr "") in Ok [e]
    else Ok [] in
  let* answers := Py.get response "answers" (JObj []) in
  let* cells := mapM (answer_cell answers) question_ids in
  Ok (stamp ++ email ++ cells)%list.

Definition header_start (include_timestamps include_email : bool) : list json :=
  ((if include_timestamps then [JStr "Timestamp"] else []) ++
   (if include_email then [JStr "Email"] else []))%list.

(** ** The item sanitizer *)

(** [if k in original_item: clean_item[k] = original_item[k]], the value
  passed through [norm] on its way. *)
Definition copy_field (norm : json -> result json) (k : string)
    (original_item : json) (clean_item : dict json) : result (dict json) :=
  let* b := Py.contains k original_item in
  if b then
    let* x := Py.getitem original_item k in
    let* x' := norm x in
    Ok (dict_set k x' clean_item)
  else Ok clean_item.

(** The [elif k in original_item: clean_item[k] = original_item[k]] chain
  of the item kinds that are copied as they are. *)
Fixpoint copy_first_kind (kinds : list string) (original_item : json)
    (clean_item : dict json) : result (dict json) :=
  match kinds with
  | [] => Ok clean_item
  | k :: rest =>
      let* b := Py.contains k original_item in
      if b then
        let* x := Py.getitem original_item k in
        Ok (dict_set k x clean_item)
      else copy_first_kind rest original_item clean_item
  end.

Definition plain_kinds : list string :=
  ["pageBreakItem"; "textItem"; "imageItem"; "videoItem"].

(** [for q in questions: q.pop('questionId', None)] *)
Definition pop_question_ids (questions : json) : result json :=
  Py.for_each (fun q => Py.pop q "questionId") questions.

(** [clean_item['questionItem'] = {'question': question}], then the image
  of the source's question item when it has one. *)
Definition build_question_item (question_item question : json)
    : result json :=
  let* has_image := Py.contains "image" question_item in
  if has_image then
    let* image := Py.getitem question_item "image" in
    Ok (JObj [("question", question); ("image", image)])
  else Ok (JObj [("question", question)]).

(** ** The question of a new item *)

(** [kwargs.get(k, default)] on the keyword arguments of a call. *)
Definition kwarg (kwargs : dict json) (k : string) (default : json) : json :=
  match dict_get k kwargs with
  | Some v => v
  | None => default
  end.

(** [[{"value": opt} for opt in options]] *)
Definition option_objects (options : json) : result json :=
  let* xs := Py.iter options in
  Ok (JArr (map (fun opt => JObj [("value", opt)]) xs)).

(** [[{"rowQuestion": {"title": row}} for row in rows]] *)
Definition row_questions (rows : json) : result json :=
  let* xs := Py.iter rows in
  Ok (JArr (map (fun row => JObj [("rowQuestion", JObj [("title", row)])]) xs)).

Definition choice_question (type : string) (kwargs : dict json)
    : result (string * json) :=
  let* options := option_objects (kwarg kwargs "options" (JArr [])) in
  Ok ("choiceQuestion", JObj [("type", JStr type); ("options", options)]).

Definition grid_question (type : string) (kwargs : dict json)
    : result (string * json) :=
  let* questions := row_questions (kwarg kwargs "rows" (JArr [])) in
  let* options := option_objects (kwarg kwargs "columns" (JArr [])) in
  Ok ("questionGroupItem",
      JObj [("questions", questions);
            ("grid",
             JObj [("columns",
                    JObj [("type", JStr type); ("options", options)])])]).

(** The [if question_type == ...: question[...] = ...] chain of
  [add_question] ([api.py] lines 299-386, [forms_api.py] lines 272-359):
  the key the type adds to the question, with its value. *)
Definition question_body (repr : json -> string) (question_type : json)
    (kwargs : dict json) : result (string * json) :=
  if Py.is_str "SHORT_ANSWER" question_type then
    Ok ("textQuestion", JObj [("paragraph", JBool false)])
  else if Py.is_str "PARAGRAPH" question_type then
    Ok ("textQuestion", JObj [("paragraph", JBool true)])
  else if Py.is_str "MULTIPLE_CHOICE" question_type then
    choice_question "RADIO" kwargs
  else if Py.is_str "CHECKBOXES" question_type then
    choice_question "CHECKBOX" kwargs
  else if Py.is_str "DROPDOWN" question_type then
    choice_question "DROP_DOWN" kwargs
  else if Py.is_str "LINEAR_SCALE" question_type then
    Ok ("scaleQuestion",
        JObj [("low", kwarg kwargs "low" (JNum 1));
              ("high", kwarg kwargs "high" (JNum 5));
              ("lowLabel", kwarg kwargs "lowLabel" (JStr ""));
              ("highLabel", kwarg kwargs "highLabel" (JStr ""))])
  else if Py.is_str "DATE" question_type then
    Ok ("dateQuestion",
        JObj [("includeTime", JBool false); ("includeYear", JBool true)])
  else if Py.is_str "TIME" question_type then
    Ok ("timeQuestion", JObj [("duration", JBool false)])
  else if Py.is_str "FILE_UPLOAD" question_type then
    Ok ("fileUploadQuestion",
        JObj [("folderId", kwarg kwargs "folderId" (JStr ""));
              ("maxFiles", kwarg kwargs "maxFiles" (JNum 1));
              ("maxFileSize", kwarg kwargs "maxFileSize" (JNum 10485760));
              ("types", kwarg kwargs "allowedTypes" (JArr []))])
  else if Py.is_str "MULTIPLE_CHOICE_GRID" question_type then
    grid_question "RADIO" kwargs
  else if Py.is_str "CHECKBOX_GRID" question_type then
    grid_question "CHECKBOX" kwargs
  else if Py.is_str "RATING" question_type then
    Ok ("scaleQuestion",
        JObj [("low", JNum 1);
              ("high", kwarg kwargs "high" (JNum 5));
              ("lowLabel", JStr "");
              ("highLabel", JStr "")])
  else
    Raise (ValueError
             ("Unsupported question type: "
              ++ match question_type with JStr s => s | _ => repr question_type end)).

(** The question [add_question] builds: [required] first, then the key
  of the type. *)
Definition build_question (repr : json -> string) (question_type : json)
    (kwargs : dict json) : result json :=
  let* body := question_body repr question_type kwargs in
  Ok (JObj [("required", kwarg kwargs "required" (JBool false)); body]).

(** The item [add_question] creates: the title at item level, the
  question nested. *)
Definition new_question_item (title question : json) : json :=
  JObj [("title", title); ("questionItem", JObj [("question", question)])].

(** The one request of [add_question]. *)
Definition add_question_request (title question location_index : json) : json :=
  JObj [("createItem",
         JObj [("item", new_question_item title question);
               ("location", JObj [("index", location_index)])])].

Definition delete_item_request (item_index : nat) : json :=
  JObj [("deleteItem",
         JObj [("location", JObj [("index", JNum (Z.of_nat item_index))])])].

Definition move_item_request (item_index : nat) (new_position : json) : json :=
  JObj [("moveItem",
         JObj [("originalLocation", JObj [("index", JNum (Z.of_nat item_index))]);
               ("newLocation", JObj [("index", new_position)])])].

Definition add_section_request (title description position : json) : json :=
  JObj [("createItem",
         JObj [("item",
                JObj [("title", title);
                      ("description", description);
                      ("pageBreakItem", JObj [])]);
               ("location", JObj [("index", position)])])].

(** [src/src/gforms/api.py] *)
Module Gforms.

(** [if k in v: v[k] = v[k].replace('\n', ' ').replace('\r', '')] *)
Definition clean_text_key (k : string) (v : json) : result json :=
  Py.update k Py.clean_newlines v.

(** Lines 942-947: the labels of a scale question. *)
Definition clean_scale_labels (question : json) : result json :=
  Py.update "scaleQuestion"
    (fun scale =>
       let* scale := clean_text_key "lowLabel" scale in
       clean_text_key "highLabel" scale)
    question.

(** Lines 952-954 and 971-973: the value of every option. *)
Definition clean_option_values (options : json) : result json :=
  Py.for_each (clean_text_key "value") options.

(** Lines 950-954. *)
Definition clean_choice_options (question : json) : result json :=
  Py.update "choiceQuestion" (Py.update "options" clean_option_values)
    question.

(** Lines 969-973. *)
Definition clean_grid_columns (group : json) : result json :=
  Py.update "grid"
    (Py.update "columns" (Py.update "options" clean_option_values)) group.

(** [FormsAPI._clean_item_for_duplication], lines 926-989. *)
Definition _clean_item_for_duplication (original_item : json)
    : result json :=
  let* clean_item := copy_field Py.clean_newlines "title" original_item [] in
  let* clean_item :=
    copy_field Py.clean_newlines "description" original_item clean_item in
  let* is_question := Py.contains "questionItem" original_item in
  if is_question then
    let* question_item := Py.getitem original_item "questionItem" in
    let* question := Py.getitem question_item "question" in
    let* question := Py.pop question "questionId" in
    let* question := clean_scale_labels question in
    let* question := clean_choice_options question in
    let* new_item := build_question_item question_item question in
    Ok (JObj (dict_set "questionItem" new_item clean_item))
  else
    let* is_group := Py.contains "questionGroupItem" original_item in
    if is_group then
      let* group := Py.getitem original_item "questionGroupItem" in
      let* group := Py.update "questions" pop_question_ids group in
      let* group := clean_grid_columns group in
      Ok (JObj (dict_set "questionGroupItem" group clean_item))
    else
      let* clean_item := copy_first_kind plain_kinds original_item clean_item in
      Ok (JObj clean_item).

(** Lines 766-768 and 865-867: the settings a duplicate is given. *)
Definition copy_settings (original : json) : result json :=
  let* settings := Py.getitem original "settings" in
  let* settings := Py.copy settings in
  let* has_quiz := Py.contains "quizSettings" settings in
  if has_quiz then Ok settings
  else Py.setitem settings "quizSettings" (JObj [("isQuiz", JBool false)]).

(** Lines 777-784: one [createItem] per source item, at its position. *)
Fixpoint item_requests (i : nat) (items : list json) : result (list json) :=
  match items with
  | [] => Ok []
  | original_item :: rest =>
      let* clean_item := _clean_item_for_duplication original_item in
      let* requests := item_requests (S i) rest in
      Ok (create_item clean_item i :: requests)
  end.

(** Lines 804-817, for a positive [chunk_size]. *)
Definition build_chunks (has_settings : bool) (batch_requests : list json)
    (chunk_size : nat) : list (list json) :=
  let settings_chunk := if has_settings then firstn 1 batch_requests else [] in
  let item_requests :=
    if has_settings then skipn 1 batch_requests else batch_requests in
  map (fun i =>
         let chunk := firstn chunk_size (skipn i item_requests) in
         match i, settings_chunk with
         | O, _ :: _ => (settings_chunk ++ chunk)%list
         | _, _ => chunk
         end)
      (range_step (List.length item_requests) chunk_size).

(** The same for any integer: [range] rejects a zero step and is empty
    for a negative one. *)
Definition chunks_of (has_settings : bool) (batch_requests : list json)
    (chunk_size : Z) : result (list (list json)) :=
  if Z.eqb chunk_size 0 then Raise (ValueError "range() arg 3 must not be zero")
  else if Z.ltb chunk_size 0 then Ok []
  else Ok (build_chunks has_settings batch_requests (Z.to_nat chunk_size)).

Section Client.

Variable svc : remote.

(** Python's [str()] of a value that is not a string, as an f-string
    renders it. *)
Variable repr : json -> string.

Definition fstr (v : json) : string :=
  match v with JStr s => s | _ => repr v end.

Definition edit_uri (form_id : json) : json :=
  JStr ("https://docs.google.com/forms/d/" ++ fstr form_id ++ "/edit").

(** Lines 31-43. *)
Definition _sync_drive_name (form_id title : json) : io unit :=
  except_http
    (do _ <- execute svc (DriveFilesUpdate form_id (JObj [("name", title)])) ;;
     ret tt)
    (ret tt).

(** Lines 45-108. *)
Definition create_form (title description : json) : io json :=
  except_http
    (do result <- execute svc (FormsCreate (JObj [("info", JObj [("title", title)])])) ;;
     do form_id <- lift (Py.getitem result "formId") ;;
     do _ <- (if Py.truthy description then
                do _ <- execute svc
                          (FormsBatchUpdate form_id
                             (requests_body
                                [update_form_info "description" description;
                                 default_quiz_settings])) ;;
                ret tt
              else ret tt) ;;
     do _ <- _sync_drive_name form_id title ;;
     do responder <- lift (Py.get result "responderUri" JNull) ;;
     ret (JObj [("formId", form_id); ("responderUri", responder);
                ("editUri", edit_uri form_id)]))
    (raise (PyException "Failed to create form")).

(** Lines 164-179. *)
Definition get_form (form_id : json) : io json :=
  except_http (execute svc (FormsGet form_id))
    (raise (PyException "Failed to get form")).

(** Lines 819-829: the chunks in order, stopping at the first that
    fails. *)
Fixpoint submit_chunks (new_form_id : json) (chunk_idx : nat)
    (chunks : list (list json)) (api_calls total_copied : nat)
    : io (nat * nat) :=
  match chunks with
  | [] => ret (api_calls, total_copied)
  | chunk :: rest =>
      do _ <- except_http
                (execute svc (FormsBatchUpdate new_form_id (requests_body chunk)))
                (raise (PyException "Failed to duplicate chunk")) ;;
      let items_in_chunk := List.length (filter is_create_item chunk) in
      submit_chunks new_form_id (S chunk_idx) rest
        (S api_calls) (total_copied + items_in_chunk)
  end.

(** Lines 747-846. *)
Definition _duplicate_form_batch (form_id new_title : json) (chunk_size : Z)
    : io DuplicationResult :=
  except_http
    (do original <- get_form form_id ;;
     do items <- lift (Py.get original "items" (JArr [])) ;;
     do info <- lift (Py.get original "info" (JObj [])) ;;
     do description <- lift (Py.get info "description" (JStr "")) ;;
     do new_form <- create_form new_title description ;;
     do new_form_id <- lift (Py.getitem new_form "formId") ;;
     do has_settings <- lift (Py.contains "settings" original) ;;
     do settings_requests <-
       lift (if has_settings then
               let* settings := copy_settings original in
               Ok [update_settings settings]
             else Ok []) ;;
     do item_list <- lift (Py.iter items) ;;
     do creates <- lift (item_requests 0 item_list) ;;
     let batch_requests := (settings_requests ++ creates)%list in
     do counts <-
       match batch_requests with
       | [] => ret (2, 0)
       | _ :: _ =>
           if Z.leb (Z.of_nat (List.length batch_requests)) chunk_size then
             do _ <- except_http
                       (execute svc
                          (FormsBatchUpdate new_form_id (requests_body batch_requests)))
                       (raise (PyException "Failed to batch duplicate form")) ;;
             do n <- lift (Py.len items) ;;
             ret (3, n)
           else
             do chunks <- lift (chunks_of has_settings batch_requests chunk_size) ;;
             submit_chunks new_form_id 0 chunks 2 0
       end ;;
     do responder <- lift (Py.getitem new_form "responderUri") ;;
     do total <- lift (Py.len items) ;;
     ret {| newFormId := new_form_id;
            responderUri := responder;
            editUri := edit_uri new_form_id;
            copiedItems := snd counts;
            totalItems := total;
            apiCalls := fst counts;
            method := "batch";
            chunked := Some (Z.ltb chunk_size (Z.of_nat (List.length batch_requests))) |})
    (raise (PyException "Failed to duplicate form (batch method)")).

(** Lines 887-908: one write per item; a failed one is logged and
    skipped. *)
Fixpoint copy_items (new_form_id : json) (i : nat) (items : list json)
    (api_calls copied_count : nat) : io (nat * nat) :=
  match items with
  | [] => ret (api_calls, copied_count)
  | original_item :: rest =>
      do clean_item <- lift (_clean_item_for_duplication original_item) ;;
      do copied <- except_http
                     (do _ <- execute svc
                                (FormsBatchUpdate new_form_id
                                   (requests_body [create_item clean_item i])) ;;
                      ret true)
                     (ret false) ;;
      if copied
      then copy_items new_form_id (S i) rest (S api_calls) (S copied_count)
      else copy_items new_form_id (S i) rest api_calls copied_count
  end.

(** Lines 848-924. *)
Definition _duplicate_form_legacy (form_id new_title : json)
    : io DuplicationResult :=
  except_http
    (do original <- get_form form_id ;;
     do info <- lift (Py.get original "info" (JObj [])) ;;
     do description <- lift (Py.get info "description" (JStr "")) ;;
     do new_form <- create_form new_title description ;;
     do new_form_id <- lift (Py.getitem new_form "formId") ;;
     do has_settings <- lift (Py.contains "settings" original) ;;
     do api_calls <-
       (if has_settings then
          do settings <- lift (copy_settings original) ;;
          do _ <- execute svc
                    (FormsBatchUpdate new_form_id
                       (requests_body [update_settings settings])) ;;
          ret 3
        else ret 2) ;;
     do items <- lift (Py.get original "items" (JArr [])) ;;
     do item_list <- lift (Py.iter items) ;;
     do counts <- copy_items new_form_id 0 item_list api_calls 0 ;;
     do responder <- lift (Py.getitem new_form "responderUri") ;;
     do total <- lift (Py.len items) ;;
     ret {| newFormId := new_form_id;
            responderUri := responder;
            editUri := edit_uri new_form_id;
            copiedItems := snd counts;
            totalItems := total;
            apiCalls := fst counts;
            method := "legacy";
            chunked := None |})
    (raise (PyException "Failed to duplicate form")).

(** Lines 727-745. *)
Definition duplicate_form (form_id new_title : json) (use_batch : bool)
    (chunk_size : Z) : io DuplicationResult :=
  if use_batch then _duplicate_form_batch form_id new_title chunk_size
  else _duplicate_form_legacy form_id new_title.

(** Lines 181-231; [None] for an argument is [JNull]. *)
Definition update_form (form_id title description : json) : io json :=
  except_http
    (let requests :=
       ((match title with
         | JNull => []
         | _ => [update_form_info "title" title]
         end) ++
        (match description with
         | JNull => []
         | _ => [update_form_info "description" description]
         end))%list in
     match requests with
     | [] => raise (ValueError "Must provide either title or description to update")
     | _ :: _ =>
         do _ <- execute svc (FormsBatchUpdate form_id (requests_body requests)) ;;
         do _ <- (match title with
                  | JNull => ret tt
                  | _ => _sync_drive_name form_id title
                  end) ;;
         get_form form_id
     end)
    (raise (PyException "Failed to update form")).

(** Lines 434-438: the first item with the identifier. *)
Fixpoint find_item (item_id : json) (idx : nat) (items : list json)
    : result (option (nat * json)) :=
  match items with
  | [] => Ok None
  | item :: rest =>
      let* id := Py.get item "itemId" JNull in
      if Py.eq id item_id then Ok (Some (idx, item))
      else find_item item_id (S idx) rest
  end.

(** [if k in kwargs: update_item[k] = kwargs[k]; update_mask.append(k)] *)
Definition apply_kwarg (k : string) (kwargs : dict json)
    (st : json * list string) : result (json * list string) :=
  match dict_get k kwargs with
  | Some x =>
      let* item := Py.setitem (fst st) k x in
      Ok (item, (snd st ++ [k])%list)
  | None => Ok st
  end.

(** Lines 466-468. *)
Definition apply_required (kwargs : dict json) (st : json * list string)
    : result (json * list string) :=
  match dict_get "required" kwargs with
  | Some x =>
      let* is_question := Py.contains "questionItem" (fst st) in
      if is_question then
        let* question_item := Py.getitem (fst st) "questionItem" in
        let* question := Py.getitem question_item "question" in
        let* question := Py.setitem question "required" x in
        let* question_item := Py.setitem question_item "question" question in
        let* item := Py.setitem (fst st) "questionItem" question_item in
        Ok (item, (snd st ++ ["questionItem.question.required"])%list)
      else Ok st
  | None => Ok st
  end.

Definition update_item_request (item : json) (item_index : nat)
    (update_mask : list string) : json :=
  JObj [("updateItem",
         JObj [("item", item);
               ("location", JObj [("index", JNum (Z.of_nat item_index))]);
               ("updateMask", JStr (Str.join "," update_mask))])].

(** Lines 409-486. *)
Definition update_item (form_id item_id : json) (kwargs : dict json)
    : io json :=
  except_http
    (do form <- get_form form_id ;;
     do items <- lift (Py.get form "items" (JArr [])) ;;
     do item_list <- lift (Py.iter items) ;;
     do found <- lift (find_item item_id 0 item_list) ;;
     match found with
     | None =>
         raise (ValueError ("Item with ID '" ++ fstr item_id
                            ++ "' not found in form"))
     | Some (item_index, original_item) =>
         do item <- lift (Py.pop original_item "itemId") ;;
         do item <- lift (Py.update "questionItem"
                            (Py.update "question" (fun q => Py.pop q "questionId"))
                            item) ;;
         do item <- lift (Py.update "questionGroupItem"
                            (Py.update "questions" pop_question_ids) item) ;;
         do st <- lift (apply_kwarg "title" kwargs (item, [])) ;;
         do st <- lift (apply_kwarg "description" kwargs st) ;;
         do st <- lift (apply_required kwargs st) ;;
         match snd st with
         | [] => raise (ValueError "No fields to update")
         | _ :: _ =>
             execute svc
               (FormsBatchUpdate form_id
                  (requests_body [update_item_request (fst st) item_index (snd st)]))
         end
     end)
    (raise (PyException "Failed to update item")).

(** Lines 140-146 of [list_forms]: the two reads of one listed file,
    inside [try ... except Exception: response_count = 0].  An exception
    at the first read leaves the local variable [form] as it was, one at
    a later statement leaves it assigned; [form] is [None] while no
    assignment has been made. *)
Definition fetch_listed (form_id : json) (form : option json)
    : io (option json * nat) :=
  do fetched <- except_any
                  (do f <- execute svc (FormsGet form_id) ;; ret (Some f))
                  (ret None) ;;
  match fetched with
  | None => ret (form, 0)
  | Some f =>
      do response_count <-
        except_any
          (do responses <- execute svc (ResponsesList form_id []) ;;
           do l <- lift (Py.get responses "responses" (JArr [])) ;;
           do n <- lift (Py.len l) ;;
           ret n)
          (ret 0) ;;
      ret (Some f, response_count)
  end.

(** One entry of the list [list_forms] returns. *)
Definition listed_form (form_id title responder : json) (response_count : nat)
    : json :=
  JObj [("formId", form_id); ("title", title); ("responderUri", responder);
        ("responseCount", JNum (Z.of_nat response_count))].

(** Lines 138-153 of [list_forms]: the loop over the files Drive listed.
    The outcome is [None] when [form.get] is reached while [form] is
    unassigned, where Python raises [UnboundLocalError]. *)
Fixpoint list_forms_entries (files : list json) (form : option json)
    (forms : list json) : io (option (list json)) :=
  match files with
  | [] => ret (Some forms)
  | file :: rest =>
      do form_id <- lift (Py.getitem file "id") ;;
      do st <- fetch_listed form_id form ;;
      do title <- lift (Py.getitem file "name") ;;
      match fst st with
      | None => ret None
      | Some f =>
          do responder <- lift (Py.get f "responderUri" (JStr "")) ;;
          list_forms_entries rest (Some f)
            (forms ++ [listed_form form_id title responder (snd st)])%list
      end
  end.

(** Lines 135-159 of [list_forms]: what it makes of the answer [results]
    of the Drive listing. *)
Definition list_forms_of (results : json) : io (option json) :=
  do files <- lift (Py.get results "files" (JArr [])) ;;
  do file_list <- lift (Py.iter files) ;;
  do entries <- list_forms_entries file_list None [] ;;
  match entries with
  | None => ret None
  | Some forms =>
      do more <- lift (Py.contains "nextPageToken" results) ;;
      if more then
        do token <- lift (Py.getitem results "nextPageToken") ;;
        ret (Some (JObj [("forms", JArr forms); ("nextPageToken", token)]))
      else ret (Some (JObj [("forms", JArr forms)]))
  end.

(** Lines 251-271. *)
Definition _get_item_index (form_id item_id : json) : io nat :=
  do form <- get_form form_id ;;
  do items <- lift (Py.get form "items" (JArr [])) ;;
  do item_list <- lift (Py.iter items) ;;
  do found <- lift (find_item item_id 0 item_list) ;;
  match found with
  | Some (index, _) => ret index
  | None =>
      raise (ValueError ("Item with ID '" ++ fstr item_id ++ "' not found in form"))
  end.

(** Lines 273-407. *)
Definition add_question (form_id question_type title : json)
    (kwargs : dict json) : io json :=
  except_http
    (do question <- lift (build_question repr question_type kwargs) ;;
     execute svc
       (FormsBatchUpdate form_id
          (requests_body
             [add_question_request title question
                (kwarg kwargs "position" (JNum 0))])))
    (raise (PyException "Failed to add question")).

(** Lines 488-490. *)
Definition update_question (form_id item_id : json) (kwargs : dict json)
    : io json :=
  update_item form_id item_id kwargs.

(** Lines 492-520. *)
Definition delete_question (form_id item_id : json) : io json :=
  except_http
    (do item_index <- _get_item_index form_id item_id ;;
     execute svc
       (FormsBatchUpdate form_id (requests_body [delete_item_request item_index])))
    (raise (PyException "Failed to delete question")).

(** Lines 522-552. *)
Definition move_question (form_id item_id new_position : json) : io json :=
  except_http
    (do item_index <- _get_item_index form_id item_id ;;
     execute svc
       (FormsBatchUpdate form_id
          (requests_body [move_item_request item_index new_position])))
    (raise (PyException "Failed to move question")).

(** Lines 554-591; [None] for the position is [JNull]. *)
Definition add_section (form_id title description position : json) : io json :=
  except_http
    (do position <-
       (match position with
        | JNull =>
            do form <- get_form form_id ;;
            do items <- lift (Py.get form "items" (JArr [])) ;;
            do n <- lift (Py.len items) ;;
            ret (JNum (Z.of_nat n))
        | _ => ret position
        end) ;;
     execute svc
       (FormsBatchUpdate form_id
          (requests_body [add_section_request title description position])))
    (raise (PyException "Failed to add section")).

(** Lines 1018-1020 and 1034-1036: every pair of the mapping, in its
    order, applied to the two texts. *)
Fixpoint replace_all (replacements : list (string * string))
    (title desc : json) : result (json * json) :=
  match replacements with
  | [] => Ok (title, desc)
  | (placeholder, replacement) :: rest =>
      let* title := Py.replace placeholder replacement title in
      let* desc := Py.replace placeholder replacement desc in
      replace_all rest title desc
  end.

(** Lines 1027-1052. *)
Fixpoint personalize_items (form_id : json)
    (replacements : list (string * string)) (items : list json)
    (items_updated : nat) (updates_made : list string)
    : io (nat * list string) :=
  match items with
  | [] => ret (items_updated, updates_made)
  | item :: rest =>
      do item_id <- lift (Py.get item "itemId" JNull) ;;
      do title <- lift (Py.get item "title" (JStr "")) ;;
      do description <- lift (Py.get item "description" (JStr "")) ;;
      do new <- lift (replace_all replacements title description) ;;
      do new_item_title <- lift (Py.clean_strip (fst new)) ;;
      do new_item_desc <- lift (Py.clean_strip (snd new)) ;;
      do old_title <- lift (Py.clean_strip title) ;;
      do old_desc <- lift (Py.clean_strip description) ;;
      if negb (Py.eq new_item_title old_title) || negb (Py.eq new_item_desc old_desc)
      then
        let update_kwargs :=
          if Py.truthy description
          then [("title", new_item_title); ("description", new_item_desc)]
          else [("title", new_item_title)] in
        do updated <- except_any
                        (do _ <- update_item form_id item_id update_kwargs ;;
                         ret true)
                        (ret false) ;;
        let note :=
          "Updated: " ++ Str.take 40 (fstr new_item_title) ++ "..." in
        if updated
        then personalize_items form_id replacements rest (S items_updated)
               (updates_made ++ [note])%list
        else personalize_items form_id replacements rest items_updated updates_made
      else personalize_items form_id replacements rest items_updated updates_made
  end.

(** Lines 991-1062. *)
Definition personalize_form (form_id : json)
    (replacements : list (string * string)) : io PersonalizeResult :=
  except_http
    (do form <- get_form form_id ;;
     do info <- lift (Py.get form "info" (JObj [])) ;;
     do form_title <- lift (Py.get info "title" (JStr "")) ;;
     do form_desc <- lift (Py.get info "description" (JStr "")) ;;
     do new <- lift (replace_all replacements form_title form_desc) ;;
     do updates_made <-
       (if negb (Py.eq (fst new) form_title) || negb (Py.eq (snd new) form_desc)
        then
          do _ <- update_form form_id (fst new) (snd new) ;;
          ret ["Form title/description updated"]
        else ret []) ;;
     do items <- lift (Py.get form "items" (JArr [])) ;;
     do item_list <- lift (Py.iter items) ;;
     do counts <- personalize_items form_id replacements item_list 0 updates_made ;;
     do total <- lift (Py.len items) ;;
     ret {| p_formId := form_id;
            itemsUpdated := fst counts;
            p_totalItems := total;
            updates := snd counts |})
    (raise (PyException "Failed to personalize form")).

(** What [csv.writer(output).writerow(row)] appends to [output]. *)
Variable writerow : list json -> string.

(** Lines 593-616. *)
Definition list_responses (form_id : json) (page_size : Z) (page_token : json)
    : io json :=
  except_http
    (let params :=
       if Py.truthy page_token
       then [("pageSize", JNum page_size); ("pageToken", page_token)]
       else [("pageSize", JNum page_size)] in
     execute svc (ResponsesList form_id params))
    (raise (PyException "Failed to list responses")).

(** Lines 684-690: one column per row question of a grid. *)
Definition header_of_row (grid_title q : json)
    (st : list (json * json) * list json)
    : result (list (json * json) * list json) :=
  let* question_id := Py.get q "questionId" JNull in
  let* row_question := Py.get q "rowQuestion" (JObj []) in
  let* row_title := Py.get row_question "title" (JStr "") in
  if Py.truthy question_id then
    let full_title :=
      if Py.truthy row_title
      then JStr (fstr grid_title ++ " - " ++ fstr row_title)
      else grid_title in
    let* question_map := question_map_set question_id full_title (fst st) in
    Ok (question_map, (snd st ++ [full_title])%list)
  else Ok st.

(** Lines 675-690. *)
Definition header_of_item (item : json)
    (st : list (json * json) * list json)
    : result (list (json * json) * list json) :=
  let* is_question := Py.contains "questionItem" item in
  if is_question then
    let* question_item := Py.getitem item "questionItem" in
    let* question := Py.get question_item "question" (JObj []) in
    let* question_id := Py.get question "questionId" JNull in
    if Py.truthy question_id then
      let* title := Py.get item "title" (JStr ("Question " ++ fstr question_id)) in
      let* question_map := question_map_set question_id title (fst st) in
      Ok (question_map, (snd st ++ [title])%list)
    else Ok st
  else
    let* is_group := Py.contains "questionGroupItem" item in
    if is_group then
      let* grid_title := Py.get item "title" (JStr "Grid") in
      let* group := Py.getitem item "questionGroupItem" in
      let* questions := Py.get group "questions" (JArr []) in
      let* qs := Py.iter questions in
      foldM (header_of_row grid_title) qs st
    else Ok st.

(** Lines 636-725. *)
Definition export_responses_csv (form_id : json)
    (include_timestamps include_email : bool) : io ExportResult :=
  except_http
    (do form <- get_form form_id ;;
     do responses_data <- list_responses form_id 1000 JNull ;;
     do responses <- lift (Py.get responses_data "responses" (JArr [])) ;;
     if negb (Py.truthy responses) then ret {| csv := ""; rowCount := 0 |}
     else
       do items <- lift (Py.get form "items" (JArr [])) ;;
       do item_list <- lift (Py.iter items) ;;
       do st <- lift (foldM header_of_item item_list
                        ([], header_start include_timestamps include_email)) ;;
       do response_list <- lift (Py.iter responses) ;;
       do rows <- lift (mapM (response_row include_timestamps include_email
                                (map fst (fst st)))
                          response_list) ;;
       do n <- lift (Py.len responses) ;;
       ret {| csv := writerow (snd st) ++ String.concat "" (map writerow rows);
              rowCount := n |})
    (raise (PyException "Failed to export responses")).

End Client.

End Gforms.

(** [src/forms_api.py] *)
Module RootApi.

(** [FormsAPI._clean_item_for_duplication], lines 728-777: identifiers
    are removed, every text is copied as it is. *)
Definition _clean_item_for_duplication (original_item : json)
    : result json :=
  let* clean_item := copy_field Ok "title" original_item [] in
  let* clean_item := copy_field Ok "description" original_item clean_item in
  let* is_question := Py.contains "questionItem" original_item in
  if is_question then
    let* question_item := Py.getitem original_item "questionItem" in
    let* question := Py.getitem question_item "question" in
    let* question := Py.copy question in
    let* question := Py.pop question "questionId" in
    let* new_item := build_question_item question_item question in
    Ok (JObj (dict_set "questionItem" new_item clean_item))
  else
    let* is_group := Py.contains "questionGroupItem" original_item in
    if is_group then
      let* group := Py.getitem original_item "questionGroupItem" in
      let* group := Py.update "questions" pop_question_ids group in
      Ok (JObj (dict_set "questionGroupItem" group clean_item))
    else
      let* clean_item := copy_first_kind plain_kinds original_item clean_item in
      Ok (JObj clean_item).

(** What [duplicate_form] of this copy returns. *)
Record DuplicateResult : Type := {
    newFormId : json;
    responderUri : json;
    copiedItems : nat;
    totalItems : nat
  }.

Section Client.

Variable svc : remote.
Variable repr : json -> string.
Variable writerow : list json -> string.

Definition fstr (v : json) : string :=
  match v with JStr s => s | _ => repr v end.

(** Lines 24-84. *)
Definition create_form (title description : json) : io json :=
  except_http
    (do result <- execute svc (FormsCreate (JObj [("info", JObj [("title", title)])])) ;;
     do form_id <- lift (Py.getitem result "formId") ;;
     do _ <- (if Py.truthy description then
                do _ <- execute svc
                          (FormsBatchUpdate form_id
                             (requests_body
                                [update_form_info "description" description;
                                 default_quiz_settings])) ;;
                ret tt
              else ret tt) ;;
     do responder <- lift (Py.get result "responderUri" JNull) ;;
     ret (JObj [("formId", form_id); ("responderUri", responder);
                ("editUri",
                 JStr ("https://docs.google.com/forms/d/" ++ fstr form_id ++ "/edit"))]))
    (raise (PyException "Failed to create form")).

(** Lines 140-155. *)
Definition get_form (form_id : json) : io json :=
  except_http (execute svc (FormsGet form_id))
    (raise (PyException "Failed to get form")).

(** Lines 157-204; [None] for an argument is [JNull]. *)
Definition update_form (form_id title description : json) : io json :=
  except_http
    (let requests :=
       ((match title with
         | JNull => []
         | _ => [update_form_info "title" title]
         end) ++
        (match description with
         | JNull => []
         | _ => [update_form_info "description" description]
         end))%list in
     match requests with
     | [] => raise (ValueError "Must provide either title or description to update")
     | _ :: _ =>
         do _ <- execute svc (FormsBatchUpdate form_id (requests_body requests)) ;;
         get_form form_id
     end)
    (raise (PyException "Failed to update form")).

(** Lines 224-244: the loop is the one of [update_item] in the packaged
    client. *)
Definition _get_item_index (form_id item_id : json) : io nat :=
  do form <- get_form form_id ;;
  do items <- lift (Py.get form "items" (JArr [])) ;;
  do item_list <- lift (Py.iter items) ;;
  do found <- lift (Gforms.find_item item_id 0 item_list) ;;
  match found with
  | Some (index, _) => ret index
  | None =>
      raise (ValueError ("Item with ID '" ++ fstr item_id ++ "' not found in form"))
  end.

(** Lines 407-413. *)
Definition set_required (required : json) (updates : json) : result json :=
  let* has_item := Py.contains "questionItem" updates in
  let* updates :=
    if has_item then Ok updates
    else Py.setitem updates "questionItem" (JObj []) in
  let* question_item := Py.getitem updates "questionItem" in
  let* has_question := Py.contains "question" question_item in
  let* question_item :=
    if has_question then Ok question_item
    else Py.setitem question_item "question" (JObj []) in
  let* question := Py.getitem question_item "question" in
  let* question := Py.setitem question "required" required in
  let* question_item := Py.setitem question_item "question" question in
  Py.setitem updates "questionItem" question_item.

(** Lines 382-428: only the changed fields go out. *)
Definition update_question (form_id item_id : json) (kwargs : dict json)
    : io json :=
  except_http
    (do item_index <- _get_item_index form_id item_id ;;
     let st :=
       match dict_get "title" kwargs with
       | Some t => (JObj [("title", t)], ["title"])
       | None => (JObj [], [])
       end in
     do st <-
       lift (match dict_get "required" kwargs with
             | Some r =>
                 let* updates := set_required r (fst st) in
                 Ok (updates, (snd st ++ ["questionItem.question.required"])%list)
             | None => Ok st
             end) ;;
     execute svc
       (FormsBatchUpdate form_id
          (requests_body
             [Gforms.update_item_request (fst st) item_index (snd st)])))
    (raise (PyException "Failed to update question")).

(** Lines 693-716. *)
Fixpoint copy_items (new_form_id : json) (i : nat) (items : list json)
    (copied_count : nat) : io nat :=
  match items with
  | [] => ret copied_count
  | original_item :: rest =>
      do clean_item <- lift (_clean_item_for_duplication original_item) ;;
      do copied <- except_http
                     (do _ <- execute svc
                                (FormsBatchUpdate new_form_id
                                   (requests_body [create_item clean_item i])) ;;
                      ret true)
                     (ret false) ;;
      if copied
      then copy_items new_form_id (S i) rest (S copied_count)
      else copy_items new_form_id (S i) rest copied_count
  end.

(** Lines 652-726: the settings go out as they were read. *)
Definition duplicate_form (form_id new_title : json) : io DuplicateResult :=
  except_http
    (do original <- get_form form_id ;;
     do info <- lift (Py.get original "info" (JObj [])) ;;
     do description <- lift (Py.get info "description" (JStr "")) ;;
     do new_form <- create_form new_title description ;;
     do new_form_id <- lift (Py.getitem new_form "formId") ;;
     do has_settings <- lift (Py.contains "settings" original) ;;
     do _ <-
       (if has_settings then
          do settings <- lift (Py.getitem original "settings") ;;
          do _ <- execute svc
                    (FormsBatchUpdate new_form_id
                       (requests_body [update_settings settings])) ;;
          ret tt
        else ret tt) ;;
     do items <- lift (Py.get original "items" (JArr [])) ;;
     do item_list <- lift (Py.iter items) ;;
     do copied_count <- copy_items new_form_id 0 item_list 0 ;;
     do responder <- lift (Py.getitem new_form "responderUri") ;;
     do total <- lift (Py.len items) ;;
     ret {| newFormId := new_form_id;
            responderUri := responder;
            copiedItems := copied_count;
            totalItems := total |})
    (raise (PyException "Failed to duplicate form")).

(** Lines 531-554. *)
Definition list_responses (form_id : json) (page_size : Z) (page_token : json)
    : io json :=
  except_http
    (let params :=
       if Py.truthy page_token
       then [("pageSize", JNum page_size); ("pageToken", page_token)]
       else [("pageSize", JNum page_size)] in
     execute svc (ResponsesList form_id params))
    (raise (PyException "Failed to list responses")).

(** Lines 611-615: one column per question item, keyed by the item's
    identifier. *)
Definition header_of_item (item : json)
    (st : list (json * json) * list json)
    : result (list (json * json) * list json) :=
  let* is_question := Py.contains "questionItem" item in
  if is_question then
    let* question_id := Py.getitem item "itemId" in
    let* title := Py.get item "title" (JStr ("Question " ++ fstr question_id)) in
    let* question_map := question_map_set question_id title (fst st) in
    Ok (question_map, (snd st ++ [title])%list)
  else Ok st.

(** Lines 574-650. *)
Definition export_responses_csv (form_id : json)
    (include_timestamps include_email : bool) : io ExportResult :=
  except_http
    (do form <- get_form form_id ;;
     do responses_data <- list_responses form_id 1000 JNull ;;
     do responses <- lift (Py.get responses_data "responses" (JArr [])) ;;
     if negb (Py.truthy responses) then ret {| csv := ""; rowCount := 0 |}
     else
       do items <- lift (Py.get form "items" (JArr [])) ;;
       do item_list <- lift (Py.iter items) ;;
       do st <- lift (foldM header_of_item item_list
                        ([], header_start include_timestamps include_email)) ;;
       do response_list <- lift (Py.iter responses) ;;
       do rows <- lift (mapM (response_row include_timestamps include_email
                                (map fst (fst st)))
                          response_list) ;;
       do n <- lift (Py.len responses) ;;
       ret {| csv := writerow (snd st) ++ String.concat "" (map writerow rows);
              rowCount := n |})
    (raise (PyException "Failed to export responses")).

End Client.

End RootApi.

(** [src/src/gforms/models.py] *)
Module Models.

(** [class QuestionType(str, Enum)], lines 12-25. *)
Inductive QuestionType : Type :=
| SHORT_ANSWER
| PARAGRAPH
| MULTIPLE_CHOICE
| CHECKBOXES
| DROPDOWN
| LINEAR_SCALE
| DATE
| TIME
| FILE_UPLOAD
| MULTIPLE_CHOICE_GRID
| CHECKBOX_GRID
| RATING.

Definition value (t : QuestionType) : string :=
  match t with
  | SHORT_ANSWER => "SHORT_ANSWER"
  | PARAGRAPH => "PARAGRAPH"
  | MULTIPLE_CHOICE => "MULTIPLE_CHOICE"
  | CHECKBOXES => "CHECKBOXES"
  | DROPDOWN => "DROPDOWN"
  | LINEAR_SCALE => "LINEAR_SCALE"
  | DATE => "DATE"
  | TIME => "TIME"
  | FILE_UPLOAD => "FILE_UPLOAD"
  | MULTIPLE_CHOICE_GRID => "MULTIPLE_CHOICE_GRID"
  | CHECKBOX_GRID => "CHECKBOX_GRID"
  | RATING => "RATING"
  end.

End Models.

(** [src/src/gtools/templates.py] *)
Module Templates.

(** Lines 159-170: a choice question. *)
Definition export_choice (question : json) (q : dict json) : result (dict json) :=
  let* choice := Py.getitem question "choiceQuestion" in
  let* choice_type := Py.get choice "type" (JStr "RADIO") in
  let* opts := Py.get choice "options" (JArr []) in
  let* xs := Py.iter opts in
  let* options := mapM (fun opt => Py.get opt "value" (JStr "")) xs in
  let q :=
    if Py.is_str "RADIO" choice_type then dict_set "type" (JStr "MULTIPLE_CHOICE") q
    else if Py.is_str "CHECKBOX" choice_type then dict_set "type" (JStr "CHECKBOXES") q
    else if Py.is_str "DROP_DOWN" choice_type then dict_set "type" (JStr "DROPDOWN") q
    else q in
  Ok (dict_set "options" (JArr options) q).

(** [if v.get(k): q[k] = v[k]] *)
Definition copy_if_set (k : string) (v : json) (q : dict json)
    : result (dict json) :=
  let* x := Py.get v k JNull in
  if Py.truthy x then
    let* x := Py.getitem v k in
    Ok (dict_set k x q)
  else Ok q.

(** Lines 172-180: a scale question. *)
Definition export_scale (question : json) (q : dict json) : result (dict json) :=
  let* scale := Py.getitem question "scaleQuestion" in
  let q := dict_set "type" (JStr "LINEAR_SCALE") q in
  let* low := Py.get scale "low" (JNum 1) in
  let q := dict_set "low" low q in
  let* high := Py.get scale "high" (JNum 5) in
  let q := dict_set "high" high q in
  let* q := copy_if_set "lowLabel" scale q in
  copy_if_set "highLabel" scale q.

(** Lines 188-193: a file upload. *)
Definition export_file_upload (question : json) (q : dict json)
    : result (dict json) :=
  let q := dict_set "type" (JStr "FILE_UPLOAD") q in
  let* fu := Py.getitem question "fileUploadQuestion" in
  let* q := copy_if_set "folderId" fu q in
  let* max_files := Py.get fu "maxFiles" (JNum 1) in
  Ok (dict_set "maxFiles" max_files q).

(** Lines 141-198, the body of the loop of [export_to_template]: the
    entry of one item, [None] for an item that is no question. *)
Definition export_question (item : json) : result (option json) :=
  let* is_question := Py.contains "questionItem" item in
  if negb is_question then Ok None
  else
    let* question_item := Py.getitem item "questionItem" in
    let* question := Py.get question_item "question" (JObj []) in
    let* title := Py.get item "title" (JStr "Untitled") in
    let* required := Py.get question "required" (JBool false) in
    let q := [("title", title); ("required", required)] in
    let* is_text := Py.contains "textQuestion" question in
    let* q :=
      if is_text then
        let* text_question := Py.getitem question "textQuestion" in
        let* paragraph := Py.get text_question "paragraph" (JBool false) in
        Ok (dict_set "type"
              (JStr (if Py.truthy paragraph then "PARAGRAPH" else "SHORT_ANSWER")) q)
      else
        let* is_choice := Py.contains "choiceQuestion" question in
        if is_choice then export_choice question q
        else
          let* is_scale := Py.contains "scaleQuestion" question in
          if is_scale then export_scale question q
          else
            let* is_date := Py.contains "dateQuestion" question in
            if is_date then Ok (dict_set "type" (JStr "DATE") q)
            else
              let* is_time := Py.contains "timeQuestion" question in
              if is_time then Ok (dict_set "type" (JStr "TIME") q)
              else
                let* is_upload := Py.contains "fileUploadQuestion" question in
                if is_upload then export_file_upload question q
                else Ok (dict_set "type" (JStr "SHORT_ANSWER") q) in
    Ok (Some (JObj q)).

(** The entries that are questions, in order. *)
Definition entries (exported : list (option json)) : list json :=
  flat_map (fun e => match e with Some q => [q] | None => [] end) exported.

(** Lines 130-198 of [export_to_template]: the template built from the
    form read, before it is rendered as YAML. *)
Definition template (form : json) : result json :=
  let* info := Py.get form "info" (JObj []) in
  let* title := Py.get info "title" (JStr "Untitled") in
  let* description := Py.get info "description" (JStr "") in
  let* items := Py.get form "items" (JArr []) in
  let* item_list := Py.iter items in
  let* exported := mapM export_question item_list in
  Ok (JObj [("form", JObj [("title", title); ("description", description)]);
            ("questions", JArr (entries exported))]).

End Templates.

(** [src/src/gtools/forms/commands.py] *)
Module Commands.

(** A backslash followed by the letter n, as typed on a command line. *)
Definition escaped_newline : string :=
  String "092"%char (String "n"%char EmptyString).

(** [_process_text], lines 11-18. *)
Definition _process_text (text : json) : result json :=
  if Py.truthy text
  then Py.replace escaped_newline (String Str.LF EmptyString) text
  else Ok text.

End Commands.

(** *** What the sanitizer's properties speak of *)

(** A text value without line breaks. *)
Definition clean_text (v : json) : Prop :=
  exists s, v = JStr s /\ Str.no_linebreak s.

(** An object that does not carry the key [k]. *)
Definition lacks (k : string) (v : json) : Prop :=
  exists d, v = JObj d /\ dict_get k d = None.

Definition item_kinds : list string :=
  "questionItem" :: "questionGroupItem" :: plain_kinds.

(** The item-kind payload of an item: the first kind it carries, with
  its value. *)
Fixpoint first_kind (kinds : list string) (item : json)
    : option (string * json) :=
  match kinds with
  | [] => None
  | k :: rest =>
      match json_path [k] item with
      | Some v => Some (k, v)
      | None => first_kind rest item
      end
  end.

Definition kind_payload (item : json) : option (string * json) :=
  first_kind item_kinds item.

(** The texts an item resubmits: title, description, the labels of a
  scale question, the value of each option of a choice question and of
  a grid's columns. *)
Definition option_values_clean (options : option json) : Prop :=
  forall opts o v,
    options = Some (JArr opts) -> In o opts ->
    json_path ["value"] o = Some v -> clean_text v.

Definition resubmitted_texts_clean (c : json) : Prop :=
  (forall v, json_path ["title"] c = Some v -> clean_text v) /\
  (forall v, json_path ["description"] c = Some v -> clean_text v) /\
  (forall v, json_path ["questionItem"; "question"; "scaleQuestion"; "lowLabel"] c
             = Some v -> clean_text v) /\
  (forall v, json_path ["questionItem"; "question"; "scaleQuestion"; "highLabel"] c
             = Some v -> clean_text v) /\
  option_values_clean
    (json_path ["questionItem"; "question"; "choiceQuestion"; "options"] c) /\
  option_values_clean
    (json_path ["questionGroupItem"; "grid"; "columns"; "options"] c).

(** No identifier the server assigned is left. *)
Definition no_identifiers (c : json) : Prop :=
  lacks "itemId" c /\
  (forall q, json_path ["questionItem"; "question"] c = Some q ->
             lacks "questionId" q) /\
  (forall qs q, json_path ["questionGroupItem"; "questions"] c = Some (JArr qs) ->
                In q qs -> lacks "questionId" q).

(** *** What the engine's properties speak of *)

(** The remote side never answers with an error. *)
Definition no_failure (svc : remote) : Prop := forall h c, svc h c <> None.

(** The form and the operations of a batched write. *)
Definition batch_body (c : call) : option (json * list json) :=
  match c with
  | FormsBatchUpdate form_id body =>
      match json_path ["requests"] body with
      | Some (JArr requests) => Some (form_id, requests)
      | _ => None
      end
  | _ => None
  end.

(** Every operation written by a run, in order, with the form it was
  written to. *)
Definition writes (trace : list call) : list (json * json) :=
  flat_map (fun c =>
              match batch_body c with
              | Some (form_id, requests) => map (pair form_id) requests
              | None => []
              end) trace.

(** A settings replacement: [updateSettings] with the wildcard mask. *)
Definition is_replace_settings (r : json) : bool :=
  match json_path ["updateSettings"; "updateMask"] r with
  | Some (JStr mask) => String.eqb mask "*"
  | _ => false
  end.

(** The operations of the copy phase. *)
Definition is_copy_request (r : json) : bool :=
  is_create_item r || is_replace_settings r.

(** The batched writes of the copy phase, each as the list of its
  operations. *)
Fixpoint copy_calls (trace : list call) : list (list json) :=
  match trace with
  | [] => []
  | c :: rest =>
      match batch_body c with
      | Some (_, requests) =>
          if existsb is_copy_request requests
          then requests :: copy_calls rest
          else copy_calls rest
      | None => copy_calls rest
      end
  end.

(** [ceil(a / b)] *)
Definition ceil_div (a b : nat) : nat := (a + b - 1) / b.

Definition bool_to_nat (b : bool) : nat := if b then 1 else 0.

(** One batched write to a form. *)
Definition batch_call (form_id : json) (requests : list json) : call :=
  FormsBatchUpdate form_id (requests_body requests).

(** The calls [create_form] of the packaged client makes when it
  returns: the creation, the description update when there is a
  description, the Drive rename. *)
Definition create_form_calls (title description form_id : json) : list call :=
  (FormsCreate (JObj [("info", JObj [("title", title)])])
   :: (if Py.truthy description
       then [batch_call form_id
               [update_form_info "description" description; default_quiz_settings]]
       else [])
   ++ [DriveFilesUpdate form_id (JObj [("name", title)])])%list.

(** What a duplication reads from the source form and builds from it:
  the description, whether there is a settings block, the settings
  replacement, the items and their creation requests. *)
Definition built_from (original description : json) (has_settings : bool)
    (settings_requests item_list creates : list json) : Prop :=
  (exists info,
      Py.get original "info" (JObj []) = Ok info /\
      Py.get info "description" (JStr "") = Ok description) /\
  Py.contains "settings" original = Ok has_settings /\
  (if has_settings
   then exists settings,
          Gforms.copy_settings original = Ok settings /\
          settings_requests = [update_settings settings]
   else settings_requests = []) /\
  (exists items,
      Py.get original "items" (JArr []) = Ok items /\
      Py.iter items = Ok item_list) /\
  Gforms.item_requests 0 item_list = Ok creates.

(** The batched writes of the batch path for a sequence of operations. *)
Definition planned_chunks (has_settings : bool) (batch_requests : list json)
    (chunk_size : Z) : list (list json) :=
  match batch_requests with
  | [] => []
  | _ :: _ =>
      if Z.leb (Z.of_nat (List.length batch_requests)) chunk_size
      then [batch_requests]
      else Gforms.build_chunks has_settings batch_requests (Z.to_nat chunk_size)
  end.

(** What both duplication paths read and build before the copy phase:
  the source form, the destination [create_form] returned with the
  trace up to there, and what [built_from] lists. *)
Record preparation : Type := {
  p_original : json;
  p_description : json;
  p_new_form : json;
  p_form_id : json;
  p_responder : json;
  p_has_settings : bool;
  p_settings_requests : list json;
  p_item_list : list json;
  p_creates : list json;
  p_trace : list call
}.

Definition prepared (svc : remote) (repr : json -> string)
    (form_id new_title : json) (p : preparation) : Prop :=
  svc [] (FormsGet form_id) = Some (p_original p) /\
  built_from (p_original p) (p_description p) (p_has_settings p)
    (p_settings_requests p) (p_item_list p) (p_creates p) /\
  Gforms.create_form svc repr new_title (p_description p) [FormsGet form_id]
  = (Ok (p_new_form p), p_trace p) /\
  Py.getitem (p_new_form p) "formId" = Ok (p_form_id p) /\
  Py.getitem (p_new_form p) "responderUri" = Ok (p_responder p).

(** All the operations of the copy phase, in order. *)
Definition copy_requests (p : preparation) : list json :=
  (p_settings_requests p ++ p_creates p)%list.

(** Two runs wrote the same operations to the same forms, in the same
  order, and report the same counts for the same destination. *)
Definition same_output (rb rl : DuplicationResult) (tb tl : list call) : Prop :=
  writes tl = writes tb /\
  copiedItems rl = copiedItems rb /\
  totalItems rl = totalItems rb /\
  newFormId rl = newFormId rb.

(** How a batch run [r], [t] of a source with [totalItems r] items wrote
  its operations, for a chunk size [c]: the settings replacement (when
  the source has a settings block) and the item creations, in one
  batched write when they are at most [c] together, and otherwise in
  [ceil_div (totalItems r) c] writes of at most [c] items with the
  settings replacement in front of the first. *)
Definition written_in_chunks (svc : remote) (form_id : json) (c : nat)
    (r : DuplicationResult) (t : list call) : Prop :=
  exists (hs : bool) (settings_requests creates : list json),
    (exists original,
        svc [] (FormsGet form_id) = Some original /\
        Py.contains "settings" original = Ok hs) /\
    List.length settings_requests = bool_to_nat hs /\
    Forall (fun q => is_replace_settings q = true) settings_requests /\
    List.length creates = totalItems r /\
    Forall (fun q => is_create_item q = true) creates /\
    concat (copy_calls t) = (settings_requests ++ creates)%list /\
    (totalItems r + bool_to_nat hs <= c ->
     copy_calls t = match (settings_requests ++ creates)%list with
                    | [] => []
                    | _ :: _ => [(settings_requests ++ creates)%list]
                    end) /\
    (c < totalItems r + bool_to_nat hs ->
     List.length (copy_calls t) = ceil_div (totalItems r) c /\
     exists rest,
       copy_calls t = (settings_requests ++ firstn c creates)%list :: rest /\
       concat rest = skipn c creates /\
       Forall (fun ch : list json => 0 < List.length ch <= c) rest).

(** How a batch run [r], [t] went for a source without items: nothing
  is copied, the count of calls is 2 (the fetch and [create_form], whose
  own calls are the ones listed) when the source has no settings block,
  and 3 with one batched write of the settings replacement when it has
  one. *)
Definition copied_nothing (svc : remote) (form_id new_title : json)
    (r : DuplicationResult) (t : list call) : Prop :=
  copiedItems r = 0 /\ totalItems r = 0 /\
  filter (fun w => is_create_item (snd w)) (writes t) = [] /\
  exists original description hs,
    svc [] (FormsGet form_id) = Some original /\
    Py.contains "settings" original = Ok hs /\
    (hs = false ->
     apiCalls r = 2 /\
     t = FormsGet form_id
         :: create_form_calls new_title description (newFormId r)) /\
    (hs = true ->
     apiCalls r = 3 /\
     exists settings,
       t = (FormsGet form_id
            :: create_form_calls new_title description (newFormId r)
            ++ [batch_call (newFormId r) [update_settings settings]])%list).

(** The remote side answers every call of [calls], made in that order
  after the calls of [h]. *)
Definition answered (svc : remote) (h : list call) (calls : list call) : Prop :=
  forall pre c post, calls = (pre ++ c :: post)%list -> svc (h ++ pre)%list c <> None.

(** The pairs of a mapping applied to a text one after the other, each
  to the text the pairs before it produced. *)
Definition substitute (replacements : list (string * string)) (text : string)
    : string :=
  fold_left (fun acc pr => Str.replace (fst pr) (snd pr) acc) replacements text.

(** A computation only adds calls to the trace. *)
Definition extends {A : Type} (m : io A) : Prop :=
  forall h, exists ext, snd (m h) = (h ++ ext)%list.

(** *** What the properties of the item operations speak of *)

(** The items of a form, as a loop over [form.get('items', [])] visits
  them. *)
Definition items_of (form : json) : result (list json) :=
  let* items := Py.get form "items" (JArr []) in
  Py.iter items.

(** *** What a personalisation run does with each text *)

(** The text of the field [k] of the [info] of a form, as lines
  1013-1014 of [personalize_form] read it: the empty text when the form
  has no [info] or the [info] has no such field. *)
Definition form_text (form : json) (k : string) : option string :=
  match (let* info := Py.get form "info" (JObj []) in
         Py.get info k (JStr "")) with
  | Ok (JStr s) => Some s
  | _ => None
  end.

(** The text of the field [k] of an item, as lines 1029-1030 read it:
  the empty text when the item has no such field. *)
Definition item_text (item : json) (k : string) : option string :=
  match Py.get item k (JStr "") with
  | Ok (JStr s) => Some s
  | _ => None
  end.

(** Line breaks replaced and the ends stripped, as an item's text is
  sent. *)
Definition cleaned (s : string) : string := Str.strip (Str.clean_newlines s).

(** The requests of the form-level update of a form titled [t] and
  described by [d]: none when the pairs change neither text; otherwise
  the write of both texts, each after all the pairs in mapping order,
  the rename of the Drive file and the read that [update_form] ends
  with. *)
Definition form_update_calls (replacements : list (string * string))
    (form_id : json) (t d : string) : list call :=
  if String.eqb (substitute replacements t) t
     && String.eqb (substitute replacements d) d
  then []
  else [batch_call form_id
          [update_form_info "title" (JStr (substitute replacements t));
           update_form_info "description" (JStr (substitute replacements d))];
        DriveFilesUpdate form_id
          (JObj [("name", JStr (substitute replacements t))]);
        FormsGet form_id].

(** The pairs change what is sent of an item with title [t] and
  description [d]. *)
Definition item_changed (replacements : list (string * string))
    (t d : string) : bool :=
  negb (String.eqb (cleaned (substitute replacements t)) (cleaned t))
  || negb (String.eqb (cleaned (substitute replacements d)) (cleaned d)).

(** The keyword arguments of the update of such an item: its title
  after all the pairs in mapping order, and its description likewise
  unless the item has none. *)
Definition item_update_kwargs (replacements : list (string * string))
    (t d : string) : dict json :=
  ("title", JStr (cleaned (substitute replacements t)))
  :: (if String.eqb d "" then []
      else [("description", JStr (cleaned (substitute replacements d)))]).

(** What a run does with the items of the form, from the trace [h] to
  the trace [h'], counting the items updated: an item the pairs leave
  as it is costs no request; for any other item [update_item] is called
  with the keyword arguments above, and the item counts when that call
  returns. *)
Inductive items_personalized (svc : remote) (repr : json -> string)
    (form_id : json) (replacements : list (string * string))
    : list json -> list call -> list call -> nat -> Prop :=
| items_done (h : list call) :
    items_personalized svc repr form_id replacements [] h h 0
| item_kept (item : json) (rest : list json) (t d : string)
    (h h' : list call) (n : nat) :
    item_text item "title" = Some t ->
    item_text item "description" = Some d ->
    item_changed replacements t d = false ->
    items_personalized svc repr form_id replacements rest h h' n ->
    items_personalized svc repr form_id replacements (item :: rest) h h' n
| item_updated (item : json) (rest : list json) (t d : string)
    (item_id answer : json) (h h1 h' : list call) (n : nat) :
    item_text item "title" = Some t ->
    item_text item "description" = Some d ->
    item_changed replacements t d = true ->
    Py.get item "itemId" JNull = Ok item_id ->
    Gforms.update_item svc repr form_id item_id
      (item_update_kwargs replacements t d) h = (Ok answer, h1) ->
    items_personalized svc repr form_id replacements rest h1 h' n ->
    items_personalized svc repr form_id replacements (item :: rest) h h' (S n)
| item_not_updated (item : json) (rest : list json) (t d : string)
    (item_id : json) (e : exn) (h h1 h' : list call) (n : nat) :
    item_text item "title" = Some t ->
    item_text item "description" = Some d ->
    item_changed replacements t d = true ->
    Py.get item "itemId" JNull = Ok item_id ->
    Gforms.update_item svc repr form_id item_id
      (item_update_kwargs replacements t d) h = (Raise e, h1) ->
    items_personalized svc repr form_id replacements rest h1 h' n ->
    items_personalized svc repr form_id replacements (item :: rest) h h' n.

(** How a personalisation run that returned [r] with the trace [tr]
  treated the form [form], titled [t] and described by [d]: every text
  goes through the pairs in mapping order, each pair applied to all of
  the text the earlier pairs left; after the read of the form come the
  requests of the form-level update, then those of the items, and
  [itemsUpdated] counts the items whose update returned. *)
Definition personalized_in_order (svc : remote) (repr : json -> string)
    (replacements : list (string * string)) (form_id form : json)
    (t d : string) (r : PersonalizeResult) (tr : list call) : Prop :=
  (forall a b,
      Gforms.replace_all replacements (JStr a) (JStr b)
      = Ok (JStr (substitute replacements a), JStr (substitute replacements b))) /\
  (forall p q a,
      substitute (replacements ++ [(p, q)]) a
      = Str.replace p q (substitute replacements a)) /\
  (exists items,
      items_of form = Ok items /\
      items_personalized svc repr form_id replacements items
        (FormsGet form_id :: form_update_calls replacements form_id t d) tr
        (itemsUpdated r)) /\
  (exists rest,
      tr = (FormsGet form_id :: form_update_calls replacements form_id t d
            ++ rest)%list) /\
  substitute [("NAME", "Alice Bob")] "Hi NAME, welcome" = "Hi Alice Bob, welcome" /\
  substitute [("A", "B"); ("B", "C")] "A" = "C".

(** [item.get('itemId') == item_id], and its negation. *)
Definition carries_id (item_id item : json) : Prop :=
  exists id, Py.get item "itemId" JNull = Ok id /\ Py.eq id item_id = true.

Definition carries_other_id (item_id item : json) : Prop :=
  exists id, Py.get item "itemId" JNull = Ok id /\ Py.eq id item_id = false.

(** Position [i] holds the first of [items] that carries [item_id]. *)
Definition first_with_id (item_id : json) (items : list json) (i : nat) : Prop :=
  (exists item, nth_error items i = Some item /\ carries_id item_id item) /\
  forall j item,
    j < i -> nth_error items j = Some item -> carries_other_id item_id item.

(** The form read at [h] has its first item with [item_id] at position
  [i]. *)
Definition located (svc : remote) (h : list call) (form_id item_id : json)
    (i : nat) : Prop :=
  exists form items,
    svc h (FormsGet form_id) = Some form /\
    items_of form = Ok items /\
    first_with_id item_id items i.

(** Whenever [m] returns, it has read the form once and then made one
  batched write to it, holding the one operation [operation i] for the
  position [i] of the first item that carries [item_id]. *)
Definition writes_at_located (svc : remote) (form_id item_id : json)
    (m : io json) (operation : nat -> json) : Prop :=
  forall h t r,
    m h = (Ok r, t) ->
    exists i,
      located svc h form_id item_id i /\
      t = (h ++ [FormsGet form_id; batch_call form_id [operation i]])%list.

(** The operations of the batched write of [update_form]: the title
  first, each only when given. *)
Definition update_form_requests (title description : json) : list json :=
  ((match title with
    | JNull => []
    | _ => [update_form_info "title" title]
    end) ++
   (match description with
    | JNull => []
    | _ => [update_form_info "description" description]
    end))%list.

(** The requests of an [update_form] that returns, before its final
  read of the form: the batched write, then the Drive rename when the
  client makes one ([drive]) and a title is given. *)
Definition update_form_writes (drive : bool) (form_id title description : json)
    : list call :=
  batch_call form_id (update_form_requests title description)
  :: match title with
     | JNull => []
     | _ => if drive then [DriveFilesUpdate form_id (JObj [("name", title)])]
            else []
     end.

(** Whenever [m] returns, the requests it has made are those of
  [before] and then [final], and its result is the answer to [final]. *)
Definition returns_after (svc : remote) (m : io json) (before : list call)
    (final : call) : Prop :=
  forall h t r,
    m h = (Ok r, t) ->
    t = (h ++ before ++ [final])%list /\
    svc (h ++ before)%list final = Some r.

(** How many of [calls], made in that order after the requests of [h],
  the remote side answers. *)
Fixpoint count_answered (svc : remote) (h : list call) (calls : list call) : nat :=
  match calls with
  | [] => 0
  | c :: rest =>
      (match svc h c with Some _ => 1 | None => 0 end)
      + count_answered svc (h ++ [c])%list rest
  end.

(** One batched write per operation. *)
Definition single_writes (form_id : json) (requests : list json) : list call :=
  map (fun q => batch_call form_id [q]) requests.

(** A computation without remote calls does not raise [HttpError]. *)
Definition local {A : Type} (r : result A) : Prop := r <> Raise HttpError.

(** [original.get('info', {}).get('description', '')] *)
Definition description_of (original : json) : result json :=
  let* info := Py.get original "info" (JObj []) in
  Py.get info "description" (JStr "").

(** The type [export_to_template] gives to the question [add_question]
  builds for a type: a rating comes back as a linear scale, a grid as a
  short answer. *)
Definition exported_as (t : Models.QuestionType) : Models.QuestionType :=
  match t with
  | Models.RATING => Models.LINEAR_SCALE
  | Models.MULTIPLE_CHOICE_GRID | Models.CHECKBOX_GRID => Models.SHORT_ANSWER
  | _ => t
  end.

(** The types of choice questions. *)
Definition is_choice (t : Models.QuestionType) : bool :=
  match t with
  | Models.MULTIPLE_CHOICE | Models.CHECKBOXES | Models.DROPDOWN => true
  | _ => false
  end.

(** ['questionItem' in item] *)
Definition carries_question (item : json) : bool :=
  match Py.contains "questionItem" item with
  | Ok b => b
  | Raise _ => false
  end.

(** While the header of an export is built: the header starts with the
  titles of [start] and holds at least one more title per question of
  the map. *)
Definition header_covers (start : list json)
    (st : list (json * json) * list json) : Prop :=
  List.length start + List.length (fst st) <= List.length (snd st) /\
  firstn (List.length start) (snd st) = start.

(** What an export returns of the listed [responses]: the header row,
  then the row of each response, in the order of the listing, every row
  holding the cells of the same questions [ids]; [rowCount] is the
  number of responses.  The header starts with the titles asked for and
  has at least one more title per question, so no row is wider than the
  header. *)
Definition export_shape (include_timestamps include_email : bool)
    (writerow : list json -> string) (responses : json) (r : ExportResult)
    : Prop :=
  exists (header ids response_list : list json) (rows : list (list json)),
    Py.iter responses = Ok response_list /\
    Forall2 (fun response row =>
               response_row include_timestamps include_email ids response
               = Ok row)
      response_list rows /\
    csv r = writerow header ++ String.concat "" (map writerow rows) /\
    rowCount r = List.length response_list /\
    firstn (List.length (header_start include_timestamps include_email)) header
    = header_start include_timestamps include_email /\
    List.length (header_start include_timestamps include_email)
    + List.length ids <= List.length header /\
    Forall (fun row =>
              List.length row
              = List.length (header_start include_timestamps include_email)
                + List.length ids) rows.

(** What an export run returned of the answer of the remote side to its
  listing: nothing when the answer holds no response, the rows of all
  the responses otherwise. *)
Definition exported (svc : remote) (form_id : json)
    (include_timestamps include_email : bool)
    (writerow : list json -> string) (r : ExportResult) : Prop :=
  exists responses_data responses,
    svc [FormsGet form_id] (ResponsesList form_id [("pageSize", JNum 1000)])
    = Some responses_data /\
    Py.get responses_data "responses" (JArr []) = Ok responses /\
    if Py.truthy responses
    then export_shape include_timestamps include_email writerow responses r
    else r = {| csv := ""; rowCount := 0 |}.

(** The clean item [c] made from [x] holds a title, a description and
  one item kind at most, the first kind [x] carries, and nothing else. *)
Definition keeps_known_fields (x c : json) : Prop :=
  exists d,
    c = JObj d /\
    incl (dict_keys d) ("title" :: "description" :: item_kinds) /\
    option_map fst (kind_payload c) = option_map fst (kind_payload x) /\
    (forall k, In k item_kinds -> dict_get k d <> None ->
               option_map fst (kind_payload c) = Some k).

(** A request that creates a form or writes to the form or the Drive
  file [copy]. *)
Definition written_to (copy : json) (c : call) : Prop :=
  match c with
  | FormsCreate _ => True
  | FormsBatchUpdate f _ | DriveFilesUpdate f _ => f = copy
  | FormsGet _ | ResponsesList _ _ => False
  end.

(** The requests of [t]: one read of [source], then only the creation of
  a form and writes to [copy]. *)
Definition source_only_read (source copy : json) (t : list call) : Prop :=
  exists rest, t = FormsGet source :: rest /\ Forall (written_to copy) rest.

(** A request that names the form [form_id], or its Drive file. *)
Definition about (form_id : json) (c : call) : Prop :=
  match c with
  | FormsGet f | FormsBatchUpdate f _ | DriveFilesUpdate f _ => f = form_id
  | FormsCreate _ | ResponsesList _ _ => False
  end.

(** Whatever its outcome, [m] only adds requests that satisfy [P]. *)
Definition adds_only {A : Type} (P : call -> Prop) (m : io A) : Prop :=
  forall h, exists ext, snd (m h) = (h ++ ext)%list /\ Forall P ext.

(** The files of the answer of a Drive listing, as the loop of
  [list_forms] visits them. *)
Definition files_of (results : json) : result (list json) :=
  let* files := Py.get results "files" (JArr []) in
  Py.iter files.

(** The entry of a listing names the file: its identifier and its name. *)
Definition names_file (file entry : json) : Prop :=
  json_path ["formId"] entry = json_path ["id"] file /\
  json_path ["title"] entry = json_path ["name"] file /\
  json_path ["id"] file <> None /\ json_path ["name"] file <> None.

(** The entry of a file whose form could not be fetched, when the form
  fetched last had the responder link [link]. *)
Definition borrows_link (link : json) (file entry : json) : Prop :=
  exists form_id title,
    Py.getitem file "id" = Ok form_id /\
    Py.getitem file "name" = Ok title /\
    entry = Gforms.listed_form form_id title link 0.

(** The remote side fails every read of a form listed in [files]. *)
Definition unreadable (svc : remote) (files : list json) : Prop :=
  forall file form_id h,
    In file files -> Py.getitem file "id" = Ok form_id ->
    svc h (FormsGet form_id) = None.

(** Every file has an identifier and a name. *)
Definition named_files (files : list json) : Prop :=
  Forall (fun file => exists form_id title,
              Py.getitem file "id" = Ok form_id /\
              Py.getitem file "name" = Ok title) files.

(** The keyword arguments [add_question] reads. *)
Definition add_question_kwargs : list string :=
  ["position"; "required"; "options"; "low"; "high"; "lowLabel"; "highLabel";
   "folderId"; "maxFiles"; "maxFileSize"; "allowedTypes"; "rows"; "columns"].

(** [question_type] is the name of no member of [QuestionType]. *)
Definition unsupported (question_type : json) : Prop :=
  forall t : Models.QuestionType, question_type <> JStr (Models.value t).

(** ** Sample forms and remote sides *)

Module Sample.

Definition repr (v : json) : string := "?".

Definition writerow (row : list json) : string := "<row>".

Definition short_answer (id title : string) : json :=
  JObj [("itemId", JStr id); ("title", JStr title);
        ("questionItem",
         JObj [("question",
                JObj [("questionId", JStr ("q" ++ id));
                      ("required", JBool true);
                      ("textQuestion", JObj [])])])].

(** A form with the given settings block, if any, and items. *)
Definition form (settings : option json) (items : list json) : json :=
  JObj ([("formId", JStr "src"); ("info", JObj [("title", JStr "Survey")])]
        ++ (match settings with Some s => [("settings", s)] | None => [] end)
        ++ [("items", JArr items)])%list.

Definition created : json :=
  JObj [("formId", JStr "new"); ("responderUri", JStr "https://forms/new")].

(** A remote side that serves [source] and never fails. *)
Definition serving (source : json) : remote :=
  fun _ c =>
    match c with
    | FormsGet _ => Some source
    | FormsCreate _ => Some created
    | _ => Some (JObj [])
    end.

(** The same, but every batched write after the first [n] fails. *)
Definition failing_after (n : nat) (source : json) : remote :=
  fun h c =>
    match c with
    | FormsBatchUpdate _ _ =>
        if Nat.leb n (List.length (filter is_batch_update h))
        then None else Some (JObj [])
    | _ => serving source h c
    end.

Definition three_items : list json :=
  [short_answer "a" "Name"; short_answer "b" "Team"; short_answer "c" "Role"].

Definition two_items : list json :=
  [short_answer "a" "Name"; short_answer "b" "Team"].

Definition grid_item : json :=
  JObj [("itemId", JStr "g1"); ("title", JStr "Rate each");
        ("questionGroupItem",
         JObj [("questions",
                JArr [JObj [("questionId", JStr "r1");
                            ("rowQuestion", JObj [("title", JStr "Speed")])];
                      JObj [("questionId", JStr "r2");
                            ("rowQuestion", JObj [("title", JStr "Price")])]]);
               ("grid",
                JObj [("columns",
                       JObj [("type", JStr "RADIO");
                             ("options",
                              JArr [JObj [("value", JStr "Good")];
                                    JObj [("value", JStr "Bad")]])])])])].

(** A settings block that only says how e-mail addresses are collected. *)
Definition email_settings : json :=
  JObj [("emailCollectionType", JStr "VERIFIED")].

(** A text item whose title holds a line break. *)
Definition two_line_item : json :=
  JObj [("itemId", JStr "t1");
        ("title", JStr ("Line1" ++ String Str.LF "Line2"));
        ("textItem", JObj [])].

(** The creation requests of a list of items. *)
Definition creates_of (items : list json) : list json :=
  match Gforms.item_requests 0 items with
  | Ok requests => requests
  | Raise _ => []
  end.

(** A remote side that serves a form of three items without settings
  and fails from the second batched write on. *)
Definition flaky : remote := failing_after 1 (form None three_items).

(** What a duplication of that form has read and built when the copy
  phase starts. *)
Definition flaky_preparation : preparation :=
  {| p_original := form None three_items;
     p_description := JStr "";
     p_new_form :=
       JObj [("formId", JStr "new"); ("responderUri", JStr "https://forms/new");
             ("editUri", Gforms.edit_uri repr (JStr "new"))];
     p_form_id := JStr "new";
     p_responder := JStr "https://forms/new";
     p_has_settings := false;
     p_settings_requests := [];
     p_item_list := three_items;
     p_creates := creates_of three_items;
     p_trace :=
       FormsGet (JStr "src")
       :: create_form_calls (JStr "Copy") (JStr "") (JStr "new") |}.

(** A form titled with a placeholder, and a remote side serving it. *)
Definition placeholder_form : json :=
  JObj [("formId", JStr "f");
        ("info", JObj [("title", JStr "A"); ("description", JStr "see B")])].

End Sample.

(** Further sample data. *)
Module Cases.

(** The remote side of most examples: it serves a form of three short
    answers, [a], [b] and [c], and never fails. *)
Definition survey : remote := Sample.serving (Sample.form None Sample.three_items).

(** The second item of that form once [update_item] has renamed it. *)
Definition renamed_item : json :=
  JObj [("title", JStr "Team name");
        ("questionItem",
         JObj [("question",
                JObj [("required", JBool true); ("textQuestion", JObj [])])])].

(** A section break. *)
Definition section_item : json :=
  JObj [("itemId", JStr "s1"); ("title", JStr "Part two");
        ("pageBreakItem", JObj [])].

(** A remote side on which every Drive request fails. *)
Definition drive_down : remote :=
  fun h c =>
    match c with
    | DriveFilesUpdate _ _ => None
    | _ => survey h c
    end.

(** A question item that lacks its question. *)
Definition broken_item : json :=
  JObj [("itemId", JStr "x"); ("title", JStr "Broken");
        ("questionItem", JObj [])].

(** A form whose second item is broken. *)
Definition broken_form : json :=
  Sample.form None [Sample.short_answer "a" "Name"; broken_item].

(** One response to the survey, answering its first question. *)
Definition response : json :=
  JObj [("responseId", JStr "r1"); ("createTime", JStr "2024-01-01T10:00:00Z");
        ("respondentEmail", JStr "ann@example.org");
        ("answers",
         JObj [("qa",
                JObj [("questionId", JStr "qa");
                      ("textAnswers",
                       JObj [("answers", JArr [JObj [("value", JStr "Ann")]])])])])].

(** A second response, without an e-mail address, answering the second
    question. *)
Definition late_response : json :=
  JObj [("responseId", JStr "r2"); ("createTime", JStr "2024-01-02T09:30:00Z");
        ("answers",
         JObj [("qb",
                JObj [("questionId", JStr "qb");
                      ("textAnswers",
                       JObj [("answers", JArr [JObj [("value", JStr "Core")]])])])])].

(** A remote side that serves the survey and these two responses. *)
Definition answered_survey : remote :=
  fun h c =>
    match c with
    | ResponsesList _ _ =>
        Some (JObj [("responses", JArr [response; late_response])])
    | _ => survey h c
    end.

(** An item of a kind the sanitizer does not know. *)
Definition unknown_kind_item : json :=
  JObj [("itemId", JStr "u1"); ("title", JStr "Pick a date");
        ("dateRangeItem", JObj [("days", JNum 7)])].

(** The answer of a Drive listing with two files and a further page. *)
Definition first_file : json := JObj [("id", JStr "f1"); ("name", JStr "First")].

Definition second_file : json := JObj [("id", JStr "f2"); ("name", JStr "Second")].

Definition drive_listing : json :=
  JObj [("files", JArr [first_file; second_file]);
        ("nextPageToken", JStr "page2")].

Definition first_form : json :=
  JObj [("formId", JStr "f1"); ("responderUri", JStr "https://forms/f1")].

(** A remote side on which only the form [f1] can be read; it has one
    response. *)
Definition first_only : remote :=
  fun h c =>
    match c with
    | FormsGet form_id =>
        if Py.is_str "f1" form_id then Some first_form else None
    | ResponsesList _ _ => Some (JObj [("responses", JArr [response])])
    | _ => Some (JObj [])
    end.

(** A form whose title and first item hold placeholders; it has no
    description. *)
Definition placeholder_item : json :=
  JObj [("itemId", JStr "p1"); ("title", JStr "Dear A");
        ("description", JStr "B here"); ("textItem", JObj [])].

Definition plain_item : json :=
  JObj [("itemId", JStr "p2"); ("title", JStr "Team"); ("textItem", JObj [])].

Definition placeholder_items_form : json :=
  JObj [("formId", JStr "f"); ("info", JObj [("title", JStr "A")]);
        ("items", JArr [placeholder_item; plain_item])].

End Cases.

(** * Properties *)

(** ** Fallible computations *)

Lemma rbind_ok {A B : Type} (m : result A) (k : A -> result B) (b : B) :
  rbind m k = Ok b -> exists a, m = Ok a /\ k a = Ok b.
Proof.
  destruct m as [a|e]; simpl; intros H; [eauto | discriminate].
Qed.

(** Splits a successful sequence of binds into its successful steps. *)
Ltac inv_ok :=
  repeat match goal with
    | H : rbind _ _ = Ok _ |- _ =>
        let a := fresh "a" in
        let Ha := fresh "Ha" in
        apply rbind_ok in H; destruct H as [a [Ha H]]
    | H : Ok _ = Ok _ |- _ => injection H as H; try subst
    | H : Raise _ = Ok _ |- _ => discriminate H
    end.

Lemma mapM_ok_Forall2 {A B : Type} (f : A -> result B) (l : list A) (l' : list B) :
  mapM f l = Ok l' -> Forall2 (fun x y => f x = Ok y) l l'.
Proof.
  revert l'; induction l as [|x r IH]; simpl; intros l' H.
  - inv_ok. constructor.
  - inv_ok. constructor; auto.
Qed.

Lemma Forall2_mapM {A B : Type} (f : A -> result B) (l : list A) (l' : list B) :
  Forall2 (fun x y => f x = Ok y) l l' -> mapM f l = Ok l'.
Proof.
  induction 1 as [|x y r r' Hxy _ IH]; simpl; [reflexivity|].
  rewrite Hxy; simpl. rewrite IH; reflexivity.
Qed.

(** ** Strings *)

Lemma prefix_empty (s : string) : prefix EmptyString s = true.
Proof. destruct s; reflexivity. Qed.

Lemma replace_one_char (c : ascii) (new s : string) :
  Str.replace (String c EmptyString) new s = Str.subst_char c new s.
Proof.
  unfold Str.replace.
  induction s as [|a rest IH]; [reflexivity|].
  cbn [Str.replace_scan Str.subst_char prefix String.length Nat.sub].
  destruct (ascii_dec c a) as [->|Hne].
  - rewrite prefix_empty, Ascii.eqb_refl, IH. reflexivity.
  - assert (Ascii.eqb a c = false) as ->
      by (apply Ascii.eqb_neq; congruence).
    rewrite IH. reflexivity.
Qed.

Lemma clean_newlines_spec (s : string) :
  Str.clean_newlines s = Str.map_newlines s.
Proof.
  unfold Str.clean_newlines. rewrite !replace_one_char.
  induction s as [|a rest IH]; [reflexivity|].
  cbn [Str.subst_char Str.map_newlines].
  destruct (Ascii.eqb a Str.LF) eqn:Elf.
  - cbn. rewrite IH. reflexivity.
  - cbn [Str.subst_char].
    destruct (Ascii.eqb a Str.CR) eqn:Ecr; cbn; rewrite IH; reflexivity.
Qed.

Lemma map_newlines_no_linebreak (s : string) :
  Str.no_linebreak (Str.map_newlines s).
Proof.
  unfold Str.no_linebreak.
  induction s as [|a rest [IH1 IH2]]; [split; reflexivity|].
  cbn [Str.map_newlines].
  destruct (Ascii.eqb a Str.LF) eqn:Elf.
  - cbn. rewrite IH1, IH2. split; reflexivity.
  - destruct (Ascii.eqb a Str.CR) eqn:Ecr; [split; assumption|].
    cbn [Str.has_char]. rewrite Elf, Ecr, IH1, IH2. split; reflexivity.
Qed.

Lemma map_newlines_fixed (s : string) :
  Str.no_linebreak s -> Str.map_newlines s = s.
Proof.
  unfold Str.no_linebreak.
  induction s as [|a rest IH]; [reflexivity|].
  cbn [Str.has_char Str.map_newlines]. intros [H1 H2].
  apply orb_false_iff in H1 as [Ha1 Hr1].
  apply orb_false_iff in H2 as [Ha2 Hr2].
  rewrite Ha1, Ha2, IH by (split; assumption). reflexivity.
Qed.

Lemma clean_newlines_no_linebreak (s : string) :
  Str.no_linebreak (Str.clean_newlines s).
Proof. rewrite clean_newlines_spec. apply map_newlines_no_linebreak. Qed.

Lemma clean_newlines_idem (s : string) :
  Str.clean_newlines (Str.clean_newlines s) = Str.clean_newlines s.
Proof.
  rewrite !clean_newlines_spec.
  apply map_newlines_fixed, map_newlines_no_linebreak.
Qed.

(** ** Dictionaries *)

Section DictFacts.

Context {V : Type}.
Implicit Types (k : string) (v : V) (d : dict V).

Lemma dict_get_set_eq k v d : dict_get k (dict_set k v d) = Some v.
Proof.
  induction d as [|[k' v'] r IH]; simpl.
  - rewrite String.eqb_refl. reflexivity.
  - destruct (String.eqb k k') eqn:E; simpl.
    + rewrite String.eqb_refl. reflexivity.
    + rewrite E. exact IH.
Qed.

Lemma dict_get_set_neq k k' v d :
  k <> k' -> dict_get k (dict_set k' v d) = dict_get k d.
Proof.
  intros Hne. induction d as [|[k0 v0] r IH]; simpl.
  - apply String.eqb_neq in Hne. rewrite Hne. reflexivity.
  - destruct (String.eqb k' k0) eqn:E; simpl.
    + apply String.eqb_eq in E; subst k0.
      apply String.eqb_neq in Hne. rewrite Hne. reflexivity.
    + rewrite IH. reflexivity.
Qed.

Lemma dict_set_same k v d : dict_get k d = Some v -> dict_set k v d = d.
Proof.
  induction d as [|[k' v'] r IH]; simpl; [discriminate|].
  destruct (String.eqb k k') eqn:E.
  - apply String.eqb_eq in E; subst k'. intros [= ->]. reflexivity.
  - intros H. rewrite IH by exact H. reflexivity.
Qed.

Lemma dict_get_del_eq k d : dict_get k (dict_del k d) = None.
Proof.
  unfold dict_del. induction d as [|[k' v'] r IH]; simpl; [reflexivity|].
  destruct (String.eqb k k') eqn:E; simpl; [exact IH|].
  rewrite E. exact IH.
Qed.

Lemma dict_get_del_neq k k' d :
  k <> k' -> dict_get k (dict_del k' d) = dict_get k d.
Proof.
  intros Hne. unfold dict_del.
  induction d as [|[k0 v0] r IH]; simpl; [reflexivity|].
  destruct (String.eqb k' k0) eqn:E; simpl.
  - apply String.eqb_eq in E; subst k0.
    apply String.eqb_neq in Hne. rewrite Hne. exact IH.
  - rewrite IH. reflexivity.
Qed.

Lemma dict_del_absent k d : dict_get k d = None -> dict_del k d = d.
Proof.
  unfold dict_del. induction d as [|[k' v'] r IH]; simpl; [reflexivity|].
  destruct (String.eqb k k') eqn:E; simpl; [discriminate|].
  intros H. rewrite IH by exact H. reflexivity.
Qed.

End DictFacts.

(** ** In-place updates *)

Lemma update_obj_some (k : string) (f : json -> result json) (d : dict json) (x : json) :
  dict_get k d = Some x ->
  Py.update k f (JObj d) = let* x' := f x in Ok (JObj (dict_set k x' d)).
Proof.
  intros H. unfold Py.update, Py.contains, Py.getitem, Py.setitem, dict_has.
  rewrite H. simpl. reflexivity.
Qed.

Lemma update_obj_none (k : string) (f : json -> result json) (d : dict json) :
  dict_get k d = None -> Py.update k f (JObj d) = Ok (JObj d).
Proof.
  intros H. unfold Py.update, Py.contains, dict_has. rewrite H. reflexivity.
Qed.

(** A successful update either found nothing under the key and changed
  nothing, or rewrote the value under that key of an object. *)
Lemma update_inv (k : string) (f : json -> result json) (v v' : json) :
  Py.update k f v = Ok v' ->
  (json_path [k] v = None /\ v' = v) \/
  (exists d x x', v = JObj d /\ dict_get k d = Some x /\ f x = Ok x' /\
                  v' = JObj (dict_set k x' d)).
Proof.
  destruct v as [| b | n | s | xs | d]; try discriminate.
  - unfold Py.update; simpl.
    destruct (Str.contains k s); simpl; [discriminate|].
    intros [= <-]. left. split; reflexivity.
  - unfold Py.update; simpl.
    destruct (existsb (Py.is_str k) xs); simpl; [discriminate|].
    intros [= <-]. left. split; reflexivity.
  - destruct (dict_get k d) as [x|] eqn:E.
    + rewrite (update_obj_some _ _ _ _ E). intros H. inv_ok.
      right. exists d, x, a. repeat split; assumption.
    + rewrite (update_obj_none _ _ _ E). intros [= <-].
      left. simpl. rewrite E. split; reflexivity.
Qed.

Lemma update_path (k : string) (p : list string) (f : json -> result json)
    (v v' w : json) :
  Py.update k f v = Ok v' ->
  json_path (k :: p) v' = Some w ->
  exists x x', json_path [k] v = Some x /\ f x = Ok x' /\ json_path p x' = Some w.
Proof.
  intros H Hp. apply update_inv in H as [[Hn ->] | (d & x & x' & -> & Hx & Hf & ->)].
  - simpl in *. destruct v; try discriminate.
    destruct (dict_get k kvs); discriminate.
  - simpl in Hp. rewrite dict_get_set_eq in Hp.
    exists x, x'. simpl. rewrite Hx. auto.
Qed.

Lemma update_path_other (k k' : string) (p : list string)
    (f : json -> result json) (v v' : json) :
  k' <> k ->
  Py.update k f v = Ok v' ->
  json_path (k' :: p) v' = json_path (k' :: p) v.
Proof.
  intros Hne H. apply update_inv in H as [[Hn ->] | (d & x & x' & -> & Hx & Hf & ->)].
  - reflexivity.
  - simpl. rewrite dict_get_set_neq by exact Hne. reflexivity.
Qed.

Lemma update_lacks (k k' : string) (f : json -> result json) (v v' : json) :
  k' <> k -> lacks k' v -> Py.update k f v = Ok v' -> lacks k' v'.
Proof.
  intros Hne [d0 [-> Hd0]] H.
  apply update_inv in H as [[Hn ->] | (d & x & x' & [= <-] & Hx & Hf & ->)].
  - exists d0; auto.
  - exists (dict_set k x' d0). split; [reflexivity|].
    rewrite dict_get_set_neq by exact Hne. exact Hd0.
Qed.

(** Updating twice is updating once when the inner update has that
  property. *)
Lemma update_idem (k : string) (f : json -> result json) (v v' : json) :
  (forall x x', f x = Ok x' -> f x' = Ok x') ->
  Py.update k f v = Ok v' -> Py.update k f v' = Ok v'.
Proof.
  intros Hf H.
  pose proof H as H0.
  apply update_inv in H as [[Hn ->] | (d & x & x' & -> & Hx & Hfx & ->)].
  - exact H0.
  - rewrite (update_obj_some k f _ x' (dict_get_set_eq _ _ _)).
    rewrite (Hf _ _ Hfx). simpl.
    rewrite (dict_set_same k x' (dict_set k x' d)) by apply dict_get_set_eq.
    reflexivity.
Qed.

(** An update that leaves a value as it is still does after an update
  under another key. *)
Lemma update_frame (k k' : string) (f g : json -> result json) (v v' : json) :
  k <> k' ->
  Py.update k f v = Ok v ->
  Py.update k' g v = Ok v' ->
  Py.update k f v' = Ok v'.
Proof.
  intros Hne Hf Hg.
  apply update_inv in Hg as [[Hn ->] | (d & x & x' & -> & Hx & Hgx & ->)].
  - exact Hf.
  - pose proof Hf as Hf0.
    apply update_inv in Hf as [[Hn _] | (d1 & y & y' & [= <-] & Hy & Hfy & Heq)].
    + simpl in Hn.
      apply update_obj_none. rewrite dict_get_set_neq by exact Hne.
      destruct (dict_get k d); [discriminate | reflexivity].
    + injection Heq as Heq.
      assert (y' = y) as ->.
      { pose proof (dict_get_set_eq k y' d) as E. rewrite <- Heq, Hy in E.
        congruence. }
      assert (dict_get k (dict_set k' x' d) = Some y) as Hy'
        by (rewrite dict_get_set_neq by exact Hne; exact Hy).
      rewrite (update_obj_some k f _ y Hy'), Hfy. simpl.
      rewrite (dict_set_same _ _ _ Hy'). reflexivity.
Qed.

Lemma for_each_arr (f : json -> result json) (v : json) (ys : list json) :
  Py.for_each f v = Ok (JArr ys) ->
  exists xs, v = JArr xs /\ Forall2 (fun x y => f x = Ok y) xs ys.
Proof.
  unfold Py.for_each. intros H. inv_ok.
  destruct v; try discriminate.
  simpl in Ha. inv_ok. injection H as ->.
  eexists; split; [reflexivity|]. apply mapM_ok_Forall2. exact Ha0.
Qed.

Lemma mapM_idem {A : Type} (f : A -> result A) (l l' : list A) :
  (forall x x', f x = Ok x' -> f x' = Ok x') ->
  mapM f l = Ok l' -> mapM f l' = Ok l'.
Proof.
  intros Hf H. apply mapM_ok_Forall2 in H. apply Forall2_mapM.
  induction H; constructor; eauto.
Qed.

Lemma for_each_idem (f : json -> result json) (v v' : json) :
  (forall x x', f x = Ok x' -> f x' = Ok x') ->
  Py.for_each f v = Ok v' -> Py.for_each f v' = Ok v'.
Proof.
  intros Hf H. pose proof H as H0. unfold Py.for_each in H. inv_ok.
  destruct v; try discriminate; simpl in Ha; inv_ok; try exact H0.
  unfold Py.for_each. simpl. rewrite (mapM_idem _ _ _ Hf Ha0). reflexivity.
Qed.

(** ** The item sanitizer *)

Ltac split_if :=
  match goal with
  | H : (if ?b then _ else _) = Ok _ |- _ => destruct b eqn:?
  end.

Lemma copy_field_inv (norm : json -> result json) (k : string) (x : json)
    (d d' : dict json) :
  copy_field norm k x d = Ok d' ->
  (Py.contains k x = Ok false /\ d' = d) \/
  (exists y y', Py.contains k x = Ok true /\ Py.getitem x k = Ok y /\
                norm y = Ok y' /\ d' = dict_set k y' d).
Proof.
  unfold copy_field. intros H. inv_ok. split_if; inv_ok.
  - right. eauto 8.
  - left. auto.
Qed.

Lemma copy_first_kind_inv (ks : list string) (x : json) (d d' : dict json) :
  copy_first_kind ks x d = Ok d' ->
  d' = d \/ exists k y, In k ks /\ Py.getitem x k = Ok y /\ d' = dict_set k y d.
Proof.
  induction ks as [|k ks IH]; simpl; intros H; inv_ok; [left; reflexivity|].
  split_if; inv_ok.
  - right. exists k, a0. auto.
  - apply IH in H as [-> | (k' & y & Hin & Hy & ->)]; [left; reflexivity|].
    right. exists k', y. auto.
Qed.

(** After the title and the description, the clean item holds nothing
  else. *)
Lemma text_fields_only (n1 n2 : json -> result json) (x : json) (d1 d2 : dict json) :
  copy_field n1 "title" x [] = Ok d1 ->
  copy_field n2 "description" x d1 = Ok d2 ->
  forall k, k <> "title" -> k <> "description" -> dict_get k d2 = None.
Proof.
  intros H1 H2 k Ht Hd.
  apply copy_field_inv in H1 as [[_ ->] | (y1 & y1' & _ & _ & _ & ->)];
    apply copy_field_inv in H2 as [[_ ->] | (y2 & y2' & _ & _ & _ & ->)];
    rewrite ?dict_get_set_neq by assumption; simpl;
    try reflexivity;
    apply String.eqb_neq in Ht; rewrite Ht; reflexivity.
Qed.

Lemma build_question_item_inv (qi q new_item : json) :
  build_question_item qi q = Ok new_item ->
  (Py.contains "image" qi = Ok false /\ new_item = JObj [("question", q)]) \/
  (exists image, Py.contains "image" qi = Ok true /\
                 Py.getitem qi "image" = Ok image /\
                 new_item = JObj [("question", q); ("image", image)]).
Proof.
  unfold build_question_item. intros H. inv_ok. split_if; inv_ok.
  - right. eauto.
  - left. auto.
Qed.

(** The three ways [_clean_item_for_duplication] of the packaged client
  returns. *)
Lemma gforms_clean_item_inv (x c : json) :
  Gforms._clean_item_for_duplication x = Ok c ->
  exists d1 d2,
    copy_field Py.clean_newlines "title" x [] = Ok d1 /\
    copy_field Py.clean_newlines "description" x d1 = Ok d2 /\
    ((exists qi q0 q1 q2 q3 new_item,
        Py.contains "questionItem" x = Ok true /\
        Py.getitem x "questionItem" = Ok qi /\
        Py.getitem qi "question" = Ok q0 /\
        Py.pop q0 "questionId" = Ok q1 /\
        Gforms.clean_scale_labels q1 = Ok q2 /\
        Gforms.clean_choice_options q2 = Ok q3 /\
        build_question_item qi q3 = Ok new_item /\
        c = JObj (dict_set "questionItem" new_item d2)) \/
     (exists g0 g1 g2,
        Py.contains "questionItem" x = Ok false /\
        Py.contains "questionGroupItem" x = Ok true /\
        Py.getitem x "questionGroupItem" = Ok g0 /\
        Py.update "questions" pop_question_ids g0 = Ok g1 /\
        Gforms.clean_grid_columns g1 = Ok g2 /\
        c = JObj (dict_set "questionGroupItem" g2 d2)) \/
     (exists d3,
        Py.contains "questionItem" x = Ok false /\
        Py.contains "questionGroupItem" x = Ok false /\
        copy_first_kind plain_kinds x d2 = Ok d3 /\
        c = JObj d3)).
Proof.
  unfold Gforms._clean_item_for_duplication. intros H. inv_ok.
  exists a, a0. split; [assumption|]. split; [assumption|].
  split_if; inv_ok.
  - left. exists a2, a3, a4, a5, a6, a7. auto 10.
  - split_if; inv_ok.
    + right; left. exists a3, a4, a5. auto 10.
    + right; right. exists a3. auto.
Qed.

Lemma root_clean_item_inv (x c : json) :
  RootApi._clean_item_for_duplication x = Ok c ->
  exists d1 d2,
    copy_field Ok "title" x [] = Ok d1 /\
    copy_field Ok "description" x d1 = Ok d2 /\
    ((exists qi q0 q0' q1 new_item,
        Py.contains "questionItem" x = Ok true /\
        Py.getitem x "questionItem" = Ok qi /\
        Py.getitem qi "question" = Ok q0 /\
        Py.copy q0 = Ok q0' /\
        Py.pop q0' "questionId" = Ok q1 /\
        build_question_item qi q1 = Ok new_item /\
        c = JObj (dict_set "questionItem" new_item d2)) \/
     (exists g0 g1,
        Py.contains "questionItem" x = Ok false /\
        Py.contains "questionGroupItem" x = Ok true /\
        Py.getitem x "questionGroupItem" = Ok g0 /\
        Py.update "questions" pop_question_ids g0 = Ok g1 /\
        c = JObj (dict_set "questionGroupItem" g1 d2)) \/
     (exists d3,
        Py.contains "questionItem" x = Ok false /\
        Py.contains "questionGroupItem" x = Ok false /\
        copy_first_kind plain_kinds x d2 = Ok d3 /\
        c = JObj d3)).
Proof.
  unfold RootApi._clean_item_for_duplication. intros H. inv_ok.
  exists a, a0. split; [assumption|]. split; [assumption|].
  split_if; inv_ok.
  - left. exists a2, a3, a4, a5, a6. auto 10.
  - split_if; inv_ok.
    + right; left. exists a3, a4. auto 10.
    + right; right. exists a3. auto.
Qed.

Lemma pop_lacks (v v' : json) (k : string) :
  Py.pop v k = Ok v' -> lacks k v'.
Proof.
  destruct v; try discriminate. intros [= <-].
  eexists; split; [reflexivity | apply dict_get_del_eq].
Qed.

Lemma pop_question_ids_lack (qs0 : json) (qs : list json) (q : json) :
  pop_question_ids qs0 = Ok (JArr qs) -> In q qs -> lacks "questionId" q.
Proof.
  unfold pop_question_ids. intros H Hin.
  apply for_each_arr in H as (xs & -> & HF).
  induction HF as [|x y xs' ys' Hxy _ IH]; [contradiction|].
  destruct Hin as [<- | Hin]; [eapply pop_lacks; eassumption | auto].
Qed.

Lemma question_item_path (new_item qi q : json) (d : dict json) (w : json) :
  build_question_item qi q = Ok new_item ->
  json_path ["questionItem"; "question"] (JObj (dict_set "questionItem" new_item d))
  = Some w ->
  w = q.
Proof.
  intros Hb Hp. simpl in Hp. rewrite dict_get_set_eq in Hp.
  apply build_question_item_inv in Hb as [[_ ->] | (image & _ & _ & ->)];
    simpl in Hp; congruence.
Qed.

Lemma plain_kind_cases (k : string) :
  In k plain_kinds ->
  k <> "itemId" /\ k <> "questionItem" /\ k <> "questionGroupItem" /\
  k <> "title" /\ k <> "description".
Proof.
  unfold plain_kinds. simpl.
  intros [<- | [<- | [<- | [<- | []]]]]; repeat split; discriminate.
Qed.

(** What is left of the clean item when the source is none of the two
  question kinds. *)
Lemma plain_item_get (x : json) (d2 d3 : dict json) (k : string) :
  copy_first_kind plain_kinds x d2 = Ok d3 ->
  ~ In k plain_kinds ->
  dict_get k d3 = dict_get k d2.
Proof.
  intros H Hk.
  apply copy_first_kind_inv in H as [-> | (k' & y & Hin & _ & ->)]; [reflexivity|].
  apply dict_get_set_neq. intros ->. contradiction.
Qed.

Lemma not_plain_kind (k : string) :
  (if in_dec string_dec k plain_kinds then true else false) = false ->
  ~ In k plain_kinds.
Proof. destruct (in_dec string_dec k plain_kinds); [discriminate | auto]. Qed.

Ltac not_plain := apply not_plain_kind; reflexivity.

Lemma gforms_no_identifiers (x c : json) :
  Gforms._clean_item_for_duplication x = Ok c -> no_identifiers c.
Proof.
  intros H.
  apply gforms_clean_item_inv in H
    as (d1 & d2 & H1 & H2 &
        [ (qi & q0 & q1 & q2 & q3 & ni & _ & _ & _ & Hpop & Hs & Hc & Hb & ->)
        | [ (g0 & g1 & g2 & _ & _ & _ & Hq & Hg & ->)
          | (d3 & _ & _ & Hk & ->) ] ]);
    pose proof (text_fields_only _ _ _ _ _ H1 H2) as Hd2;
    unfold no_identifiers; repeat split.
  - eexists; split; [reflexivity|].
    rewrite dict_get_set_neq by discriminate. apply Hd2; discriminate.
  - intros q Hp. apply (question_item_path _ _ _ _ _ Hb) in Hp as ->.
    apply pop_lacks in Hpop.
    eapply update_lacks; [ | | exact Hc]; [discriminate|].
    eapply update_lacks; [ | | exact Hs]; [discriminate | exact Hpop].
  - intros qs q Hp _. simpl in Hp.
    rewrite dict_get_set_neq in Hp by discriminate.
    rewrite Hd2 in Hp by discriminate. discriminate.
  - eexists; split; [reflexivity|].
    rewrite dict_get_set_neq by discriminate. apply Hd2; discriminate.
  - intros q Hp. simpl in Hp.
    rewrite dict_get_set_neq in Hp by discriminate.
    rewrite Hd2 in Hp by discriminate. discriminate.
  - intros qs q Hp Hin.
    change (json_path ["questionGroupItem"; "questions"]
              (JObj (dict_set "questionGroupItem" g2 d2)))
      with (match dict_get "questionGroupItem" (dict_set "questionGroupItem" g2 d2) with
            | Some v => json_path ["questions"] v
            | None => None
            end) in Hp.
    rewrite dict_get_set_eq in Hp.
    unfold Gforms.clean_grid_columns in Hg.
    rewrite (update_path_other "grid" "questions" [] _ g1 g2) in Hp
      by (discriminate || exact Hg).
    destruct (update_path _ _ _ _ _ _ Hq Hp) as (y & y' & _ & Hy & Hy').
    injection Hy' as ->.
    eapply pop_question_ids_lack; eassumption.
  - eexists; split; [reflexivity|].
    rewrite (plain_item_get _ _ _ _ Hk) by not_plain. apply Hd2; discriminate.
  - intros q Hp. simpl in Hp.
    rewrite (plain_item_get _ _ _ _ Hk) in Hp by not_plain.
    rewrite Hd2 in Hp by discriminate. discriminate.
  - intros qs q Hp _. simpl in Hp.
    rewrite (plain_item_get _ _ _ _ Hk) in Hp by not_plain.
    rewrite Hd2 in Hp by discriminate. discriminate.
Qed.

Lemma root_no_identifiers (x c : json) :
  RootApi._clean_item_for_duplication x = Ok c -> no_identifiers c.
Proof.
  intros H.
  apply root_clean_item_inv in H
    as (d1 & d2 & H1 & H2 &
        [ (qi & q0 & q0' & q1 & ni & _ & _ & _ & _ & Hpop & Hb & ->)
        | [ (g0 & g1 & _ & _ & _ & Hq & ->)
          | (d3 & _ & _ & Hk & ->) ] ]);
    pose proof (text_fields_only _ _ _ _ _ H1 H2) as Hd2;
    unfold no_identifiers; repeat split.
  - eexists; split; [reflexivity|].
    rewrite dict_get_set_neq by discriminate. apply Hd2; discriminate.
  - intros q Hp. apply (question_item_path _ _ _ _ _ Hb) in Hp as ->.
    eapply pop_lacks; eassumption.
  - intros qs q Hp _. simpl in Hp.
    rewrite dict_get_set_neq in Hp by discriminate.
    rewrite Hd2 in Hp by discriminate. discriminate.
  - eexists; split; [reflexivity|].
    rewrite dict_get_set_neq by discriminate. apply Hd2; discriminate.
  - intros q Hp. simpl in Hp.
    rewrite dict_get_set_neq in Hp by discriminate.
    rewrite Hd2 in Hp by discriminate. discriminate.
  - intros qs q Hp Hin.
    change (json_path ["questionGroupItem"; "questions"]
              (JObj (dict_set "questionGroupItem" g1 d2)))
      with (match dict_get "questionGroupItem" (dict_set "questionGroupItem" g1 d2) with
            | Some v => json_path ["questions"] v
            | None => None
            end) in Hp.
    rewrite dict_get_set_eq in Hp.
    destruct (update_path _ _ _ _ _ _ Hq Hp) as (y & y' & _ & Hy & Hy').
    injection Hy' as ->.
    eapply pop_question_ids_lack; eassumption.
  - eexists; split; [reflexivity|].
    rewrite (plain_item_get _ _ _ _ Hk) by not_plain. apply Hd2; discriminate.
  - intros q Hp. simpl in Hp.
    rewrite (plain_item_get _ _ _ _ Hk) in Hp by not_plain.
    rewrite Hd2 in Hp by discriminate. discriminate.
  - intros qs q Hp _. simpl in Hp.
    rewrite (plain_item_get _ _ _ _ Hk) in Hp by not_plain.
    rewrite Hd2 in Hp by discriminate. discriminate.
Qed.

(** *** Line breaks *)

Lemma clean_newlines_clean_text (y v : json) :
  Py.clean_newlines y = Ok v -> clean_text v.
Proof.
  destruct y; try discriminate. intros [= <-].
  eexists; split; [reflexivity | apply clean_newlines_no_linebreak].
Qed.

Lemma clean_text_key_path (k : string) (v v' w : json) :
  Gforms.clean_text_key k v = Ok v' -> json_path [k] v' = Some w -> clean_text w.
Proof.
  intros H Hp. destruct (update_path _ _ _ _ _ _ H Hp) as (x & x' & _ & Hx & Hw).
  injection Hw as <-. eapply clean_newlines_clean_text; eassumption.
Qed.

Lemma scale_labels_clean (q q' w : json) (l : string) :
  Gforms.clean_scale_labels q = Ok q' ->
  l = "lowLabel" \/ l = "highLabel" ->
  json_path ["scaleQuestion"; l] q' = Some w -> clean_text w.
Proof.
  intros H Hl Hp.
  destruct (update_path _ _ _ _ _ _ H Hp) as (x & x' & _ & Hx & Hw).
  cbv beta in Hx. inv_ok. destruct Hl as [-> | ->].
  - rewrite (update_path_other "highLabel" "lowLabel" [] _ a x') in Hw
      by (discriminate || exact Hx).
    exact (clean_text_key_path _ _ _ _ Ha Hw).
  - exact (clean_text_key_path _ _ _ _ Hx Hw).
Qed.

Lemma option_values_cleaned (opts0 : json) (opts : list json) (o v : json) :
  Gforms.clean_option_values opts0 = Ok (JArr opts) ->
  In o opts -> json_path ["value"] o = Some v -> clean_text v.
Proof.
  unfold Gforms.clean_option_values. intros H Hin Hp.
  apply for_each_arr in H as (xs & -> & HF).
  induction HF as [|x y xs' ys' Hxy _ IH]; [contradiction|].
  destruct Hin as [<- | Hin]; [eapply clean_text_key_path; eassumption | auto].
Qed.

Lemma update_options_clean (v v' : json) :
  Py.update "options" Gforms.clean_option_values v = Ok v' ->
  option_values_clean (json_path ["options"] v').
Proof.
  intros H opts o w Hp Hin Hv.
  destruct (update_path _ _ _ _ _ _ H Hp) as (x & x' & _ & Hx & Hw).
  injection Hw as ->. eapply option_values_cleaned; eassumption.
Qed.

Lemma choice_options_clean (q q' : json) :
  Gforms.clean_choice_options q = Ok q' ->
  option_values_clean (json_path ["choiceQuestion"; "options"] q').
Proof.
  intros H opts o w Hp Hin Hv.
  destruct (update_path _ _ _ _ _ _ H Hp) as (x & x' & _ & Hx & Hw).
  eapply update_options_clean; eassumption.
Qed.

Lemma grid_columns_clean (g g' : json) :
  Gforms.clean_grid_columns g = Ok g' ->
  option_values_clean (json_path ["grid"; "columns"; "options"] g').
Proof.
  intros H opts o w Hp Hin Hv.
  destruct (update_path _ _ _ _ _ _ H Hp) as (x & x' & _ & Hx & Hw).
  destruct (update_path _ _ _ _ _ _ Hx Hw) as (y & y' & _ & Hy & Hw').
  eapply update_options_clean; eassumption.
Qed.

Lemma text_fields_clean (x : json) (d1 d2 : dict json) (k : string) (v : json) :
  copy_field Py.clean_newlines "title" x [] = Ok d1 ->
  copy_field Py.clean_newlines "description" x d1 = Ok d2 ->
  dict_get k d2 = Some v -> clean_text v.
Proof.
  intros H1 H2.
  apply copy_field_inv in H1 as [[_ ->] | (y1 & y1' & _ & _ & Hn1 & ->)];
    apply copy_field_inv in H2 as [[_ ->] | (y2 & y2' & _ & _ & Hn2 & ->)];
    simpl; intros Hk;
    repeat match type of Hk with
      | (if ?b then _ else _) = _ => destruct b
      end;
    try discriminate; injection Hk as <-;
    eapply clean_newlines_clean_text; eassumption.
Qed.

Lemma question_item_subpath (new_item qi q : json) (d : dict json) (p : list string) :
  build_question_item qi q = Ok new_item ->
  json_path ("questionItem" :: "question" :: p)
    (JObj (dict_set "questionItem" new_item d))
  = json_path p q.
Proof.
  intros Hb. cbn [json_path]. rewrite dict_get_set_eq.
  apply build_question_item_inv in Hb as [[_ ->] | (image & _ & _ & ->)];
    reflexivity.
Qed.

Lemma path_absent (k : string) (p : list string) (d : dict json) :
  dict_get k d = None -> json_path (k :: p) (JObj d) = None.
Proof. intros H. cbn [json_path]. rewrite H. reflexivity. Qed.

Lemma path_one (k : string) (d : dict json) :
  json_path [k] (JObj d) = dict_get k d.
Proof. cbn [json_path]. destruct (dict_get k d); reflexivity. Qed.

Lemma path_cons (k : string) (p : list string) (d : dict json) (v : json) :
  dict_get k d = Some v -> json_path (k :: p) (JObj d) = json_path p v.
Proof. intros H. cbn [json_path]. rewrite H. reflexivity. Qed.

Lemma option_values_clean_none : option_values_clean None.
Proof. intros opts o v H. discriminate. Qed.

Lemma gforms_texts_clean (x c : json) :
  Gforms._clean_item_for_duplication x = Ok c -> resubmitted_texts_clean c.
Proof.
  intros H.
  apply gforms_clean_item_inv in H
    as (d1 & d2 & H1 & H2 &
        [ (qi & q0 & q1 & q2 & q3 & ni & _ & _ & _ & Hpop & Hs & Hc & Hb & ->)
        | [ (g0 & g1 & g2 & _ & _ & _ & Hq & Hg & ->)
          | (d3 & _ & _ & Hk & ->) ] ]);
    pose proof (text_fields_only _ _ _ _ _ H1 H2) as Hd2;
    pose proof (fun v => text_fields_clean _ _ _ "title" v H1 H2) as Ht;
    pose proof (fun v => text_fields_clean _ _ _ "description" v H1 H2) as Hd;
    unfold resubmitted_texts_clean.
  - rewrite !(question_item_subpath _ _ _ _ _ Hb).
    rewrite !(path_absent "questionGroupItem")
      by (rewrite dict_get_set_neq by discriminate; apply Hd2; discriminate).
    rewrite !path_one, !dict_get_set_neq by discriminate.
    repeat split.
    + exact Ht.
    + exact Hd.
    + intros v Hv. unfold Gforms.clean_choice_options in Hc.
      rewrite (update_path_other "choiceQuestion" "scaleQuestion" ["lowLabel"] _ q2 q3)
        in Hv by (discriminate || exact Hc).
      exact (scale_labels_clean _ _ _ _ Hs (or_introl eq_refl) Hv).
    + intros v Hv. unfold Gforms.clean_choice_options in Hc.
      rewrite (update_path_other "choiceQuestion" "scaleQuestion" ["highLabel"] _ q2 q3)
        in Hv by (discriminate || exact Hc).
      exact (scale_labels_clean _ _ _ _ Hs (or_intror eq_refl) Hv).
    + eapply choice_options_clean; eassumption.
    + apply option_values_clean_none.
  - rewrite !(path_absent "questionItem")
      by (rewrite dict_get_set_neq by discriminate; apply Hd2; discriminate).
    rewrite (path_cons "questionGroupItem" _ _ g2) by apply dict_get_set_eq.
    rewrite !path_one, !dict_get_set_neq by discriminate.
    apply grid_columns_clean in Hg.
    repeat split;
      first [exact Ht | exact Hd | exact Hg | apply option_values_clean_none
            | discriminate].
  - rewrite !(path_absent "questionItem")
      by (rewrite (plain_item_get _ _ _ _ Hk) by not_plain; apply Hd2; discriminate).
    rewrite !(path_absent "questionGroupItem")
      by (rewrite (plain_item_get _ _ _ _ Hk) by not_plain; apply Hd2; discriminate).
    rewrite !path_one, !(plain_item_get _ _ _ _ Hk) by not_plain.
    repeat split;
      first [exact Ht | exact Hd | apply option_values_clean_none | discriminate].
Qed.

(** *** A second pass changes nothing *)

Lemma py_clean_newlines_idem (x x' : json) :
  Py.clean_newlines x = Ok x' -> Py.clean_newlines x' = Ok x'.
Proof.
  destruct x; try discriminate. intros [= <-]. simpl.
  rewrite clean_newlines_idem. reflexivity.
Qed.

Lemma pop_idem (k : string) (v v' : json) :
  Py.pop v k = Ok v' -> Py.pop v' k = Ok v'.
Proof.
  destruct v; try discriminate. intros [= <-]. simpl.
  rewrite (dict_del_absent k (dict_del k kvs)) by apply dict_get_del_eq.
  reflexivity.
Qed.

Lemma pop_lacking (k : string) (v : json) : lacks k v -> Py.pop v k = Ok v.
Proof.
  intros [d [-> Hd]]. simpl. rewrite dict_del_absent by exact Hd. reflexivity.
Qed.

Lemma clean_text_key_idem (k : string) (v v' : json) :
  Gforms.clean_text_key k v = Ok v' -> Gforms.clean_text_key k v' = Ok v'.
Proof. apply update_idem. exact py_clean_newlines_idem. Qed.

(** Two updates under different keys, one after the other, settle after
  one round when each of them does. *)
Lemma update_seq_idem (k1 k2 : string) (f1 f2 : json -> result json)
    (v v' : json) :
  k1 <> k2 ->
  (forall x x', f1 x = Ok x' -> f1 x' = Ok x') ->
  (forall x x', f2 x = Ok x' -> f2 x' = Ok x') ->
  (let* a := Py.update k1 f1 v in Py.update k2 f2 a) = Ok v' ->
  (let* a := Py.update k1 f1 v' in Py.update k2 f2 a) = Ok v'.
Proof.
  intros Hne H1 H2 H. inv_ok.
  pose proof (update_idem _ _ _ _ H1 Ha) as Ha'.
  rewrite (update_frame k1 k2 f1 f2 a v' Hne Ha' H). simpl.
  exact (update_idem _ _ _ _ H2 H).
Qed.

Lemma clean_scale_labels_idem (q q' : json) :
  Gforms.clean_scale_labels q = Ok q' -> Gforms.clean_scale_labels q' = Ok q'.
Proof.
  apply update_idem. intros x x'.
  apply (update_seq_idem "lowLabel" "highLabel");
    [discriminate | exact py_clean_newlines_idem | exact py_clean_newlines_idem].
Qed.

Lemma clean_option_values_idem (o o' : json) :
  Gforms.clean_option_values o = Ok o' -> Gforms.clean_option_values o' = Ok o'.
Proof. apply for_each_idem. exact (clean_text_key_idem "value"). Qed.

Lemma clean_choice_options_idem (q q' : json) :
  Gforms.clean_choice_options q = Ok q' -> Gforms.clean_choice_options q' = Ok q'.
Proof.
  apply update_idem. intros x x'. apply update_idem.
  exact clean_option_values_idem.
Qed.

Lemma clean_grid_columns_idem (g g' : json) :
  Gforms.clean_grid_columns g = Ok g' -> Gforms.clean_grid_columns g' = Ok g'.
Proof.
  apply update_idem. intros x x'. apply update_idem.
  intros y y'. apply update_idem. exact clean_option_values_idem.
Qed.

Lemma pop_question_ids_idem (qs qs' : json) :
  pop_question_ids qs = Ok qs' -> pop_question_ids qs' = Ok qs'.
Proof. apply for_each_idem. intros x x'. apply pop_idem. Qed.

(** The second pass over the title and the description. *)
Lemma copy_field_obj (norm : json -> result json) (k : string)
    (dc d : dict json) :
  copy_field norm k (JObj dc) d =
  match dict_get k dc with
  | Some y => let* y' := norm y in Ok (dict_set k y' d)
  | None => Ok d
  end.
Proof.
  unfold copy_field, Py.contains, Py.getitem, dict_has.
  destruct (dict_get k dc); reflexivity.
Qed.

Lemma text_fields_again (x : json) (d1 d2 dc : dict json) :
  copy_field Py.clean_newlines "title" x [] = Ok d1 ->
  copy_field Py.clean_newlines "description" x d1 = Ok d2 ->
  dict_get "title" dc = dict_get "title" d2 ->
  dict_get "description" dc = dict_get "description" d2 ->
  (let* a := copy_field Py.clean_newlines "title" (JObj dc) [] in
   copy_field Py.clean_newlines "description" (JObj dc) a) = Ok d2.
Proof.
  intros H1 H2 Et Ed. rewrite !copy_field_obj.
  apply copy_field_inv in H1 as [[_ ->] | (y1 & y1' & _ & _ & Hn1 & ->)];
    apply copy_field_inv in H2 as [[_ ->] | (y2 & y2' & _ & _ & Hn2 & ->)];
    simpl in Et, Ed; rewrite Et; simpl;
    try rewrite (py_clean_newlines_idem _ _ Hn1); simpl;
    rewrite copy_field_obj, Ed; simpl;
    try rewrite (py_clean_newlines_idem _ _ Hn2); reflexivity.
Qed.

Lemma copy_first_kind_absent (ks : list string) (dc d : dict json) :
  (forall k, In k ks -> dict_get k dc = None) ->
  copy_first_kind ks (JObj dc) d = Ok d.
Proof.
  induction ks as [|k ks IH]; intros H; [reflexivity|].
  cbn [copy_first_kind Py.contains]. unfold dict_has.
  rewrite (H k) by (left; reflexivity). simpl.
  apply IH. intros k' Hk'. apply H. right. exact Hk'.
Qed.

Lemma copy_first_kind_again (ks : list string) (k : string) (y : json)
    (d : dict json) :
  (forall k', In k' ks -> dict_get k' d = None) ->
  In k ks ->
  copy_first_kind ks (JObj (dict_set k y d)) d = Ok (dict_set k y d).
Proof.
  induction ks as [|k0 ks IH]; intros H Hin; [contradiction|].
  cbn [copy_first_kind Py.contains]. unfold dict_has.
  destruct (string_dec k0 k) as [-> | Hne].
  - rewrite dict_get_set_eq. simpl. rewrite dict_get_set_eq. reflexivity.
  - rewrite dict_get_set_neq by exact Hne.
    rewrite (H k0) by (left; reflexivity). simpl.
    apply IH.
    + intros k' Hk'. apply H. right. exact Hk'.
    + destruct Hin as [-> | Hin]; [contradiction | exact Hin].
Qed.

Lemma build_question_item_again (qi q new_item : json) :
  build_question_item qi q = Ok new_item ->
  Py.getitem new_item "question" = Ok q /\
  build_question_item new_item q = Ok new_item.
Proof.
  intros H.
  apply build_question_item_inv in H as [[_ ->] | (image & _ & _ & ->)];
    split; reflexivity.
Qed.

Lemma gforms_clean_item_fixed (x c : json) :
  Gforms._clean_item_for_duplication x = Ok c ->
  Gforms._clean_item_for_duplication c = Ok c.
Proof.
  intros H.
  apply gforms_clean_item_inv in H
    as (d1 & d2 & H1 & H2 &
        [ (qi & q0 & q1 & q2 & q3 & ni & _ & _ & _ & Hpop & Hs & Hc & Hb & ->)
        | [ (g0 & g1 & g2 & _ & _ & _ & Hq & Hg & ->)
          | (d3 & _ & _ & Hk & ->) ] ]);
    pose proof (text_fields_only _ _ _ _ _ H1 H2) as Hd2;
    unfold Gforms._clean_item_for_duplication.
  - assert (dict_get "title" (dict_set "questionItem" ni d2) = dict_get "title" d2) as Et
        by (apply dict_get_set_neq; discriminate).
    assert (dict_get "description" (dict_set "questionItem" ni d2)
            = dict_get "description" d2) as Ed
        by (apply dict_get_set_neq; discriminate).
    pose proof (text_fields_again x d1 d2 _ H1 H2 Et Ed) as Hh.
    apply rbind_ok in Hh as (d1' & Hh1 & Hh2). rewrite Hh1. cbn [rbind].
    rewrite Hh2. cbn [rbind Py.contains Py.getitem]. unfold dict_has.
    rewrite dict_get_set_eq. cbn [rbind].
    destruct (build_question_item_again _ _ _ Hb) as [Hq3 Hb'].
    rewrite Hq3. cbn [rbind].
    assert (lacks "questionId" q3) as Hl.
    { eapply update_lacks; [ | | exact Hc]; [discriminate|].
      eapply update_lacks; [ | | exact Hs]; [discriminate|].
      eapply pop_lacks; exact Hpop. }
    rewrite (pop_lacking _ _ Hl). cbn [rbind].
    assert (Gforms.clean_scale_labels q3 = Ok q3) as Hs'.
    { eapply (update_frame "scaleQuestion" "choiceQuestion");
        [discriminate | exact (clean_scale_labels_idem _ _ Hs) | exact Hc]. }
    rewrite Hs'. cbn [rbind].
    rewrite (clean_choice_options_idem _ _ Hc). cbn [rbind].
    rewrite Hb'. reflexivity.
  - assert (dict_get "title" (dict_set "questionGroupItem" g2 d2) = dict_get "title" d2) as Et
        by (apply dict_get_set_neq; discriminate).
    assert (dict_get "description" (dict_set "questionGroupItem" g2 d2)
            = dict_get "description" d2) as Ed
        by (apply dict_get_set_neq; discriminate).
    pose proof (text_fields_again x d1 d2 _ H1 H2 Et Ed) as Hh.
    apply rbind_ok in Hh as (d1' & Hh1 & Hh2). rewrite Hh1. cbn [rbind].
    rewrite Hh2. cbn [rbind Py.contains Py.getitem]. unfold dict_has.
    rewrite dict_get_set_neq by discriminate.
    rewrite (Hd2 "questionItem") by discriminate. cbn [rbind].
    rewrite dict_get_set_eq. cbn [rbind].
    assert (Py.update "questions" pop_question_ids g2 = Ok g2) as Hq'.
    { eapply (update_frame "questions" "grid");
        [discriminate | | exact Hg].
      eapply update_idem; [exact pop_question_ids_idem | exact Hq]. }
    rewrite Hq'. cbn [rbind].
    rewrite (clean_grid_columns_idem _ _ Hg). reflexivity.
  - assert (dict_get "title" d3 = dict_get "title" d2) as Et
        by (apply (plain_item_get _ _ _ _ Hk); not_plain).
    assert (dict_get "description" d3 = dict_get "description" d2) as Ed
        by (apply (plain_item_get _ _ _ _ Hk); not_plain).
    pose proof (text_fields_again x d1 d2 d3 H1 H2 Et Ed) as Hh.
    apply rbind_ok in Hh as (d1' & Hh1 & Hh2). rewrite Hh1. cbn [rbind].
    rewrite Hh2. cbn [rbind Py.contains]. unfold dict_has.
    rewrite !(plain_item_get _ _ _ _ Hk) by not_plain.
    rewrite !Hd2 by discriminate. cbn [rbind].
    assert (forall k, In k plain_kinds -> dict_get k d2 = None) as Hplain.
    { intros k Hin. apply plain_kind_cases in Hin as (_ & _ & _ & ? & ?).
      apply Hd2; assumption. }
    apply copy_first_kind_inv in Hk as [-> | (k & y & Hin & _ & ->)].
    + rewrite (copy_first_kind_absent _ _ _ Hplain). reflexivity.
    + rewrite (copy_first_kind_again _ _ _ _ Hplain Hin). reflexivity.
Qed.

(** ** Computations with remote calls *)

Lemma bind_ok {A B : Type} (m : io A) (k : A -> io B) (h t : list call) (b : B) :
  bind m k h = (Ok b, t) ->
  exists a h', m h = (Ok a, h') /\ k a h' = (Ok b, t).
Proof.
  unfold bind. destruct (m h) as [[a|e] h'] eqn:E; intros H.
  - eauto.
  - discriminate.
Qed.

Lemma lift_ok {A : Type} (r : result A) (h t : list call) (a : A) :
  lift r h = (Ok a, t) -> r = Ok a /\ t = h.
Proof. unfold lift. intros [= -> ->]. auto. Qed.

Lemma ret_ok {A : Type} (x a : A) (h t : list call) :
  ret x h = (Ok a, t) -> a = x /\ t = h.
Proof. unfold ret. intros [= -> ->]. auto. Qed.

Lemma except_http_raise_ok {A : Type} (m : io A) (e : exn) (h t : list call) (a : A) :
  except_http m (raise e) h = (Ok a, t) -> m h = (Ok a, t).
Proof.
  unfold except_http, raise.
  destruct (m h) as [[x|[]] h']; intros H; try discriminate; exact H.
Qed.

Lemma bind_run {A B : Type} (m : io A) (k : A -> io B) (h h' : list call) (a : A) :
  m h = (Ok a, h') -> bind m k h = k a h'.
Proof. unfold bind. intros ->. reflexivity. Qed.

Lemma lift_run {A : Type} (r : result A) (a : A) (h : list call) :
  r = Ok a -> lift r h = (Ok a, h).
Proof. intros ->. reflexivity. Qed.

Lemma except_http_run {A : Type} (m handler : io A) (h h' : list call) (a : A) :
  m h = (Ok a, h') -> except_http m handler h = (Ok a, h').
Proof. unfold except_http. intros ->. reflexivity. Qed.

(** Splits a run that returned into the runs of its steps. *)
Ltac inv_io :=
  repeat match goal with
    | H : except_http _ (raise _) _ = (Ok _, _) |- _ =>
        apply except_http_raise_ok in H
    | H : bind _ _ _ = (Ok _, _) |- _ =>
        let a := fresh "a" in
        let h := fresh "h" in
        let Ha := fresh "Ha" in
        apply bind_ok in H; destruct H as (a & h & Ha & H)
    | H : lift _ _ = (Ok _, _) |- _ =>
        let E := fresh "E" in
        apply lift_ok in H; destruct H as [H E]; try subst
    | H : ret _ _ = (Ok _, _) |- _ =>
        let E := fresh "E" in
        apply ret_ok in H; destruct H as [H E]; try subst
    end.

Lemma execute_trace (svc : remote) (c : call) (h : list call) :
  snd (execute svc c h) = (h ++ [c])%list.
Proof. reflexivity. Qed.

Lemma execute_ok_trace (svc : remote) (c : call) (h t : list call) (r : json) :
  execute svc c h = (Ok r, t) -> t = (h ++ [c])%list.
Proof. unfold execute. intros [= _ <-]. reflexivity. Qed.

Ltac inv_exec :=
  repeat match goal with
    | H : execute _ _ _ = (Ok _, _) |- _ =>
        apply execute_ok_trace in H; try subst
    end.

Section RemoteFacts.

Variable svc : remote.
Hypothesis Hsvc : no_failure svc.

Lemma execute_no_failure (c : call) (h : list call) :
  exists r, execute svc c h = (Ok r, (h ++ [c])%list).
Proof.
  unfold execute. destruct (svc h c) as [r|] eqn:E.
  - exists r. reflexivity.
  - exfalso. exact (Hsvc h c E).
Qed.

End RemoteFacts.


(** ** The duplication engine *)

Lemma copy_calls_app (a b : list call) :
  copy_calls (a ++ b) = (copy_calls a ++ copy_calls b)%list.
Proof.
  induction a as [|c a IH]; [reflexivity|].
  cbn [copy_calls app]. destruct (batch_body c) as [[fid rs]|]; [|exact IH].
  destruct (existsb is_copy_request rs); [|exact IH].
  rewrite IH. reflexivity.
Qed.

Lemma writes_app (a b : list call) :
  writes (a ++ b) = (writes a ++ writes b)%list.
Proof. unfold writes. apply flat_map_app. Qed.

Lemma writes_batch_calls (form_id : json) (chunks : list (list json)) :
  writes (map (batch_call form_id) chunks) = map (pair form_id) (concat chunks).
Proof.
  induction chunks as [|ch chunks IH]; [reflexivity|].
  cbn [map concat]. rewrite map_app, <- IH. reflexivity.
Qed.

Lemma copy_calls_batch_calls (form_id : json) (chunks : list (list json)) :
  Forall (fun ch => existsb is_copy_request ch = true) chunks ->
  copy_calls (map (batch_call form_id) chunks) = chunks.
Proof.
  induction 1 as [|ch chunks Hch _ IH]; [reflexivity|].
  cbn [map copy_calls batch_call batch_body requests_body json_path dict_get].
  cbn. rewrite Hch. cbn in IH. rewrite IH. reflexivity.
Qed.

Section GformsEngine.

Variable svc : remote.
Variable repr : json -> string.

Lemma get_form_ok (form_id v : json) (h t : list call) :
  Gforms.get_form svc form_id h = (Ok v, t) ->
  svc h (FormsGet form_id) = Some v /\ t = (h ++ [FormsGet form_id])%list.
Proof.
  unfold Gforms.get_form. intros H. inv_io.
  unfold execute in H. destruct (svc h (FormsGet form_id)); [|discriminate].
  injection H as -> <-. auto.
Qed.

Lemma sync_drive_name_run (form_id title : json) (h : list call) :
  Gforms._sync_drive_name svc form_id title h
  = (Ok tt, (h ++ [DriveFilesUpdate form_id (JObj [("name", title)])])%list).
Proof.
  unfold Gforms._sync_drive_name, except_http, bind, execute, ret.
  destruct (svc h _); reflexivity.
Qed.

Lemma create_form_ok (title description new_form : json) (h t : list call) :
  Gforms.create_form svc repr title description h = (Ok new_form, t) ->
  exists form_id responder,
    new_form = JObj [("formId", form_id); ("responderUri", responder);
                     ("editUri", Gforms.edit_uri repr form_id)] /\
    t = (h ++ create_form_calls title description form_id)%list.
Proof.
  unfold Gforms.create_form. intros H. inv_io.
  rewrite sync_drive_name_run in Ha2. injection Ha2 as _ <-.
  apply execute_ok_trace in Ha. subst h0.
  exists a0, a3. split; [reflexivity|].
  unfold create_form_calls.
  destruct (Py.truthy description); inv_io; inv_exec;
    cbn [app]; rewrite <- ?app_assoc; reflexivity.
Qed.

Lemma create_form_calls_no_copy (title description form_id : json) :
  copy_calls (create_form_calls title description form_id) = [].
Proof.
  unfold create_form_calls. destruct (Py.truthy description); reflexivity.
Qed.

Hypothesis Hsvc : no_failure svc.

Lemma submit_chunks_run (form_id : json) (chunks : list (list json))
    (idx api_calls total_copied : nat) (h : list call) :
  Gforms.submit_chunks svc form_id idx chunks api_calls total_copied h
  = (Ok (api_calls + List.length chunks,
         total_copied + List.length (filter is_create_item (concat chunks))),
     (h ++ map (batch_call form_id) chunks)%list).
Proof.
  revert idx api_calls total_copied h.
  induction chunks as [|ch chunks IH]; intros idx api_calls total_copied h.
  - cbn. rewrite !Nat.add_0_r, app_nil_r. reflexivity.
  - cbn [Gforms.submit_chunks].
    destruct (execute_no_failure svc Hsvc
                (FormsBatchUpdate form_id (requests_body ch)) h) as [r Hr].
    unfold bind at 1. unfold except_http at 1. rewrite Hr.
    rewrite IH. cbn [concat map List.length].
    rewrite filter_app, length_app, <- app_assoc.
    f_equal. f_equal. f_equal; lia.
Qed.

Lemma copy_items_run (form_id : json) (items requests : list json)
    (i api_calls copied_count : nat) (h : list call) :
  Gforms.item_requests i items = Ok requests ->
  Gforms.copy_items svc form_id i items api_calls copied_count h
  = (Ok (api_calls + List.length items, copied_count + List.length items),
     (h ++ map (fun r => batch_call form_id [r]) requests)%list).
Proof.
  revert requests i api_calls copied_count h.
  induction items as [|x items IH]; intros requests i api_calls copied_count h Hreq.
  - cbn in Hreq. injection Hreq as <-.
    cbn. rewrite !Nat.add_0_r, app_nil_r. reflexivity.
  - cbn [Gforms.item_requests] in Hreq. inv_ok.
    cbn [Gforms.copy_items]. rewrite (bind_run _ _ _ _ _ (lift_run _ _ h Ha)).
    destruct (execute_no_failure svc Hsvc
                (FormsBatchUpdate form_id (requests_body [create_item a i])) h)
      as [r Hr].
    unfold bind at 1. unfold except_http at 1. unfold bind at 1. rewrite Hr.
    cbn [ret]. rewrite (IH _ _ _ _ _ Ha0).
    cbn [map List.length]. rewrite <- app_assoc.
    f_equal. f_equal. f_equal; lia.
Qed.

Lemma copy_items_ok (form_id : json) (items : list json)
    (i api_calls copied_count : nat) (h t : list call) (counts : nat * nat) :
  Gforms.copy_items svc form_id i items api_calls copied_count h = (Ok counts, t) ->
  exists requests, Gforms.item_requests i items = Ok requests.
Proof.
  revert i api_calls copied_count h.
  induction items as [|x items IH]; intros i api_calls copied_count h H.
  - exists []. reflexivity.
  - cbn [Gforms.copy_items] in H. inv_io.
    destruct a0; apply IH in H as [requests Hr];
      exists (create_item a i :: requests);
      cbn [Gforms.item_requests]; rewrite Ha, Hr; reflexivity.
Qed.

End GformsEngine.

(** *** Chunks *)

Lemma ceil_div_step (m c : nat) :
  0 < c -> 0 < m -> ceil_div m c = S (ceil_div (m - c) c).
Proof.
  intros Hc Hm. unfold ceil_div.
  destruct (Nat.le_gt_cases m c) as [Hle | Hgt].
  - replace (m - c) with 0 by lia.
    rewrite (Nat.div_small (0 + c - 1) c) by lia.
    symmetry. apply (Nat.div_unique _ _ 1 (m - 1)); lia.
  - replace (m + c - 1) with ((m - c + c - 1) + 1 * c) by lia.
    rewrite Nat.div_add by lia. lia.
Qed.

Lemma ceil_div_zero (c : nat) : 0 < c -> ceil_div 0 c = 0.
Proof. intros Hc. unfold ceil_div. apply Nat.div_small. lia. Qed.

Section Chunks.

Context {A : Type}.
Variable c : nat.
Hypothesis Hc : 0 < c.

Lemma range_from_length (fuel i n : nat) :
  n - i <= fuel -> List.length (range_from fuel i n c) = ceil_div (n - i) c.
Proof.
  revert i. induction fuel as [|f IH]; intros i Hf.
  - cbn. replace (n - i) with 0 by lia. rewrite ceil_div_zero by exact Hc.
    reflexivity.
  - cbn [range_from]. destruct (Nat.ltb_spec i n) as [Hlt | Hge].
    + cbn [List.length]. rewrite IH by lia.
      rewrite (ceil_div_step (n - i) c) by lia.
      f_equal. f_equal. lia.
    + replace (n - i) with 0 by lia. rewrite ceil_div_zero by exact Hc.
      reflexivity.
Qed.

Lemma range_from_lower (fuel i n : nat) :
  Forall (fun j => i <= j /\ j < n) (range_from fuel i n c).
Proof.
  revert i. induction fuel as [|f IH]; intros i; [constructor|].
  cbn [range_from]. destruct (Nat.ltb_spec i n) as [Hlt | Hge]; [|constructor].
  constructor; [lia|].
  eapply Forall_impl; [|apply IH]. cbn. intros j [H1 H2]. lia.
Qed.

Lemma range_from_concat (l : list A) (fuel i : nat) :
  List.length l - i <= fuel ->
  concat (map (fun j => firstn c (skipn j l)) (range_from fuel i (List.length l) c))
  = skipn i l.
Proof.
  revert i. induction fuel as [|f IH]; intros i Hf.
  - cbn. symmetry. apply skipn_all2. lia.
  - cbn [range_from]. destruct (Nat.ltb_spec i (List.length l)) as [Hlt | Hge].
    + cbn [map concat]. rewrite IH by lia.
      replace (i + c) with (c + i) by lia.
      rewrite <- skipn_skipn. apply firstn_skipn.
    + cbn. symmetry. apply skipn_all2. lia.
Qed.

Lemma range_from_chunks_bounded (l : list A) (fuel i : nat) :
  Forall (fun ch : list A => 0 < List.length ch <= c)
    (map (fun j => firstn c (skipn j l)) (range_from fuel i (List.length l) c)).
Proof.
  apply Forall_map. eapply Forall_impl; [|apply range_from_lower].
  cbn. intros j [_ Hj]. rewrite length_firstn, length_skipn. lia.
Qed.

End Chunks.

Section BuildChunks.

Variable c : nat.
Hypothesis Hc : 0 < c.

(** The chunks of a sequence that starts with the settings replacement
    when there is one: the first holds that replacement and up to [c]
    items, the others up to [c] items. *)
Lemma build_chunks_shape (hs : bool) (settings creates : list json) :
  List.length settings = bool_to_nat hs ->
  creates <> [] ->
  exists rest,
    Gforms.build_chunks hs (settings ++ creates) c
    = (settings ++ firstn c creates)%list :: rest /\
    concat rest = skipn c creates /\
    Forall (fun ch : list json => 0 < List.length ch <= c) rest /\
    S (List.length rest) = ceil_div (List.length creates) c.
Proof.
  intros Hlen Hne.
  assert ((if hs then skipn 1 (settings ++ creates) else (settings ++ creates)%list)
          = creates) as Hitems.
  { destruct hs; destruct settings as [|s [|s' settings]]; try discriminate;
      reflexivity. }
  assert ((if hs then firstn 1 (settings ++ creates) else []) = settings) as Hset.
  { destruct hs; destruct settings as [|s [|s' settings]]; try discriminate;
      reflexivity. }
  unfold Gforms.build_chunks. rewrite Hitems, Hset.
  destruct creates as [|x creates]; [contradiction|].
  unfold range_step. cbn [List.length range_from].
  cbn [Nat.ltb Nat.leb map skipn].
  exists (map (fun i => firstn c (skipn i (x :: creates)))
            (range_from (List.length creates) (0 + c)
               (List.length (x :: creates)) c)).
  split; [|split; [|split]].
  - f_equal.
    + destruct settings; reflexivity.
    + apply map_ext_in. intros j Hj.
      pose proof (range_from_lower c Hc (List.length creates) (0 + c)
                    (List.length (x :: creates))) as Hlow.
      rewrite Forall_forall in Hlow. apply Hlow in Hj.
      destruct j; [lia|]. destruct settings; reflexivity.
  - rewrite (range_from_concat c Hc (x :: creates)) by (cbn [List.length]; lia).
    reflexivity.
  - apply (range_from_chunks_bounded c Hc).
  - rewrite length_map, (range_from_length c Hc) by (cbn [List.length]; lia).
    cbn [List.length].
    rewrite (ceil_div_step (S (List.length creates)) c) by lia.
    f_equal; try (f_equal; lia).
Qed.

End BuildChunks.

(** *** The two duplication paths, run *)

Lemma list_ascii_length (s : string) :
  List.length (list_ascii_of_string s) = String.length s.
Proof. induction s as [|a s IH]; [reflexivity|]. cbn. rewrite IH. reflexivity. Qed.

Lemma iter_len (v : json) (l : list json) :
  Py.iter v = Ok l -> Py.len v = Ok (List.length l).
Proof.
  destruct v; try discriminate; intros [= <-]; cbn [Py.len].
  - rewrite length_map, list_ascii_length. reflexivity.
  - reflexivity.
  - unfold dict_keys. rewrite !length_map. reflexivity.
Qed.

Lemma item_requests_length (i : nat) (items requests : list json) :
  Gforms.item_requests i items = Ok requests ->
  List.length requests = List.length items.
Proof.
  revert i requests. induction items as [|x items IH]; intros i requests H.
  - injection H as <-. reflexivity.
  - cbn [Gforms.item_requests] in H. inv_ok. cbn [List.length].
    f_equal. eapply IH. eassumption.
Qed.

Lemma item_requests_creates (i : nat) (items requests : list json) :
  Gforms.item_requests i items = Ok requests ->
  filter is_create_item requests = requests.
Proof.
  revert i requests. induction items as [|x items IH]; intros i requests H.
  - injection H as <-. reflexivity.
  - cbn [Gforms.item_requests] in H. inv_ok.
    cbn [filter create_item is_create_item]. cbn.
    f_equal. eapply IH. eassumption.
Qed.

Lemma built_settings_length (original description : json) (hs : bool)
    (sreqs item_list creates : list json) :
  built_from original description hs sreqs item_list creates ->
  List.length sreqs = bool_to_nat hs /\
  filter is_create_item sreqs = [] /\
  Forall (fun r => is_replace_settings r = true) sreqs.
Proof.
  intros (_ & _ & Hs & _). destruct hs.
  - destruct Hs as (settings & _ & ->). repeat split. repeat constructor.
  - subst sreqs. repeat split. constructor.
Qed.

Lemma built_creates (original description : json) (hs : bool)
    (sreqs item_list creates : list json) :
  built_from original description hs sreqs item_list creates ->
  List.length creates = List.length item_list /\
  filter is_create_item (sreqs ++ creates) = creates.
Proof.
  intros Hb. pose proof (built_settings_length _ _ _ _ _ _ Hb) as (_ & Hf & _).
  destruct Hb as (_ & _ & _ & _ & Hc). split.
  - eapply item_requests_length; eassumption.
  - rewrite filter_app, Hf. cbn [app].
    eapply item_requests_creates; eassumption.
Qed.

Section Paths.

Variable svc : remote.
Variable repr : json -> string.
Hypothesis Hsvc : no_failure svc.

Variables (form_id new_title : json).
Variables (original description new_form fid responder : json).
Variable hs : bool.
Variables (sreqs item_list creates : list json).
Variable h2 : list call.

Hypothesis Hget : svc [] (FormsGet form_id) = Some original.
Hypothesis Hbuilt : built_from original description hs sreqs item_list creates.
Hypothesis Hcreate :
  Gforms.create_form svc repr new_title description [FormsGet form_id]
  = (Ok new_form, h2).
Hypothesis Hfid : Py.getitem new_form "formId" = Ok fid.
Hypothesis Hresp : Py.getitem new_form "responderUri" = Ok responder.

Lemma get_form_run :
  Gforms.get_form svc form_id [] = (Ok original, [FormsGet form_id]).
Proof.
  unfold Gforms.get_form, except_http, execute. rewrite Hget. reflexivity.
Qed.

Lemma planned_chunks_creates (chunk_size : Z) :
  (0 < chunk_size)%Z ->
  List.length (filter is_create_item
                 (concat (planned_chunks hs (sreqs ++ creates) chunk_size)))
  = List.length item_list /\
  concat (planned_chunks hs (sreqs ++ creates) chunk_size)
  = (sreqs ++ creates)%list.
Proof.
  intros Hc.
  destruct (built_settings_length _ _ _ _ _ _ Hbuilt) as (Hlen & _ & _).
  destruct (built_creates _ _ _ _ _ _ Hbuilt) as (Hcl & Hf).
  assert (concat (planned_chunks hs (sreqs ++ creates) chunk_size)
          = (sreqs ++ creates)%list) as Hcat.
  { unfold planned_chunks.
    destruct (sreqs ++ creates)%list as [|r0 rs] eqn:Eall; [reflexivity|].
    destruct (Z.leb_spec (Z.of_nat (List.length (r0 :: rs))) chunk_size)
      as [Hle | Hgt].
    - cbn [concat]. apply app_nil_r.
    - rewrite <- Eall.
      assert (creates <> []) as Hne.
      { intros ->. rewrite app_nil_r in Eall.
        assert (List.length sreqs = List.length (r0 :: rs)) as El
            by (rewrite Eall; reflexivity).
        destruct hs; cbn in Hlen; lia. }
      destruct (build_chunks_shape (Z.to_nat chunk_size) ltac:(lia)
                  hs sreqs creates Hlen Hne) as (rest & -> & Hrest & _ & _).
      cbn [concat]. rewrite Hrest, <- app_assoc, firstn_skipn. reflexivity. }
  split; [|exact Hcat]. rewrite Hcat, Hf. exact Hcl.
Qed.

Lemma batch_run (chunk_size : Z) :
  (0 < chunk_size)%Z ->
  Gforms._duplicate_form_batch svc repr form_id new_title chunk_size []
  = (Ok {| newFormId := fid;
           responderUri := responder;
           editUri := Gforms.edit_uri repr fid;
           copiedItems := List.length item_list;
           totalItems := List.length item_list;
           apiCalls := 2 + List.length (planned_chunks hs (sreqs ++ creates) chunk_size);
           method := "batch";
           chunked := Some (Z.ltb chunk_size
                              (Z.of_nat (List.length (sreqs ++ creates)))) |},
     (h2 ++ map (batch_call fid)
              (planned_chunks hs (sreqs ++ creates) chunk_size))%list).
Proof.
  intros Hc.
  destruct (planned_chunks_creates chunk_size Hc) as (Hcount & Hcat).
  destruct Hbuilt as ((info & Hinfo & Hdesc) & Hhs & Hset & (items & Hitems & Hiter) & Hreq).
  pose proof (iter_len _ _ Hiter) as Hlen.
  unfold Gforms._duplicate_form_batch. apply except_http_run.
  rewrite (bind_run _ _ _ _ _ get_form_run).
  rewrite (bind_run _ _ _ _ _ (lift_run _ _ _ Hitems)).
  rewrite (bind_run _ _ _ _ _ (lift_run _ _ _ Hinfo)).
  rewrite (bind_run _ _ _ _ _ (lift_run _ _ _ Hdesc)).
  rewrite (bind_run _ _ _ _ _ Hcreate).
  rewrite (bind_run _ _ _ _ _ (lift_run _ _ _ Hfid)).
  rewrite (bind_run _ _ _ _ _ (lift_run _ _ _ Hhs)).
  assert ((if hs
           then let* settings := Gforms.copy_settings original in
                Ok [update_settings settings]
           else Ok []) = Ok sreqs) as Hsreqs.
  { destruct hs.
    - destruct Hset as (settings & -> & ->). reflexivity.
    - rewrite Hset. reflexivity. }
  rewrite (bind_run _ _ _ _ _ (lift_run _ _ _ Hsreqs)).
  rewrite (bind_run _ _ _ _ _ (lift_run _ _ _ Hiter)).
  rewrite (bind_run _ _ _ _ _ (lift_run _ _ _ Hreq)).
  cbv zeta.
  unfold planned_chunks in *.
  destruct (sreqs ++ creates)%list as [|r0 rs] eqn:Eall.
  - rewrite (bind_run _ _ _ _ _ (eq_refl : ret (2, 0) h2 = (Ok (2, 0), h2))).
    rewrite (bind_run _ _ _ _ _ (lift_run _ _ _ Hresp)).
    rewrite (bind_run _ _ _ _ _ (lift_run _ _ _ Hlen)).
    cbn in Hcount. cbn [fst snd map List.length]. rewrite <- Hcount.
    rewrite app_nil_r. reflexivity.
  - destruct (Z.leb (Z.of_nat (List.length (r0 :: rs))) chunk_size) eqn:Ele.
    + destruct (execute_no_failure svc Hsvc
                  (FormsBatchUpdate fid (requests_body (r0 :: rs))) h2) as [r Hr].
      erewrite (bind_run (bind _ _)); cycle 1.
      { erewrite bind_run; [|apply except_http_run; exact Hr].
        rewrite (bind_run _ _ _ _ _ (lift_run _ _ _ Hlen)). reflexivity. }
      rewrite (bind_run _ _ _ _ _ (lift_run _ _ _ Hresp)).
      rewrite (bind_run _ _ _ _ _ (lift_run _ _ _ Hlen)).
      reflexivity.
    + assert (Gforms.chunks_of hs (r0 :: rs) chunk_size
              = Ok (Gforms.build_chunks hs (r0 :: rs) (Z.to_nat chunk_size)))
        as Hchunks.
      { unfold Gforms.chunks_of.
        destruct (Z.eqb_spec chunk_size 0); [lia|].
        destruct (Z.ltb_spec chunk_size 0); [lia|]. reflexivity. }
      erewrite (bind_run (bind _ _)); cycle 1.
      { rewrite (bind_run _ _ _ _ _ (lift_run _ _ _ Hchunks)).
        apply (submit_chunks_run svc Hsvc). }
      rewrite (bind_run _ _ _ _ _ (lift_run _ _ _ Hresp)).
      rewrite (bind_run _ _ _ _ _ (lift_run _ _ _ Hlen)).
      cbn [fst snd]. rewrite Hcount. reflexivity.
Qed.

Lemma legacy_run :
  Gforms._duplicate_form_legacy svc repr form_id new_title []
  = (Ok {| newFormId := fid;
           responderUri := responder;
           editUri := Gforms.edit_uri repr fid;
           copiedItems := List.length item_list;
           totalItems := List.length item_list;
           apiCalls := 2 + bool_to_nat hs + List.length item_list;
           method := "legacy";
           chunked := None |},
     (h2 ++ map (fun r => batch_call fid [r]) (sreqs ++ creates))%list).
Proof.
  destruct Hbuilt as ((info & Hinfo & Hdesc) & Hhs & Hset & (items & Hitems & Hiter) & Hreq).
  pose proof (iter_len _ _ Hiter) as Hlen.
  unfold Gforms._duplicate_form_legacy. apply except_http_run.
  rewrite (bind_run _ _ _ _ _ get_form_run).
  rewrite (bind_run _ _ _ _ _ (lift_run _ _ _ Hinfo)).
  rewrite (bind_run _ _ _ _ _ (lift_run _ _ _ Hdesc)).
  rewrite (bind_run _ _ _ _ _ Hcreate).
  rewrite (bind_run _ _ _ _ _ (lift_run _ _ _ Hfid)).
  rewrite (bind_run _ _ _ _ _ (lift_run _ _ _ Hhs)).
  destruct hs.
  - destruct Hset as (settings & Hsettings & ->).
    destruct (execute_no_failure svc Hsvc
                (FormsBatchUpdate fid (requests_body [update_settings settings])) h2)
      as [r Hr].
    erewrite (bind_run (bind _ _)); cycle 1.
    { rewrite (bind_run _ _ _ _ _ (lift_run _ _ _ Hsettings)).
      rewrite (bind_run _ _ _ _ _ Hr). reflexivity. }
    rewrite (bind_run _ _ _ _ _ (lift_run _ _ _ Hitems)).
    rewrite (bind_run _ _ _ _ _ (lift_run _ _ _ Hiter)).
    rewrite (bind_run _ _ _ _ _ (copy_items_run svc Hsvc fid _ _ 0 3 0 _ Hreq)).
    rewrite (bind_run _ _ _ _ _ (lift_run _ _ _ Hresp)).
    rewrite (bind_run _ _ _ _ _ (lift_run _ _ _ Hlen)).
    cbn [fst snd app map bool_to_nat]. rewrite <- app_assoc. reflexivity.
  - subst sreqs.
    rewrite (bind_run _ _ _ _ _ (eq_refl : ret 2 h2 = (Ok 2, h2))).
    rewrite (bind_run _ _ _ _ _ (lift_run _ _ _ Hitems)).
    rewrite (bind_run _ _ _ _ _ (lift_run _ _ _ Hiter)).
    rewrite (bind_run _ _ _ _ _ (copy_items_run svc Hsvc fid _ _ 0 2 0 _ Hreq)).
    rewrite (bind_run _ _ _ _ _ (lift_run _ _ _ Hresp)).
    rewrite (bind_run _ _ _ _ _ (lift_run _ _ _ Hlen)).
    cbn [fst snd app map bool_to_nat]. rewrite Nat.add_0_r. reflexivity.
Qed.

End Paths.

(** What a run that returned has read and built. *)
Section Reads.

Variable svc : remote.
Variable repr : json -> string.
Variables (form_id new_title : json).

Lemma settings_requests_built (original : json) (hs : bool) (sreqs : list json) :
  (if hs
   then let* settings := Gforms.copy_settings original in
        Ok [update_settings settings]
   else Ok []) = Ok sreqs ->
  if hs
  then exists settings,
      Gforms.copy_settings original = Ok settings /\
      sreqs = [update_settings settings]
  else sreqs = [].
Proof.
  destruct hs; intros H; inv_ok; eauto.
Qed.

Lemma batch_reads (chunk_size : Z) (r : DuplicationResult) (t : list call) :
  Gforms._duplicate_form_batch svc repr form_id new_title chunk_size [] = (Ok r, t) ->
  exists p, prepared svc repr form_id new_title p.
Proof.
  unfold Gforms._duplicate_form_batch. intros H. inv_io.
  apply get_form_ok in Ha as [Hget ->]. cbn [app] in *.
  apply settings_requests_built in Ha6.
  exists {| p_original := a; p_description := a2; p_new_form := a3;
            p_form_id := a4; p_responder := a10; p_has_settings := a5;
            p_settings_requests := a6; p_item_list := a7; p_creates := a8;
            p_trace := h3 |}.
  unfold prepared, built_from; cbn [p_original p_description p_new_form
    p_form_id p_responder p_has_settings p_settings_requests p_item_list
    p_creates p_trace].
  repeat split; eauto.
Qed.

Lemma legacy_reads (r : DuplicationResult) (t : list call) :
  Gforms._duplicate_form_legacy svc repr form_id new_title [] = (Ok r, t) ->
  exists p, prepared svc repr form_id new_title p.
Proof.
  unfold Gforms._duplicate_form_legacy. intros H. inv_io.
  apply get_form_ok in Ha as [Hget ->]. cbn [app] in *.
  apply copy_items_ok in Ha8 as [creates Hcreates].
  assert (exists sreqs,
             if a4
             then exists settings,
                 Gforms.copy_settings a = Ok settings /\
                 sreqs = [update_settings settings]
             else sreqs = []) as [sreqs Hs].
  { destruct a4; inv_io; eauto. }
  exists {| p_original := a; p_description := a1; p_new_form := a2;
            p_form_id := a3; p_responder := a9; p_has_settings := a4;
            p_settings_requests := sreqs; p_item_list := a7;
            p_creates := creates; p_trace := h2 |}.
  unfold prepared, built_from; cbn [p_original p_description p_new_form
    p_form_id p_responder p_has_settings p_settings_requests p_item_list
    p_creates p_trace].
  repeat split; eauto.
Qed.

Hypothesis Hsvc : no_failure svc.

(** The run of the batch path, from what it has read. *)
Lemma batch_run_prepared (chunk_size : Z) (p : preparation) :
  (0 < chunk_size)%Z ->
  prepared svc repr form_id new_title p ->
  Gforms._duplicate_form_batch svc repr form_id new_title chunk_size []
  = (Ok {| newFormId := p_form_id p;
           responderUri := p_responder p;
           editUri := Gforms.edit_uri repr (p_form_id p);
           copiedItems := List.length (p_item_list p);
           totalItems := List.length (p_item_list p);
           apiCalls := 2 + List.length (planned_chunks (p_has_settings p)
                                          (copy_requests p) chunk_size);
           method := "batch";
           chunked := Some (Z.ltb chunk_size
                              (Z.of_nat (List.length (copy_requests p)))) |},
     (p_trace p ++ map (batch_call (p_form_id p))
                     (planned_chunks (p_has_settings p) (copy_requests p)
                        chunk_size))%list).
Proof.
  intros Hc (Hget & Hbuilt & Hcreate & Hfid & Hresp).
  exact (batch_run svc repr Hsvc _ _ _ _ _ _ _ _ _ _ _ _
           Hget Hbuilt Hcreate Hfid Hresp chunk_size Hc).
Qed.

(** The run of the legacy path, from what it has read. *)
Lemma legacy_run_prepared (p : preparation) :
  prepared svc repr form_id new_title p ->
  Gforms._duplicate_form_legacy svc repr form_id new_title []
  = (Ok {| newFormId := p_form_id p;
           responderUri := p_responder p;
           editUri := Gforms.edit_uri repr (p_form_id p);
           copiedItems := List.length (p_item_list p);
           totalItems := List.length (p_item_list p);
           apiCalls := 2 + bool_to_nat (p_has_settings p)
                       + List.length (p_item_list p);
           method := "legacy";
           chunked := None |},
     (p_trace p ++ map (fun r => batch_call (p_form_id p) [r])
                     (copy_requests p))%list).
Proof.
  intros (Hget & Hbuilt & Hcreate & Hfid & Hresp).
  exact (legacy_run svc repr Hsvc _ _ _ _ _ _ _ _ _ _ _ _
           Hget Hbuilt Hcreate Hfid Hresp).
Qed.

End Reads.

(** *** What the batch path writes *)

Lemma prepared_trace (svc : remote) (repr : json -> string)
    (form_id new_title : json) (p : preparation) :
  prepared svc repr form_id new_title p ->
  p_trace p = FormsGet form_id
              :: create_form_calls new_title (p_description p) (p_form_id p).
Proof.
  intros (_ & _ & Hcreate & Hfid & _).
  apply create_form_ok in Hcreate as (fid & responder & Hnf & ->).
  rewrite Hnf in Hfid. cbn in Hfid. injection Hfid as <-. reflexivity.
Qed.

Lemma prepared_no_copy (svc : remote) (repr : json -> string)
    (form_id new_title : json) (p : preparation) :
  prepared svc repr form_id new_title p -> copy_calls (p_trace p) = [].
Proof.
  intros Hp. rewrite (prepared_trace _ _ _ _ _ Hp).
  cbn [copy_calls batch_body]. apply create_form_calls_no_copy.
Qed.

Lemma singletons_concat {A : Type} (l : list A) :
  concat (map (fun x => [x]) l) = l.
Proof. induction l as [|x l IH]; [reflexivity|]. cbn. rewrite IH. reflexivity. Qed.

Lemma writes_single_calls (form_id : json) (requests : list json) :
  writes (map (fun r => batch_call form_id [r]) requests)
  = map (pair form_id) requests.
Proof.
  rewrite <- (singletons_concat requests) at 2.
  rewrite <- writes_batch_calls, map_map. reflexivity.
Qed.

Lemma existsb_head {A : Type} (f : A -> bool) (x : A) (l : list A) :
  f x = true -> existsb f (x :: l) = true.
Proof. intros H. cbn. rewrite H. reflexivity. Qed.

Lemma Forall_firstn {A : Type} (P : A -> Prop) (n : nat) (l : list A) :
  Forall P l -> Forall P (firstn n l).
Proof.
  intros H. revert n. induction H as [|x l Hx _ IH]; intros [|n]; cbn;
    constructor; auto.
Qed.

Lemma Forall_skipn {A : Type} (P : A -> Prop) (n : nat) (l : list A) :
  Forall P l -> Forall P (skipn n l).
Proof.
  intros H. revert n. induction H as [|x l Hx Hl IH]; intros [|n]; cbn;
    try constructor; auto.
Qed.

(** The chunks of the batch path for [hs] settings replacements followed
  by the item creations, with a positive chunk size [c]. *)
Section PlannedChunks.

Variable c : nat.
Hypothesis Hc : 0 < c.
Variable hs : bool.
Variables (sreqs creates : list json).
Hypothesis Hlen : List.length sreqs = bool_to_nat hs.
Hypothesis Hsreqs : Forall (fun r => is_replace_settings r = true) sreqs.
Hypothesis Hcreates : Forall (fun r => is_create_item r = true) creates.

Lemma copy_requests_all :
  Forall (fun r => is_copy_request r = true) (sreqs ++ creates).
Proof.
  apply Forall_app. split.
  - eapply Forall_impl; [|exact Hsreqs]. cbn. intros r Hr.
    unfold is_copy_request. rewrite Hr. apply orb_true_r.
  - eapply Forall_impl; [|exact Hcreates]. cbn. intros r Hr.
    unfold is_copy_request. rewrite Hr. reflexivity.
Qed.

Lemma nonempty_copy (ch : list json) :
  ch <> [] -> Forall (fun r => is_copy_request r = true) ch ->
  existsb is_copy_request ch = true.
Proof.
  destruct ch as [|r ch]; [contradiction|]. intros _ H.
  apply existsb_head. apply (Forall_inv H).
Qed.

Lemma planned_single :
  List.length sreqs + List.length creates <= c ->
  planned_chunks hs (sreqs ++ creates) (Z.of_nat c)
  = match (sreqs ++ creates)%list with
           | [] => []
           | _ :: _ => [(sreqs ++ creates)%list]
           end.
Proof.
  intros Hle. unfold planned_chunks.
  destruct (sreqs ++ creates)%list as [|r0 rs] eqn:Eall; [reflexivity|].
  assert (List.length (r0 :: rs) = List.length sreqs + List.length creates) as El
      by (rewrite <- Eall; apply length_app).
  destruct (Z.leb_spec (Z.of_nat (List.length (r0 :: rs))) (Z.of_nat c));
    [reflexivity | lia].
Qed.

Lemma planned_chunked :
  c < List.length sreqs + List.length creates ->
  exists rest,
    planned_chunks hs (sreqs ++ creates) (Z.of_nat c)
    = (sreqs ++ firstn c creates)%list :: rest /\
    concat rest = skipn c creates /\
    Forall (fun ch : list json => 0 < List.length ch <= c) rest /\
    S (List.length rest) = ceil_div (List.length creates) c.
Proof.
  intros Hgt. unfold planned_chunks.
  destruct (sreqs ++ creates)%list as [|r0 rs] eqn:Eall.
  - assert (List.length sreqs + List.length creates = 0) as E0
        by (rewrite <- length_app, Eall; reflexivity).
    lia.
  - assert (List.length (r0 :: rs) = List.length sreqs + List.length creates) as El
        by (rewrite <- Eall; apply length_app).
    destruct (Z.leb_spec (Z.of_nat (List.length (r0 :: rs))) (Z.of_nat c));
      [lia|].
    rewrite <- Eall, Nat2Z.id.
    apply build_chunks_shape; [exact Hc | exact Hlen |].
    intros ->. cbn [List.length] in Hgt. destruct hs; cbn in Hlen; lia.
Qed.

Lemma planned_concat :
  concat (planned_chunks hs (sreqs ++ creates) (Z.of_nat c))
  = (sreqs ++ creates)%list.
Proof.
  destruct (Nat.le_gt_cases (List.length sreqs + List.length creates) c)
    as [Hle | Hgt].
  - rewrite (planned_single Hle).
    destruct (sreqs ++ creates)%list; [reflexivity|].
    cbn [concat]. apply app_nil_r.
  - destruct (planned_chunked Hgt) as (rest & -> & Hrest & _ & _).
    cbn [concat]. rewrite Hrest, <- app_assoc, firstn_skipn. reflexivity.
Qed.

Lemma planned_all_copy :
  Forall (fun ch => existsb is_copy_request ch = true)
    (planned_chunks hs (sreqs ++ creates) (Z.of_nat c)).
Proof.
  pose proof copy_requests_all as Hall.
  destruct (Nat.le_gt_cases (List.length sreqs + List.length creates) c)
    as [Hle | Hgt].
  - rewrite (planned_single Hle).
    destruct (sreqs ++ creates)%list as [|r0 rs] eqn:Eall; constructor;
      [|constructor].
    apply nonempty_copy; [discriminate | exact Hall].
  - destruct (planned_chunked Hgt) as (rest & -> & Hrest & Hbound & _).
    constructor.
    + apply nonempty_copy.
      * intros E. apply app_eq_nil in E as [-> E].
        assert (creates = []) as ->.
        { destruct creates; [reflexivity|].
          destruct c; [lia | discriminate]. }
        cbn in Hgt. lia.
      * apply Forall_app in Hall as [Hs Hcr].
        apply Forall_app. split; [exact Hs|]. apply Forall_firstn. exact Hcr.
    + assert (Forall (fun r => is_copy_request r = true) (concat rest)) as Hcat.
      { rewrite Hrest. apply Forall_skipn.
        apply Forall_app in Hall as [_ Hcr]. exact Hcr. }
      clear Hrest. induction rest as [|ch rest IH]; constructor.
      * apply Forall_inv in Hbound. cbn [concat] in Hcat.
        apply Forall_app in Hcat as [Hch _].
        apply nonempty_copy; [|exact Hch].
        intros ->. cbn in Hbound. lia.
      * apply IH.
        -- exact (Forall_inv_tail Hbound).
        -- cbn [concat] in Hcat. apply Forall_app in Hcat as [_ H]. exact H.
Qed.

End PlannedChunks.

Lemma serving_no_failure (source : json) : no_failure (Sample.serving source).
Proof. intros h c. destruct c; discriminate. Qed.

(** ** The two duplication paths agree *)

(** C9: when no remote call fails, the batch path (any positive chunk
  size) and the legacy path return together, and then they have written
  the same operations (the settings replacement, then one createItem per
  source item with the sanitized payload and its index) to the same
  form, and report the same copiedItems and totalItems. *)
Theorem batch_and_legacy_agree (svc : remote) (repr : json -> string)
    (form_id new_title : json) (chunk_size : Z) :
  no_failure svc ->
  (0 < chunk_size)%Z ->
  (forall rb tb,
      Gforms.duplicate_form svc repr form_id new_title true chunk_size []
      = (Ok rb, tb) ->
      exists rl tl,
        Gforms.duplicate_form svc repr form_id new_title false chunk_size []
        = (Ok rl, tl) /\
        same_output rb rl tb tl) /\
  (forall rl tl,
      Gforms.duplicate_form svc repr form_id new_title false chunk_size []
      = (Ok rl, tl) ->
      exists rb tb,
        Gforms.duplicate_form svc repr form_id new_title true chunk_size []
        = (Ok rb, tb) /\
        same_output rb rl tb tl).
Proof.
  intros Hsvc Hc. unfold Gforms.duplicate_form.
  assert (forall p,
             prepared svc repr form_id new_title p ->
             writes (p_trace p ++ map (fun r => batch_call (p_form_id p) [r])
                                    (copy_requests p))
             = writes (p_trace p ++ map (batch_call (p_form_id p))
                                      (planned_chunks (p_has_settings p)
                                         (copy_requests p) chunk_size))) as Hw.
  { intros p Hp. rewrite !writes_app, writes_single_calls, writes_batch_calls.
    destruct Hp as (_ & Hbuilt & _).
    destruct (planned_chunks_creates _ _ _ _ _ _ Hbuilt chunk_size Hc) as [_ Hcat].
    unfold copy_requests. rewrite Hcat. reflexivity. }
  split.
  - intros rb tb H.
    destruct (batch_reads _ _ _ _ _ _ _ H) as [p Hp].
    rewrite (batch_run_prepared svc repr form_id new_title Hsvc chunk_size p Hc Hp) in H.
    injection H as <- <-.
    eexists _, _. split; [apply (legacy_run_prepared _ _ _ _ Hsvc p Hp)|].
    repeat split. apply Hw. exact Hp.
  - intros rl tl H.
    destruct (legacy_reads _ _ _ _ _ _ H) as [p Hp].
    rewrite (legacy_run_prepared svc repr form_id new_title Hsvc p Hp) in H.
    injection H as <- <-.
    eexists _, _. split; [apply (batch_run_prepared _ _ _ _ Hsvc chunk_size p Hc Hp)|].
    repeat split. apply Hw. exact Hp.
Qed.

Lemma batch_and_legacy_agree_witness :
  no_failure (Sample.serving (Sample.form (Some (JObj [])) Sample.three_items)) /\
  (0 < 2)%Z /\
  ((forall rb tb,
       Gforms.duplicate_form
         (Sample.serving (Sample.form (Some (JObj [])) Sample.three_items))
         Sample.repr (JStr "src") (JStr "Copy") true 2 []
       = (Ok rb, tb) ->
       exists rl tl,
         Gforms.duplicate_form
           (Sample.serving (Sample.form (Some (JObj [])) Sample.three_items))
           Sample.repr (JStr "src") (JStr "Copy") false 2 []
         = (Ok rl, tl) /\
         same_output rb rl tb tl) /\
   (forall rl tl,
       Gforms.duplicate_form
         (Sample.serving (Sample.form (Some (JObj [])) Sample.three_items))
         Sample.repr (JStr "src") (JStr "Copy") false 2 []
       = (Ok rl, tl) ->
       exists rb tb,
         Gforms.duplicate_form
           (Sample.serving (Sample.form (Some (JObj [])) Sample.three_items))
           Sample.repr (JStr "src") (JStr "Copy") true 2 []
         = (Ok rb, tb) /\
         same_output rb rl tb tl)).
Proof.
  split; [apply serving_no_failure|]. split; [reflexivity|].
  apply (batch_and_legacy_agree
           (Sample.serving (Sample.form (Some (JObj [])) Sample.three_items))
           Sample.repr (JStr "src") (JStr "Copy") 2).
  - apply serving_no_failure.
  - reflexivity.
Defined.

(** ** Batched writes of the batch path *)

Lemma item_requests_all_create (i : nat) (items requests : list json) :
  Gforms.item_requests i items = Ok requests ->
  Forall (fun r => is_create_item r = true) requests.
Proof.
  revert i requests. induction items as [|x items IH]; intros i requests H.
  - injection H as <-. constructor.
  - cbn [Gforms.item_requests] in H. inv_ok.
    constructor; [reflexivity | eapply IH; eassumption].
Qed.

(** The batched writes of the copy phase of a batch run that returned
  are the planned chunks. *)
Lemma batch_copy_calls (svc : remote) (repr : json -> string)
    (form_id new_title : json) (chunk_size : Z)
    (r : DuplicationResult) (t : list call) :
  no_failure svc ->
  (0 < chunk_size)%Z ->
  Gforms._duplicate_form_batch svc repr form_id new_title chunk_size [] = (Ok r, t) ->
  exists p,
    prepared svc repr form_id new_title p /\
    copy_calls t = planned_chunks (p_has_settings p) (copy_requests p) chunk_size /\
    totalItems r = List.length (p_item_list p) /\
    copiedItems r = List.length (p_item_list p) /\
    apiCalls r = 2 + List.length (copy_calls t) /\
    newFormId r = p_form_id p /\
    t = (p_trace p ++ map (batch_call (p_form_id p)) (copy_calls t))%list.
Proof.
  intros Hsvc Hc H.
  destruct (batch_reads _ _ _ _ _ _ _ H) as [p Hp].
  rewrite (batch_run_prepared svc repr form_id new_title Hsvc chunk_size p Hc Hp) in H.
  injection H as <- <-.
  exists p. split; [exact Hp|].
  assert (copy_calls
            (p_trace p ++ map (batch_call (p_form_id p))
                            (planned_chunks (p_has_settings p) (copy_requests p)
                               chunk_size))
          = planned_chunks (p_has_settings p) (copy_requests p) chunk_size) as E.
  { rewrite copy_calls_app, (prepared_no_copy _ _ _ _ _ Hp). cbn [app].
    apply copy_calls_batch_calls.
    destruct Hp as (_ & Hbuilt & _).
    destruct (built_settings_length _ _ _ _ _ _ Hbuilt) as (Hlen & _ & Hrep).
    destruct Hbuilt as (_ & _ & _ & _ & Hreq).
    apply item_requests_all_create in Hreq.
    rewrite <- (Z2Nat.id chunk_size) by lia.
    apply planned_all_copy; try assumption. lia. }
  rewrite E. cbn [totalItems copiedItems apiCalls newFormId]. auto 10.
Qed.

(** C2, as the code has it: with a positive chunk size and no failing
  call, the batch path writes the settings replacement (when the source
  has a settings block) and one createItem per source item, in that
  order.  Everything goes in a single batched write when the M items and
  the settings replacement together are at most [chunk_size] operations.
  Otherwise the M items are cut into [ceil_div M chunk_size] batched
  writes of at most [chunk_size] items each, and the settings
  replacement is put in front of the first of them, which then carries
  one operation more. *)
Theorem batch_write_calls (svc : remote) (repr : json -> string)
    (form_id new_title : json) (chunk_size : Z)
    (r : DuplicationResult) (t : list call) :
  no_failure svc ->
  (0 < chunk_size)%Z ->
  Gforms.duplicate_form svc repr form_id new_title true chunk_size [] = (Ok r, t) ->
  written_in_chunks svc form_id (Z.to_nat chunk_size) r t.
Proof.
  intros Hsvc Hc H. unfold Gforms.duplicate_form in H. unfold written_in_chunks.
  destruct (batch_copy_calls _ _ _ _ _ _ _ Hsvc Hc H)
    as (p & Hp & Hcalls & Htotal & _).
  pose proof Hp as (Hget & Hbuilt & _).
  destruct (built_settings_length _ _ _ _ _ _ Hbuilt) as (Hlen & _ & Hrep).
  destruct (built_creates _ _ _ _ _ _ Hbuilt) as (Hcl & _).
  pose proof Hbuilt as (_ & Hhs & _ & _ & Hreq).
  apply item_requests_all_create in Hreq.
  remember (Z.to_nat chunk_size) as c eqn:Ec.
  assert (0 < c) as Hc' by lia.
  assert (chunk_size = Z.of_nat c) as Hcs by lia.
  rewrite Hcs in Hcalls. unfold copy_requests in Hcalls.
  exists (p_has_settings p), (p_settings_requests p), (p_creates p).
  rewrite Hcalls, Htotal, <- Hcl.
  split; [eauto|]. split; [exact Hlen|]. split; [exact Hrep|].
  split; [reflexivity|]. split; [exact Hreq|].
  split; [apply planned_concat; assumption|].
  split.
  - intros Hle. apply planned_single; solve [assumption | lia].
  - intros Hgt.
    assert (c < List.length (p_settings_requests p) + List.length (p_creates p))
      as Hgt' by lia.
    destruct (planned_chunked c Hc' (p_has_settings p)
                (p_settings_requests p) (p_creates p) Hlen Hreq Hgt')
      as (rest & E & Hrest & Hbound & Hn).
    rewrite E. split; [cbn [List.length]; exact Hn|].
    exists rest. auto.
Qed.

Lemma batch_write_calls_witness :
  no_failure (Sample.serving (Sample.form (Some (JObj [])) Sample.three_items)) /\
  (0 < 2)%Z /\
  exists r t,
    Gforms.duplicate_form
      (Sample.serving (Sample.form (Some (JObj [])) Sample.three_items))
      Sample.repr (JStr "src") (JStr "Copy") true 2 [] = (Ok r, t) /\
    written_in_chunks
      (Sample.serving (Sample.form (Some (JObj [])) Sample.three_items))
      (JStr "src") (Z.to_nat 2) r t.
Proof.
  split; [apply serving_no_failure|]. split; [reflexivity|].
  eexists _, _. split; [reflexivity|].
  apply (batch_write_calls
           (Sample.serving (Sample.form (Some (JObj [])) Sample.three_items))
           Sample.repr (JStr "src") (JStr "Copy") 2).
  - apply serving_no_failure.
  - reflexivity.
  - reflexivity.
Defined.

(** C2, as stated, fails: a source with two items and a settings block,
  duplicated with chunk size 2, is written in one batched call that
  carries three operations, where the claim has [ceil_div 3 2 = 2]
  calls of at most two operations. *)
Lemma chunk_count_counterexample :
  let run :=
    Gforms.duplicate_form
      (Sample.serving (Sample.form (Some (JObj [])) Sample.two_items))
      Sample.repr (JStr "src") (JStr "Copy") true 2 [] in
  (exists r, fst run = Ok r /\ totalItems r = 2) /\
  ~ (List.length (copy_calls (snd run)) = ceil_div (2 + 1) 2 /\
     Forall (fun ch : list json => List.length ch <= 2) (copy_calls (snd run))).
Proof.
  cbv zeta. split.
  - eexists. split; reflexivity.
  - intros [Hn _]. vm_compute in Hn. discriminate Hn.
Qed.

(** ** Duplicating a form without items *)

Lemma create_form_calls_no_item (title description form_id : json) :
  filter (fun w => is_create_item (snd w))
    (writes (create_form_calls title description form_id)) = [].
Proof.
  unfold create_form_calls. destruct (Py.truthy description); reflexivity.
Qed.

Lemma writes_get (form_id : json) (l : list call) :
  writes (FormsGet form_id :: l) = writes l.
Proof. reflexivity. Qed.

(** C8, as the code has it: duplicating a source form without items
  (any positive chunk size, no failing call) copies nothing and reports
  copiedItems = 0 and totalItems = 0.  When the source has no settings
  block no batched write is made for the copy and apiCalls is 2: the
  fetch and create_form, each counted once, whatever calls create_form
  makes (the creation, the description update, the Drive rename).  When
  the source has a settings block one batched write carries its
  replacement and apiCalls is 3. *)
Theorem empty_form_duplication (svc : remote) (repr : json -> string)
    (form_id new_title : json) (chunk_size : Z) (original : json)
    (r : DuplicationResult) (t : list call) :
  no_failure svc ->
  (0 < chunk_size)%Z ->
  svc [] (FormsGet form_id) = Some original ->
  Py.get original "items" (JArr []) = Ok (JArr []) ->
  Gforms.duplicate_form svc repr form_id new_title true chunk_size [] = (Ok r, t) ->
  copied_nothing svc form_id new_title r t.
Proof.
  intros Hsvc Hc Hget Hitems H. unfold Gforms.duplicate_form in H.
  destruct (batch_copy_calls _ _ _ _ _ _ _ Hsvc Hc H)
    as (p & Hp & Hcalls & Htotal & Hcopied & Hapi & Hfid & Ht).
  pose proof (prepared_trace _ _ _ _ _ Hp) as Htrace.
  pose proof Hp as (Hget' & Hbuilt & _).
  rewrite Hget in Hget'. injection Hget' as Horig.
  destruct Hbuilt as (_ & Hhs & Hset & (items & Hitems' & Hiter) & Hreq).
  rewrite <- Horig, Hitems in Hitems'. injection Hitems' as <-.
  cbn in Hiter. injection Hiter as Hnil. rewrite <- Hnil in *.
  cbn in Hreq. injection Hreq as Hcreates.
  unfold copy_requests in Hcalls. rewrite <- Hcreates, app_nil_r in Hcalls.
  unfold copied_nothing. rewrite Hcopied, Htotal, Hapi, Hfid.
  split; [reflexivity|]. split; [reflexivity|].
  destruct (p_has_settings p) eqn:Ehs.
  - destruct Hset as (settings & _ & Hs). rewrite Hs in Hcalls.
    unfold planned_chunks in Hcalls. cbn [List.length] in Hcalls.
    destruct (Z.leb_spec (Z.of_nat 1) chunk_size); [|lia].
    rewrite Hcalls in Ht |- *. rewrite Htrace in Ht. cbn [map] in Ht.
    split.
    + rewrite Ht, writes_app, writes_get, filter_app, create_form_calls_no_item.
      reflexivity.
    + exists original, (p_description p), true.
      rewrite <- Horig in Hhs.
      split; [exact Hget|]. split; [exact Hhs|].
      split; [discriminate|]. intros _. split; [reflexivity|].
      exists settings. exact Ht.
  - rewrite Hset in Hcalls. cbn in Hcalls.
    rewrite Hcalls in Ht |- *. rewrite Htrace in Ht. cbn [map] in Ht.
    rewrite app_nil_r in Ht.
    split.
    + rewrite Ht, writes_get. apply create_form_calls_no_item.
    + exists original, (p_description p), false.
      rewrite <- Horig in Hhs.
      split; [exact Hget|]. split; [exact Hhs|].
      split; [|discriminate]. intros _. split; [reflexivity | exact Ht].
Qed.

Lemma empty_form_duplication_witness :
  no_failure (Sample.serving (Sample.form None [])) /\
  (0 < 100)%Z /\
  Sample.serving (Sample.form None []) [] (FormsGet (JStr "src"))
  = Some (Sample.form None []) /\
  Py.get (Sample.form None []) "items" (JArr []) = Ok (JArr []) /\
  exists r t,
    Gforms.duplicate_form (Sample.serving (Sample.form None []))
      Sample.repr (JStr "src") (JStr "Copy") true 100 [] = (Ok r, t) /\
    copied_nothing (Sample.serving (Sample.form None []))
      (JStr "src") (JStr "Copy") r t.
Proof.
  split; [apply serving_no_failure|]. split; [reflexivity|].
  split; [reflexivity|]. split; [reflexivity|].
  eexists _, _. split; [reflexivity|].
  apply (empty_form_duplication (Sample.serving (Sample.form None []))
           Sample.repr (JStr "src") (JStr "Copy") 100 (Sample.form None [])).
  - apply serving_no_failure.
  - reflexivity.
  - reflexivity.
  - reflexivity.
  - reflexivity.
Defined.

(** C8, as stated, fails: a source form without items that has a
  settings block is duplicated with a batched write (the settings
  replacement), apiCalls is 3, and four requests go out. *)
Lemma empty_form_counterexample :
  let run :=
    Gforms.duplicate_form (Sample.serving (Sample.form (Some (JObj [])) []))
      Sample.repr (JStr "src") (JStr "Copy") true 100 [] in
  exists r,
    fst run = Ok r /\ totalItems r = 0 /\
    ~ (apiCalls r = 2 /\ List.length (snd run) = 2 /\
       filter is_batch_update (snd run) = []).
Proof.
  cbv zeta. eexists. split; [reflexivity|]. split; [reflexivity|].
  intros [Hn _]. vm_compute in Hn. discriminate Hn.
Qed.

(** ** The sanitizer: the claims *)

(** C7: the item either copy of the sanitizer returns carries no itemId,
  its question (for a question item) carries no questionId, and no
  question of its group (for a grid item) carries a questionId. *)
Theorem sanitized_item_has_no_identifiers (x c : json) :
  Gforms._clean_item_for_duplication x = Ok c \/
  RootApi._clean_item_for_duplication x = Ok c ->
  no_identifiers c.
Proof.
  intros [H | H]; [eapply gforms_no_identifiers | eapply root_no_identifiers];
    exact H.
Qed.

Lemma sanitized_item_has_no_identifiers_witness :
  exists c,
    (Gforms._clean_item_for_duplication Sample.grid_item = Ok c \/
     RootApi._clean_item_for_duplication Sample.grid_item = Ok c) /\
    no_identifiers c.
Proof.
  eexists. split; [left; reflexivity|].
  apply (sanitized_item_has_no_identifiers Sample.grid_item).
  left. reflexivity.
Defined.

(** C6: sanitizing a sanitized item returns it unchanged; in particular
  its item-kind payload is the one of the first pass. *)
Theorem sanitize_is_idempotent (x c : json) :
  Gforms._clean_item_for_duplication x = Ok c ->
  exists c',
    Gforms._clean_item_for_duplication c = Ok c' /\
    kind_payload c' = kind_payload c /\
    c' = c.
Proof.
  intros H. exists c. split; [exact (gforms_clean_item_fixed x c H)|].
  split; reflexivity.
Qed.

Lemma sanitize_is_idempotent_witness :
  exists c,
    Gforms._clean_item_for_duplication Sample.grid_item = Ok c /\
    exists c',
      Gforms._clean_item_for_duplication c = Ok c' /\
      kind_payload c' = kind_payload c /\
      c' = c.
Proof.
  eexists. split; [reflexivity|].
  apply (sanitize_is_idempotent Sample.grid_item). reflexivity.
Defined.

(** What the packaged sanitizer does to a text: every line feed becomes
  a space and every carriage return goes, and nothing else changes. *)
Lemma sanitizer_newline_rule (s : string) :
  Str.clean_newlines s = Str.map_newlines s /\
  Str.no_linebreak (Str.clean_newlines s).
Proof.
  split; [apply clean_newlines_spec | apply clean_newlines_no_linebreak].
Qed.

(** C4 holds of the sanitizer of [src/src/gforms/api.py]
  ([gforms_texts_clean]); the copy in [src/forms_api.py] keeps line
  breaks: on a text item titled with two lines it returns the title as
  it is, the packaged one returns it on one line. *)
Theorem root_sanitizer_keeps_newlines :
  RootApi._clean_item_for_duplication Sample.two_line_item
  = Ok (JObj [("title", JStr ("Line1" ++ String Str.LF "Line2"));
              ("textItem", JObj [])]) /\
  Str.has_char Str.LF ("Line1" ++ String Str.LF "Line2") = true /\
  Gforms._clean_item_for_duplication Sample.two_line_item
  = Ok (JObj [("title", JStr "Line1 Line2"); ("textItem", JObj [])]).
Proof. repeat split. Qed.

(** ** The quiz flag of the settings replacement *)

(** What [copy_settings] guarantees: the settings it returns are the
  source's, with a [quizSettings] block of [isQuiz = false] added when
  the source's have none. *)
Lemma copy_settings_spec (original : json) (sd : dict json) :
  Py.getitem original "settings" = Ok (JObj sd) ->
  Gforms.copy_settings original
  = Ok (JObj (match dict_get "quizSettings" sd with
              | Some _ => sd
              | None => dict_set "quizSettings" (JObj [("isQuiz", JBool false)]) sd
              end)).
Proof.
  intros H. unfold Gforms.copy_settings. rewrite H. cbn. unfold dict_has.
  destruct (dict_get "quizSettings" sd); reflexivity.
Qed.

(** C5 fails where the source's settings hold a [quizSettings] block
  without [isQuiz]: both paths of the packaged client replace the
  settings with that block as it is.  The copy in [src/forms_api.py]
  adds nothing at all: a settings block without [quizSettings] goes out
  without it. *)
Theorem quiz_flag_not_ensured :
  let source := Sample.form (Some (JObj [("quizSettings", JObj [])])) Sample.two_items in
  let sent := update_settings (JObj [("quizSettings", JObj [])]) in
  filter is_replace_settings
    (map snd (writes (snd (Gforms.duplicate_form (Sample.serving source)
                             Sample.repr (JStr "src") (JStr "Copy") true 100 []))))
  = [sent] /\
  filter is_replace_settings
    (map snd (writes (snd (Gforms.duplicate_form (Sample.serving source)
                             Sample.repr (JStr "src") (JStr "Copy") false 100 []))))
  = [sent] /\
  json_path ["updateSettings"; "settings"; "quizSettings"; "isQuiz"] sent = None /\
  filter is_replace_settings
    (map snd (writes (snd (RootApi.duplicate_form
                             (Sample.serving
                                (Sample.form (Some Sample.email_settings)
                                   Sample.two_items))
                             Sample.repr (JStr "src") (JStr "Copy") []))))
  = [update_settings Sample.email_settings] /\
  json_path ["updateSettings"; "settings"; "quizSettings"]
    (update_settings Sample.email_settings)
  = None.
Proof. cbv zeta. repeat split. Qed.

(** ** A chunk that fails *)

Lemma bind_raise {A B : Type} (m : io A) (k : A -> io B) (h t : list call) (e : exn) :
  m h = (Raise e, t) -> bind m k h = (Raise e, t).
Proof. unfold bind. intros ->. reflexivity. Qed.

Lemma except_http_pass {A : Type} (m handler : io A) (h t : list call) (msg : string) :
  m h = (Raise (PyException msg), t) ->
  except_http m handler h = (Raise (PyException msg), t).
Proof. unfold except_http. intros ->. reflexivity. Qed.

Section FailingChunk.

Variable svc : remote.
Variable repr : json -> string.
Variable fid : json.

Lemma submit_chunks_fails (done : list (list json)) (ch : list json)
    (rest : list (list json)) (idx api_calls total_copied : nat) (h : list call) :
  answered svc h (map (batch_call fid) done) ->
  svc (h ++ map (batch_call fid) done)%list (batch_call fid ch) = None ->
  Gforms.submit_chunks svc fid idx (done ++ ch :: rest)%list api_calls total_copied h
  = (Raise (PyException "Failed to duplicate chunk"),
     (h ++ map (batch_call fid) (done ++ [ch]))%list).
Proof.
  revert idx api_calls total_copied h.
  induction done as [|d done IH]; intros idx api_calls total_copied h Hans Hfail.
  - cbn [app map] in *. rewrite app_nil_r in Hfail.
    cbn [Gforms.submit_chunks]. unfold bind, except_http, execute.
    unfold batch_call in Hfail. rewrite Hfail. reflexivity.
  - cbn [app map] in *.
    cbn [Gforms.submit_chunks]. unfold bind at 1. unfold except_http, execute.
    destruct (svc h (FormsBatchUpdate fid (requests_body d))) as [resp|] eqn:E.
    + rewrite IH.
      * rewrite <- app_assoc. reflexivity.
      * intros pre c post Hsplit.
        rewrite <- app_assoc. cbn [app].
        apply (Hans (batch_call fid d :: pre) c post).
        cbn [app]. rewrite Hsplit. reflexivity.
      * rewrite <- app_assoc. exact Hfail.
    + exfalso. apply (Hans [] (batch_call fid d) (map (batch_call fid) done)).
      * reflexivity.
      * rewrite app_nil_r. exact E.
Qed.

End FailingChunk.

(** C3, as the code has it: in a chunked batch duplication, when the
  batched write of a chunk fails after the chunks before it went
  through, the chunks after it are not submitted and the failure is
  raised to the caller as an Exception; no DuplicationResult is
  returned.  The trace ends with the failed write. *)
Theorem failed_chunk_is_raised (svc : remote) (repr : json -> string)
    (form_id new_title : json) (chunk_size : Z) (p : preparation)
    (done : list (list json)) (ch : list json) (rest : list (list json)) :
  prepared svc repr form_id new_title p ->
  (0 < chunk_size)%Z ->
  (chunk_size < Z.of_nat (List.length (copy_requests p)))%Z ->
  Gforms.build_chunks (p_has_settings p) (copy_requests p) (Z.to_nat chunk_size)
  = (done ++ ch :: rest)%list ->
  answered svc (p_trace p) (map (batch_call (p_form_id p)) done) ->
  svc (p_trace p ++ map (batch_call (p_form_id p)) done)%list
    (batch_call (p_form_id p) ch) = None ->
  Gforms.duplicate_form svc repr form_id new_title true chunk_size []
  = (Raise (PyException "Failed to duplicate chunk"),
     (p_trace p ++ map (batch_call (p_form_id p)) (done ++ [ch]))%list).
Proof.
  intros (Hget & Hbuilt & Hcreate & Hfid & Hresp) Hc Hgt Hchunks Hans Hfail.
  destruct Hbuilt as ((info & Hinfo & Hdesc) & Hhs & Hset & (items & Hitems & Hiter) & Hreq).
  unfold Gforms.duplicate_form, Gforms._duplicate_form_batch.
  apply except_http_pass.
  rewrite (bind_run _ _ _ _ _ (get_form_run svc _ _ Hget)).
  rewrite (bind_run _ _ _ _ _ (lift_run _ _ _ Hitems)).
  rewrite (bind_run _ _ _ _ _ (lift_run _ _ _ Hinfo)).
  rewrite (bind_run _ _ _ _ _ (lift_run _ _ _ Hdesc)).
  rewrite (bind_run _ _ _ _ _ Hcreate).
  rewrite (bind_run _ _ _ _ _ (lift_run _ _ _ Hfid)).
  rewrite (bind_run _ _ _ _ _ (lift_run _ _ _ Hhs)).
  assert ((if p_has_settings p
           then let* settings := Gforms.copy_settings (p_original p) in
                Ok [update_settings settings]
           else Ok []) = Ok (p_settings_requests p)) as Hsreqs.
  { destruct (p_has_settings p).
    - destruct Hset as (settings & -> & ->). reflexivity.
    - rewrite Hset. reflexivity. }
  rewrite (bind_run _ _ _ _ _ (lift_run _ _ _ Hsreqs)).
  rewrite (bind_run _ _ _ _ _ (lift_run _ _ _ Hiter)).
  rewrite (bind_run _ _ _ _ _ (lift_run _ _ _ Hreq)).
  cbv zeta. fold (copy_requests p).
  apply bind_raise.
  destruct (copy_requests p) as [|r0 rs] eqn:Eall; [cbn in Hgt; lia|].
  destruct (Z.leb_spec (Z.of_nat (List.length (r0 :: rs))) chunk_size); [lia|].
  assert (Gforms.chunks_of (p_has_settings p) (r0 :: rs) chunk_size
          = Ok (done ++ ch :: rest)%list) as Hch.
  { unfold Gforms.chunks_of.
    destruct (Z.eqb_spec chunk_size 0); [lia|].
    destruct (Z.ltb_spec chunk_size 0); [lia|]. rewrite Hchunks. reflexivity. }
  rewrite (bind_run _ _ _ _ _ (lift_run _ _ _ Hch)).
  apply submit_chunks_fails; assumption.
Qed.

Lemma flaky_prepared :
  prepared Sample.flaky Sample.repr (JStr "src") (JStr "Copy")
    Sample.flaky_preparation.
Proof.
  unfold prepared, built_from. cbn.
  repeat split; try reflexivity.
  - eexists. split; reflexivity.
  - eexists. split; reflexivity.
Qed.

Lemma failed_chunk_is_raised_witness :
  prepared Sample.flaky Sample.repr (JStr "src") (JStr "Copy")
    Sample.flaky_preparation /\
  (0 < 2)%Z /\
  (2 < Z.of_nat (List.length (copy_requests Sample.flaky_preparation)))%Z /\
  Gforms.build_chunks false (copy_requests Sample.flaky_preparation) (Z.to_nat 2)
  = ([firstn 2 (Sample.creates_of Sample.three_items)]
     ++ skipn 2 (Sample.creates_of Sample.three_items) :: [])%list /\
  answered Sample.flaky (p_trace Sample.flaky_preparation)
    (map (batch_call (JStr "new")) [firstn 2 (Sample.creates_of Sample.three_items)]) /\
  Sample.flaky
    (p_trace Sample.flaky_preparation
     ++ map (batch_call (JStr "new")) [firstn 2 (Sample.creates_of Sample.three_items)])%list
    (batch_call (JStr "new") (skipn 2 (Sample.creates_of Sample.three_items)))
  = None /\
  Gforms.duplicate_form Sample.flaky Sample.repr (JStr "src") (JStr "Copy") true 2 []
  = (Raise (PyException "Failed to duplicate chunk"),
     (p_trace Sample.flaky_preparation
      ++ map (batch_call (JStr "new"))
           ([firstn 2 (Sample.creates_of Sample.three_items)]
            ++ [skipn 2 (Sample.creates_of Sample.three_items)]))%list).
Proof.
  assert (answered Sample.flaky (p_trace Sample.flaky_preparation)
            (map (batch_call (JStr "new"))
               [firstn 2 (Sample.creates_of Sample.three_items)])) as Hans.
  { intros pre c post Hsplit.
    destruct pre as [|c0 pre].
    - injection Hsplit as <- _. discriminate.
    - destruct pre; discriminate Hsplit. }
  split; [exact flaky_prepared|]. split; [reflexivity|].
  split; [reflexivity|]. split; [reflexivity|].
  split; [exact Hans|]. split; [reflexivity|].
  apply (failed_chunk_is_raised Sample.flaky Sample.repr (JStr "src") (JStr "Copy") 2
           Sample.flaky_preparation
           [firstn 2 (Sample.creates_of Sample.three_items)]
           (skipn 2 (Sample.creates_of Sample.three_items)) []).
  - exact flaky_prepared.
  - reflexivity.
  - reflexivity.
  - reflexivity.
  - exact Hans.
  - reflexivity.
Defined.

(** C3, as stated, fails: with three items, chunk size 2 and a remote
  side that fails the second batched write, the duplication returns no
  result: it raises. *)
Lemma failed_chunk_counterexample :
  fst (Gforms.duplicate_form Sample.flaky Sample.repr (JStr "src") (JStr "Copy")
         true 2 [])
  = Raise (PyException "Failed to duplicate chunk") /\
  ~ (exists r : DuplicationResult,
        fst (Gforms.duplicate_form Sample.flaky Sample.repr (JStr "src")
               (JStr "Copy") true 2 [])
        = Ok r).
Proof.
  split; [reflexivity|]. intros [r H]. discriminate H.
Qed.

(** ** Export without responses *)

(** C10: when the list of responses the remote side returns is empty
  (or absent, or anything Python takes as false), both copies of
  export_responses_csv return an empty csv text, without a header row,
  and a row count of 0, whatever the form holds. *)
Theorem export_without_responses (svc : remote) (repr : json -> string)
    (writerow : list json -> string) (form_id : json)
    (include_timestamps include_email : bool) (form data responses : json) :
  svc [] (FormsGet form_id) = Some form ->
  svc [FormsGet form_id] (ResponsesList form_id [("pageSize", JNum 1000)])
  = Some data ->
  Py.get data "responses" (JArr []) = Ok responses ->
  Py.truthy responses = false ->
  Gforms.export_responses_csv svc repr writerow form_id
    include_timestamps include_email []
  = (Ok {| csv := ""; rowCount := 0 |},
     [FormsGet form_id; ResponsesList form_id [("pageSize", JNum 1000)]]) /\
  RootApi.export_responses_csv svc repr writerow form_id
    include_timestamps include_email []
  = (Ok {| csv := ""; rowCount := 0 |},
     [FormsGet form_id; ResponsesList form_id [("pageSize", JNum 1000)]]).
Proof.
  intros Hform Hdata Hresp Hfalse. split.
  - unfold Gforms.export_responses_csv. apply except_http_run.
    rewrite (bind_run _ _ _ _ _ (get_form_run svc _ _ Hform)).
    assert (Gforms.list_responses svc form_id 1000 JNull [FormsGet form_id]
            = (Ok data, [FormsGet form_id;
                         ResponsesList form_id [("pageSize", JNum 1000)]])) as Hl.
    { unfold Gforms.list_responses, except_http, execute. cbn [Py.truthy].
      rewrite Hdata. reflexivity. }
    rewrite (bind_run _ _ _ _ _ Hl).
    rewrite (bind_run _ _ _ _ _ (lift_run _ _ _ Hresp)).
    rewrite Hfalse. reflexivity.
  - unfold RootApi.export_responses_csv. apply except_http_run.
    assert (RootApi.get_form svc form_id [] = (Ok form, [FormsGet form_id])) as Hg.
    { unfold RootApi.get_form, except_http, execute. rewrite Hform. reflexivity. }
    rewrite (bind_run _ _ _ _ _ Hg).
    assert (RootApi.list_responses svc form_id 1000 JNull [FormsGet form_id]
            = (Ok data, [FormsGet form_id;
                         ResponsesList form_id [("pageSize", JNum 1000)]])) as Hl.
    { unfold RootApi.list_responses, except_http, execute. cbn [Py.truthy].
      rewrite Hdata. reflexivity. }
    rewrite (bind_run _ _ _ _ _ Hl).
    rewrite (bind_run _ _ _ _ _ (lift_run _ _ _ Hresp)).
    rewrite Hfalse. reflexivity.
Qed.

Lemma export_without_responses_witness :
  Sample.serving (Sample.form None Sample.three_items) [] (FormsGet (JStr "src"))
  = Some (Sample.form None Sample.three_items) /\
  Sample.serving (Sample.form None Sample.three_items) [FormsGet (JStr "src")]
    (ResponsesList (JStr "src") [("pageSize", JNum 1000)])
  = Some (JObj []) /\
  Py.get (JObj []) "responses" (JArr []) = Ok (JArr []) /\
  Py.truthy (JArr []) = false /\
  Gforms.export_responses_csv (Sample.serving (Sample.form None Sample.three_items))
    Sample.repr Sample.writerow (JStr "src") true true []
  = (Ok {| csv := ""; rowCount := 0 |},
     [FormsGet (JStr "src");
      ResponsesList (JStr "src") [("pageSize", JNum 1000)]]) /\
  RootApi.export_responses_csv (Sample.serving (Sample.form None Sample.three_items))
    Sample.repr Sample.writerow (JStr "src") true true []
  = (Ok {| csv := ""; rowCount := 0 |},
     [FormsGet (JStr "src");
      ResponsesList (JStr "src") [("pageSize", JNum 1000)]]).
Proof.
  split; [reflexivity|]. split; [reflexivity|].
  split; [reflexivity|]. split; [reflexivity|].
  apply (export_without_responses
           (Sample.serving (Sample.form None Sample.three_items))
           Sample.repr Sample.writerow (JStr "src") true true
           (Sample.form None Sample.three_items) (JObj []) (JArr []));
    reflexivity.
Defined.

(** ** Personalisation *)

Lemma extends_ret {A : Type} (a : A) : extends (ret a).
Proof. intros h. exists []. cbn. rewrite app_nil_r. reflexivity. Qed.

Lemma extends_raise {A : Type} (e : exn) : extends (@raise A e).
Proof. intros h. exists []. cbn. rewrite app_nil_r. reflexivity. Qed.

Lemma extends_lift {A : Type} (r : result A) : extends (lift r).
Proof. intros h. exists []. cbn. rewrite app_nil_r. reflexivity. Qed.

Lemma extends_execute (svc : remote) (c : call) : extends (execute svc c).
Proof. intros h. exists [c]. reflexivity. Qed.

Lemma extends_bind {A B : Type} (m : io A) (k : A -> io B) :
  extends m -> (forall a, extends (k a)) -> extends (bind m k).
Proof.
  intros Hm Hk h. unfold bind. destruct (Hm h) as [e1 H1].
  destruct (m h) as [[a|e] h'] eqn:E; cbn in H1; subst h'.
  - destruct (Hk a (h ++ e1)%list) as [e2 H2]. exists (e1 ++ e2)%list.
    rewrite H2, app_assoc. reflexivity.
  - exists e1. reflexivity.
Qed.

Lemma extends_except_http {A : Type} (m handler : io A) :
  extends m -> extends handler -> extends (except_http m handler).
Proof.
  intros Hm Hh h. unfold except_http. destruct (Hm h) as [e1 H1].
  destruct (m h) as [[a|e] h'] eqn:E; cbn in H1; subst h'.
  - exists e1. reflexivity.
  - destruct e; try (exists e1; reflexivity).
    destruct (Hh (h ++ e1)%list) as [e2 H2]. exists (e1 ++ e2)%list.
    rewrite H2, app_assoc. reflexivity.
Qed.

Lemma extends_except_any {A : Type} (m handler : io A) :
  extends m -> extends handler -> extends (except_any m handler).
Proof.
  intros Hm Hh h. unfold except_any. destruct (Hm h) as [e1 H1].
  destruct (m h) as [[a|e] h'] eqn:E; cbn in H1; subst h'.
  - exists e1. reflexivity.
  - destruct (Hh (h ++ e1)%list) as [e2 H2]. exists (e1 ++ e2)%list.
    rewrite H2, app_assoc. reflexivity.
Qed.

Ltac extends_tac :=
  repeat first
    [ progress intros
    | apply extends_bind
    | apply extends_except_http
    | apply extends_except_any
    | apply extends_ret
    | apply extends_raise
    | apply extends_lift
    | apply extends_execute
    | match goal with
      | |- extends (if ?b then _ else _) => destruct b
      | |- extends (match ?x with _ => _ end) => destruct x
      end ].

Section PersonalizeFacts.

Variable svc : remote.
Variable repr : json -> string.

Lemma extends_get_form (form_id : json) : extends (Gforms.get_form svc form_id).
Proof. unfold Gforms.get_form. extends_tac. Qed.

Lemma extends_update_item (form_id item_id : json) (kwargs : dict json) :
  extends (Gforms.update_item svc repr form_id item_id kwargs).
Proof.
  unfold Gforms.update_item.
  apply extends_except_http; [|apply extends_raise].
  apply extends_bind; [apply extends_get_form|]. extends_tac.
Qed.

Lemma replace_all_strings (replacements : list (string * string)) (t d : string) :
  Gforms.replace_all replacements (JStr t) (JStr d)
  = Ok (JStr (substitute replacements t), JStr (substitute replacements d)).
Proof.
  revert t d. induction replacements as [|[p r] rest IH]; intros t d;
    [reflexivity|].
  cbn [Gforms.replace_all Py.replace rbind]. rewrite IH. reflexivity.
Qed.

Lemma substitute_snoc (replacements : list (string * string)) (p r t : string) :
  substitute (replacements ++ [(p, r)]) t = Str.replace p r (substitute replacements t).
Proof. unfold substitute. rewrite fold_left_app. reflexivity. Qed.

Lemma update_form_ok (form_id : json) (t d : string) (h tr : list call) (v : json) :
  Gforms.update_form svc form_id (JStr t) (JStr d) h = (Ok v, tr) ->
  tr = (h ++ [batch_call form_id [update_form_info "title" (JStr t);
                                  update_form_info "description" (JStr d)];
              DriveFilesUpdate form_id (JObj [("name", JStr t)]);
              FormsGet form_id])%list.
Proof.
  unfold Gforms.update_form. cbn [app]. intros H. inv_io.
  rewrite sync_drive_name_run in Ha0. injection Ha0 as _ <-.
  apply get_form_ok in H as [_ ->]. inv_exec.
  rewrite <- !app_assoc. reflexivity.
Qed.

End PersonalizeFacts.

Lemma clean_strip_text (v w : json) :
  Py.clean_strip v = Ok w -> exists s, v = JStr s /\ w = JStr (cleaned s).
Proof.
  destruct v; try discriminate. intros [= <-]. eexists. split; reflexivity.
Qed.

Lemma item_text_of (item : json) (k s : string) :
  Py.get item k (JStr "") = Ok (JStr s) -> item_text item k = Some s.
Proof. unfold item_text. intros ->. reflexivity. Qed.

(** The loop over the items, from any state of its counters. *)
Lemma personalize_items_run (svc : remote) (repr : json -> string)
    (form_id : json) (replacements : list (string * string))
    (items : list json) (items_updated : nat) (updates_made : list string)
    (h tr : list call) (res : nat * list string) :
  Gforms.personalize_items svc repr form_id replacements items
    items_updated updates_made h = (Ok res, tr) ->
  exists n,
    fst res = items_updated + n /\
    items_personalized svc repr form_id replacements items h tr n.
Proof.
  revert items_updated updates_made h.
  induction items as [|item rest IH]; intros items_updated updates_made h H.
  - cbn [Gforms.personalize_items] in H. apply ret_ok in H as [-> ->].
    exists 0. split; [cbn [fst]; lia | constructor].
  - cbn [Gforms.personalize_items] in H.
    apply bind_ok in H as (item_id & h0 & Hid & H).
    apply lift_ok in Hid as [Hid ->].
    apply bind_ok in H as (title & h0 & Ht & H). apply lift_ok in Ht as [Ht ->].
    apply bind_ok in H as (desc & h0 & Hd & H). apply lift_ok in Hd as [Hd ->].
    apply bind_ok in H as (new & h0 & Hnew & H).
    apply lift_ok in Hnew as [Hnew ->].
    apply bind_ok in H as (nt & h0 & Hnt & H). apply lift_ok in Hnt as [Hnt ->].
    apply bind_ok in H as (nd & h0 & Hnd & H). apply lift_ok in Hnd as [Hnd ->].
    apply bind_ok in H as (ot & h0 & Hot & H). apply lift_ok in Hot as [Hot ->].
    apply bind_ok in H as (od & h0 & Hod & H). apply lift_ok in Hod as [Hod ->].
    apply clean_strip_text in Hot as (t & -> & ->).
    apply clean_strip_text in Hod as (d & -> & ->).
    rewrite replace_all_strings in Hnew. injection Hnew as <-.
    cbn [fst snd] in Hnt, Hnd.
    apply clean_strip_text in Hnt as (t' & [= <-] & ->).
    apply clean_strip_text in Hnd as (d' & [= <-] & ->).
    apply item_text_of in Ht, Hd.
    assert (negb (Py.eq (JStr (cleaned (substitute replacements t)))
                    (JStr (cleaned t)))
            || negb (Py.eq (JStr (cleaned (substitute replacements d)))
                       (JStr (cleaned d)))
            = item_changed replacements t d) as Hcond by reflexivity.
    rewrite Hcond in H. clear Hcond.
    destruct (item_changed replacements t d) eqn:Hchanged.
    + assert ((if Py.truthy (JStr d)
               then [("title", JStr (cleaned (substitute replacements t)));
                     ("description", JStr (cleaned (substitute replacements d)))]
               else [("title", JStr (cleaned (substitute replacements t)))])
              = item_update_kwargs replacements t d) as Hkw
        by (unfold item_update_kwargs; cbn [Py.truthy];
            destruct (String.eqb d ""); reflexivity).
      rewrite Hkw in H. clear Hkw.
      apply bind_ok in H as (updated & h1 & Hup & H).
      unfold except_any in Hup. unfold bind at 1 in Hup.
      destruct (Gforms.update_item svc repr form_id item_id
                  (item_update_kwargs replacements t d) h)
        as [[answer|e] h2] eqn:Hcall.
      * cbn [ret] in Hup. injection Hup as <- <-.
        apply IH in H as (n & Hn & Hrest).
        exists (S n). split; [lia|].
        eapply item_updated; eassumption.
      * cbn [ret] in Hup. injection Hup as <- <-.
        apply IH in H as (n & Hn & Hrest).
        exists n. split; [exact Hn|].
        eapply item_not_updated; eassumption.
    + apply IH in H as (n & Hn & Hrest).
      exists n. split; [exact Hn|].
      eapply item_kept; eassumption.
Qed.

Lemma items_personalized_extends (svc : remote) (repr : json -> string)
    (form_id : json) (replacements : list (string * string))
    (items : list json) (h tr : list call) (n : nat) :
  items_personalized svc repr form_id replacements items h tr n ->
  exists rest, tr = (h ++ rest)%list.
Proof.
  induction 1 as [h | item others t d h h' n _ _ _ _ IH
                  | item others t d item_id answer h h1 h' n _ _ _ _ Hcall _ IH
                  | item others t d item_id e h h1 h' n _ _ _ _ Hcall _ IH].
  - exists []. rewrite app_nil_r. reflexivity.
  - exact IH.
  - destruct IH as [rest ->].
    destruct (extends_update_item svc repr form_id item_id
                (item_update_kwargs replacements t d) h) as [ext Hext].
    rewrite Hcall in Hext. cbn [snd] in Hext. subst h1.
    exists (ext ++ rest)%list. rewrite app_assoc. reflexivity.
  - destruct IH as [rest ->].
    destruct (extends_update_item svc repr form_id item_id
                (item_update_kwargs replacements t d) h) as [ext Hext].
    rewrite Hcall in Hext. cbn [snd] in Hext. subst h1.
    exists (ext ++ rest)%list. rewrite app_assoc. reflexivity.
Qed.

(** C1, as the code has it: personalize_form applies the replacement
  pairs in mapping order by literal substring substitution, each pair to
  the whole text left by the pairs before it, so a later pair does see
  what an earlier pair put in: the mapping A to B, B to C turns the text
  A into C.  This holds of every text it personalizes: the form-level
  update carries the title and the description of the form so obtained,
  an absent one counting as empty, and the update of each item carries
  the title and the description of the item so obtained, then cleaned of
  line breaks. *)
Theorem substitution_in_mapping_order (svc : remote) (repr : json -> string)
    (form_id : json) (replacements : list (string * string)) (form : json)
    (t d : string) (r : PersonalizeResult) (tr : list call) :
  svc [] (FormsGet form_id) = Some form ->
  form_text form "title" = Some t ->
  form_text form "description" = Some d ->
  Gforms.personalize_form svc repr form_id replacements [] = (Ok r, tr) ->
  personalized_in_order svc repr replacements form_id form t d r tr.
Proof.
  intros Hget Ht Hd Hrun. unfold personalized_in_order.
  split; [intros a b; apply replace_all_strings|].
  split; [intros p q a; apply substitute_snoc|].
  assert (exists items,
             items_of form = Ok items /\
             items_personalized svc repr form_id replacements items
               (FormsGet form_id :: form_update_calls replacements form_id t d)
               tr (itemsUpdated r)) as Hitems.
  { unfold Gforms.personalize_form in Hrun.
    apply except_http_raise_ok in Hrun.
    apply bind_ok in Hrun as (form' & h0 & Hform & Hrun).
    apply get_form_ok in Hform as [Hget' ->]. rewrite Hget in Hget'.
    injection Hget' as <-. cbn [app] in Hrun.
    apply bind_ok in Hrun as (info & h0 & Hinfo & Hrun).
    apply lift_ok in Hinfo as [Hinfo ->].
    apply bind_ok in Hrun as (tv & h0 & Htv & Hrun).
    apply lift_ok in Htv as [Htv ->].
    apply bind_ok in Hrun as (dv & h0 & Hdv & Hrun).
    apply lift_ok in Hdv as [Hdv ->].
    unfold form_text in Ht, Hd. rewrite Hinfo in Ht, Hd. cbn [rbind] in Ht, Hd.
    rewrite Htv in Ht. rewrite Hdv in Hd.
    destruct tv; try discriminate Ht. injection Ht as ->.
    destruct dv; try discriminate Hd. injection Hd as ->.
    apply bind_ok in Hrun as (new & h0 & Hnew & Hrun).
    apply lift_ok in Hnew as [Hnew ->].
    rewrite replace_all_strings in Hnew. injection Hnew as <-.
    cbn [fst snd Py.eq] in Hrun.
    apply bind_ok in Hrun as (updates_made & h1 & Hform_update & Hrun).
    assert (h1 = FormsGet form_id :: form_update_calls replacements form_id t d)
      as ->.
    { unfold form_update_calls.
      destruct (String.eqb (substitute replacements t) t);
        destruct (String.eqb (substitute replacements d) d);
        cbn [negb orb andb] in Hform_update |- *;
        try (apply ret_ok in Hform_update as [_ ->]; reflexivity);
        apply bind_ok in Hform_update as (v & h2 & Hup & Hret);
        apply ret_ok in Hret as [_ ->];
        apply update_form_ok in Hup; subst h2; reflexivity. }
    apply bind_ok in Hrun as (items & h0 & Hi & Hrun).
    apply lift_ok in Hi as [Hi ->].
    apply bind_ok in Hrun as (item_list & h0 & Hl & Hrun).
    apply lift_ok in Hl as [Hl ->].
    apply bind_ok in Hrun as (counts & h2 & Hloop & Hrun).
    apply bind_ok in Hrun as (total & h0 & Htotal & Hrun).
    apply lift_ok in Htotal as [Htotal ->].
    apply ret_ok in Hrun as [-> ->]. cbn [itemsUpdated].
    exists item_list. split; [unfold items_of; rewrite Hi; exact Hl|].
    apply personalize_items_run in Hloop as (n & Hn & Hloop).
    cbn [Nat.add] in Hn. rewrite Hn. exact Hloop. }
  split; [exact Hitems|].
  split.
  { destruct Hitems as (items & _ & Hitems).
    apply items_personalized_extends in Hitems as [rest ->].
    exists rest. reflexivity. }
  split; reflexivity.
Qed.

Lemma substitution_in_mapping_order_witness :
  Sample.serving Cases.placeholder_items_form [] (FormsGet (JStr "f"))
  = Some Cases.placeholder_items_form /\
  form_text Cases.placeholder_items_form "title" = Some "A" /\
  form_text Cases.placeholder_items_form "description" = Some "" /\
  exists r tr,
    Gforms.personalize_form (Sample.serving Cases.placeholder_items_form)
      Sample.repr (JStr "f") [("A", "B"); ("B", "C")] [] = (Ok r, tr) /\
    item_update_kwargs [("A", "B"); ("B", "C")] "Dear A" "B here"
    = [("title", JStr "Dear C"); ("description", JStr "C here")] /\
    personalized_in_order (Sample.serving Cases.placeholder_items_form)
      Sample.repr [("A", "B"); ("B", "C")] (JStr "f")
      Cases.placeholder_items_form "A" "" r tr.
Proof.
  split; [reflexivity|]. split; [reflexivity|]. split; [reflexivity|].
  eexists _, _. split; [reflexivity|]. split; [reflexivity|].
  eapply (substitution_in_mapping_order
            (Sample.serving Cases.placeholder_items_form)
            Sample.repr (JStr "f") [("A", "B"); ("B", "C")]
            Cases.placeholder_items_form "A" "").
  - reflexivity.
  - reflexivity.
  - reflexivity.
  - reflexivity.
Defined.

(** C1, as stated, fails: with the mapping A to B, B to C, the form
  titled A is retitled C, not B, and the item titled Dear A of another
  form is sent with the title Dear C, not Dear B. *)
Lemma single_pass_counterexample :
  writes (snd (Gforms.personalize_form (Sample.serving Sample.placeholder_form)
                 Sample.repr (JStr "f") [("A", "B"); ("B", "C")] []))
  = [(JStr "f", update_form_info "title" (JStr "C"));
     (JStr "f", update_form_info "description" (JStr "see C"))] /\
  substitute [("A", "B"); ("B", "C")] "A" <> "B" /\
  writes (snd (Gforms.personalize_form
                 (Sample.serving Cases.placeholder_items_form)
                 Sample.repr (JStr "f") [("A", "B"); ("B", "C")] []))
  = [(JStr "f", update_form_info "title" (JStr "C"));
     (JStr "f", update_form_info "description" (JStr ""));
     (JStr "f",
      Gforms.update_item_request
        (JObj [("title", JStr "Dear C"); ("description", JStr "C here");
               ("textItem", JObj [])])
        0 ["title"; "description"])].
Proof. split; [reflexivity | split; [discriminate | reflexivity]]. Qed.

(** * Further properties of the client *)

(** ** Locating an item by its identifier *)

Lemma find_item_some (item_id : json) (items : list json) (idx i : nat)
    (item : json) :
  Gforms.find_item item_id idx items = Ok (Some (i, item)) ->
  exists k,
    i = idx + k /\ nth_error items k = Some item /\
    first_with_id item_id items k.
Proof.
  revert idx. induction items as [|x items IH]; intros idx H.
  - discriminate.
  - cbn [Gforms.find_item] in H. apply rbind_ok in H as (id & Hid & H).
    destruct (Py.eq id item_id) eqn:E.
    + injection H as <- <-. exists 0. split; [lia|]. split; [reflexivity|].
      split.
      * exists x. split; [reflexivity|]. exists id. auto.
      * intros j item' Hj. lia.
    + apply IH in H as (k & -> & Hn & [Hk1 Hk2]).
      exists (S k). split; [lia|]. split; [exact Hn|]. split.
      * exact Hk1.
      * intros [|j] item' Hj Hnth.
        -- cbn in Hnth. injection Hnth as <-. exists id. auto.
        -- apply (Hk2 j); [lia | exact Hnth].
Qed.

Lemma find_item_none (item_id : json) (items : list json) (idx : nat) :
  Forall (carries_other_id item_id) items ->
  Gforms.find_item item_id idx items = Ok None.
Proof.
  intros H. revert idx.
  induction H as [|x items [id [Hid E]] _ IH]; intros idx; [reflexivity|].
  cbn [Gforms.find_item]. rewrite Hid. cbn [rbind]. rewrite E. apply IH.
Qed.

Lemma get_form_at (svc : remote) (form_id form : json) (h : list call) :
  svc h (FormsGet form_id) = Some form ->
  Gforms.get_form svc form_id h = (Ok form, (h ++ [FormsGet form_id])%list).
Proof.
  intros H. unfold Gforms.get_form, except_http, execute. rewrite H. reflexivity.
Qed.

Lemma items_of_ok (form : json) (items : list json) :
  items_of form = Ok items ->
  exists v, Py.get form "items" (JArr []) = Ok v /\ Py.iter v = Ok items.
Proof. unfold items_of. intros H. inv_ok. eauto. Qed.

Lemma get_item_index_ok (svc : remote) (repr : json -> string)
    (form_id item_id : json) (h t : list call) (i : nat) :
  Gforms._get_item_index svc repr form_id item_id h = (Ok i, t) ->
  located svc h form_id item_id i /\ t = (h ++ [FormsGet form_id])%list.
Proof.
  unfold Gforms._get_item_index. intros H. inv_io.
  match goal with
  | G : Gforms.get_form _ _ _ = _ |- _ => apply get_form_ok in G as [Hget ->]
  end.
  destruct a2 as [[k item]|]; [|discriminate].
  apply ret_ok in H as [-> ->].
  match goal with
  | G : Gforms.find_item _ _ _ = _ |- _ =>
      apply find_item_some in G as (k' & -> & _ & Hfirst)
  end.
  split; [|reflexivity].
  exists a, a1. split; [exact Hget|]. split; [|exact Hfirst].
  unfold items_of.
  match goal with
  | G : Py.get a _ _ = Ok _ |- _ => rewrite G
  end. assumption.
Qed.

Lemma get_item_index_unknown (svc : remote) (repr : json -> string)
    (form_id item_id form : json) (items : list json) (h : list call) :
  svc h (FormsGet form_id) = Some form ->
  items_of form = Ok items ->
  Forall (carries_other_id item_id) items ->
  Gforms._get_item_index svc repr form_id item_id h
  = (Raise (ValueError ("Item with ID '" ++ Gforms.fstr repr item_id
                        ++ "' not found in form")),
     (h ++ [FormsGet form_id])%list).
Proof.
  intros Hget Hitems Hall. apply items_of_ok in Hitems as (v & Hv & Hiter).
  unfold Gforms._get_item_index.
  rewrite (bind_run _ _ _ _ _ (get_form_at svc _ _ _ Hget)).
  rewrite (bind_run _ _ _ _ _ (lift_run _ _ _ Hv)).
  rewrite (bind_run _ _ _ _ _ (lift_run _ _ _ Hiter)).
  rewrite (bind_run _ _ _ _ _ (lift_run _ _ _ (find_item_none _ _ 0 Hall))).
  reflexivity.
Qed.

(** X1.  When [_get_item_index] returns an index, it has made one read
  of the form and the index is the position of the first item whose
  [itemId] equals the identifier asked for: every item before it carries
  another identifier. *)
Theorem item_index_is_first_match (svc : remote) (repr : json -> string)
    (form_id item_id : json) (h t : list call) (i : nat) :
  Gforms._get_item_index svc repr form_id item_id h = (Ok i, t) ->
  located svc h form_id item_id i /\ t = (h ++ [FormsGet form_id])%list.
Proof. apply get_item_index_ok. Qed.

Lemma item_index_is_first_match_witness :
  Gforms._get_item_index (Sample.serving (Sample.form None Sample.three_items))
    Sample.repr (JStr "src") (JStr "b") []
  = (Ok 1, [FormsGet (JStr "src")]) /\
  located (Sample.serving (Sample.form None Sample.three_items)) []
    (JStr "src") (JStr "b") 1 /\
  [FormsGet (JStr "src")] = ([] ++ [FormsGet (JStr "src")])%list.
Proof.
  split; [reflexivity|].
  apply (item_index_is_first_match
           (Sample.serving (Sample.form None Sample.three_items))
           Sample.repr (JStr "src") (JStr "b") [] [FormsGet (JStr "src")] 1).
  reflexivity.
Defined.

Lemma except_http_other {A : Type} (m handler : io A) (h t : list call) (e : exn) :
  m h = (Raise e, t) -> e <> HttpError ->
  except_http m handler h = (Raise e, t).
Proof.
  unfold except_http. intros -> He. destruct e; try reflexivity. congruence.
Qed.

(** X2.  Deleting or moving an item whose identifier no item of the form
  carries raises [ValueError] after the one read of the form: no write is
  made. *)
Theorem unknown_item_is_not_written (svc : remote) (repr : json -> string)
    (form_id item_id new_position form : json) (items : list json)
    (h : list call) :
  svc h (FormsGet form_id) = Some form ->
  items_of form = Ok items ->
  Forall (carries_other_id item_id) items ->
  Gforms.delete_question svc repr form_id item_id h
  = (Raise (ValueError ("Item with ID '" ++ Gforms.fstr repr item_id
                        ++ "' not found in form")),
     (h ++ [FormsGet form_id])%list) /\
  Gforms.move_question svc repr form_id item_id new_position h
  = (Raise (ValueError ("Item with ID '" ++ Gforms.fstr repr item_id
                        ++ "' not found in form")),
     (h ++ [FormsGet form_id])%list).
Proof.
  intros Hget Hitems Hall.
  pose proof (get_item_index_unknown svc repr _ _ _ _ h Hget Hitems Hall) as Hidx.
  split.
  - unfold Gforms.delete_question.
    apply except_http_other; [|discriminate].
    apply bind_raise. exact Hidx.
  - unfold Gforms.move_question.
    apply except_http_other; [|discriminate].
    apply bind_raise. exact Hidx.
Qed.

Lemma unknown_item_is_not_written_witness :
  Gforms.delete_question (Sample.serving (Sample.form None Sample.three_items))
    Sample.repr (JStr "src") (JStr "z") []
  = (Raise (ValueError "Item with ID 'z' not found in form"),
     [FormsGet (JStr "src")]) /\
  Gforms.move_question (Sample.serving (Sample.form None Sample.three_items))
    Sample.repr (JStr "src") (JStr "z") (JNum 0) []
  = (Raise (ValueError "Item with ID 'z' not found in form"),
     [FormsGet (JStr "src")]).
Proof.
  apply (unknown_item_is_not_written
           (Sample.serving (Sample.form None Sample.three_items))
           Sample.repr (JStr "src") (JStr "z") (JNum 0)
           (Sample.form None Sample.three_items) Sample.three_items []).
  - reflexivity.
  - reflexivity.
  - repeat constructor;
      (eexists; split; [reflexivity | reflexivity]).
Defined.

(** X3.  When [delete_question] or [move_question] returns, it has made
  exactly two requests: the read of the form, then one batched write to
  the same form that holds one operation, addressed to the position of
  the first item carrying the identifier; [move_question] passes the new
  position on as it was given. *)
Theorem delete_and_move_write_once (svc : remote) (repr : json -> string)
    (form_id item_id new_position : json) :
  writes_at_located svc form_id item_id
    (Gforms.delete_question svc repr form_id item_id) delete_item_request /\
  writes_at_located svc form_id item_id
    (Gforms.move_question svc repr form_id item_id new_position)
    (fun i => move_item_request i new_position).
Proof.
  split; intros h t r H.
  - unfold Gforms.delete_question in H. inv_io.
    apply get_item_index_ok in Ha as [Hloc ->].
    apply execute_ok_trace in H. subst t.
    exists a. split; [exact Hloc|]. rewrite <- app_assoc. reflexivity.
  - unfold Gforms.move_question in H. inv_io.
    apply get_item_index_ok in Ha as [Hloc ->].
    apply execute_ok_trace in H. subst t.
    exists a. split; [exact Hloc|]. rewrite <- app_assoc. reflexivity.
Qed.

Lemma delete_and_move_write_once_witness :
  exists i,
    located (Sample.serving (Sample.form None Sample.three_items)) []
      (JStr "src") (JStr "c") i /\
    [FormsGet (JStr "src"); batch_call (JStr "src") [delete_item_request 2]]
    = ([] ++ [FormsGet (JStr "src");
              batch_call (JStr "src") [delete_item_request i]])%list.
Proof.
  apply (proj1 (delete_and_move_write_once
                  (Sample.serving (Sample.form None Sample.three_items))
                  Sample.repr (JStr "src") (JStr "c") (JNum 0))
           [] _ (JObj [])).
  reflexivity.
Defined.

Lemma find_item_first (item_id : json) (items : list json) (i idx : nat)
    (item : json) :
  first_with_id item_id items i ->
  nth_error items i = Some item ->
  Gforms.find_item item_id idx items = Ok (Some (idx + i, item)).
Proof.
  revert i idx. induction items as [|x items IH]; intros i idx [Hat Hbefore] Hn.
  - destruct i; discriminate.
  - destruct i as [|i].
    + cbn in Hn. injection Hn as ->.
      destruct Hat as (y & Hy & id & Hid & E). cbn in Hy. injection Hy as <-.
      cbn [Gforms.find_item]. rewrite Hid. cbn [rbind]. rewrite E.
      rewrite Nat.add_0_r. reflexivity.
    + destruct (Hbefore 0 x) as (id & Hid & E); [lia | reflexivity |].
      cbn [Gforms.find_item]. rewrite Hid. cbn [rbind]. rewrite E.
      rewrite (IH i (S idx)).
      * rewrite Nat.add_succ_r. reflexivity.
      * split; [exact Hat|].
        intros j y Hj Hy. apply (Hbefore (S j)); [lia | exact Hy].
      * exact Hn.
Qed.

(** ** Updating an item *)

Lemma setitem_lacks (k k' : string) (x v v' : json) :
  k' <> k -> lacks k' v -> Py.setitem v k x = Ok v' -> lacks k' v'.
Proof.
  intros Hne [d [-> Hd]] [= <-].
  eexists. split; [reflexivity|].
  rewrite dict_get_set_neq by exact Hne. exact Hd.
Qed.

Lemma setitem_path_other (k k' : string) (p : list string) (x v v' : json) :
  k' <> k -> Py.setitem v k x = Ok v' ->
  json_path (k' :: p) v' = json_path (k' :: p) v.
Proof.
  intros Hne H. destruct v; try discriminate. injection H as <-.
  simpl. rewrite dict_get_set_neq by exact Hne. reflexivity.
Qed.

Lemma setitem_path_eq (k : string) (p : list string) (x v v' : json) :
  Py.setitem v k x = Ok v' -> json_path (k :: p) v' = json_path p x.
Proof.
  intros H. destruct v; try discriminate. injection H as <-.
  simpl. rewrite dict_get_set_eq. reflexivity.
Qed.

(** The identifiers are gone once [update_item] has popped them. *)
Lemma popped_item_no_identifiers (original item0 item1 item2 : json) :
  Py.pop original "itemId" = Ok item0 ->
  Py.update "questionItem"
    (Py.update "question" (fun q => Py.pop q "questionId")) item0 = Ok item1 ->
  Py.update "questionGroupItem"
    (Py.update "questions" pop_question_ids) item1 = Ok item2 ->
  no_identifiers item2.
Proof.
  intros H0 H1 H2. repeat split.
  - eapply update_lacks; [ | | exact H2]; [discriminate|].
    eapply update_lacks; [ | | exact H1]; [discriminate|].
    eapply pop_lacks; exact H0.
  - intros q Hp.
    assert ("questionItem" <> "questionGroupItem") as Hne by discriminate.
    rewrite (update_path_other _ _ ["question"] _ _ _ Hne H2) in Hp.
    destruct (update_path _ _ _ _ _ _ H1 Hp) as (x & x' & _ & Hx & Hx').
    destruct (update_path _ _ _ _ _ _ Hx Hx') as (y & y' & _ & Hy & Hy').
    injection Hy' as ->. eapply pop_lacks; exact Hy.
  - intros qs q Hp Hin.
    destruct (update_path _ _ _ _ _ _ H2 Hp) as (x & x' & _ & Hx & Hx').
    destruct (update_path _ _ _ _ _ _ Hx Hx') as (y & y' & _ & Hy & Hy').
    injection Hy' as ->. eapply pop_question_ids_lack; eassumption.
Qed.

Lemma setitem_no_identifiers (k : string) (x v v' : json) :
  k <> "itemId" -> k <> "questionItem" -> k <> "questionGroupItem" ->
  no_identifiers v -> Py.setitem v k x = Ok v' -> no_identifiers v'.
Proof.
  intros N1 N2 N3 (Hid & Hq & Hg) H. repeat split.
  - eapply setitem_lacks; [ | exact Hid | exact H]. congruence.
  - intros q Hp.
    assert ("questionItem" <> k) as Hne by congruence.
    rewrite (setitem_path_other _ _ _ _ _ _ Hne H) in Hp.
    auto.
  - intros qs q Hp Hin.
    assert ("questionGroupItem" <> k) as Hne by congruence.
    rewrite (setitem_path_other _ _ _ _ _ _ Hne H) in Hp.
    eauto.
Qed.

Lemma apply_kwarg_no_identifiers (k : string) (kwargs : dict json)
    (st st' : json * list string) :
  k <> "itemId" -> k <> "questionItem" -> k <> "questionGroupItem" ->
  no_identifiers (fst st) ->
  Gforms.apply_kwarg k kwargs st = Ok st' ->
  no_identifiers (fst st').
Proof.
  intros N1 N2 N3 Hno H. unfold Gforms.apply_kwarg in H.
  destruct (dict_get k kwargs) as [x|].
  - inv_ok. cbn [fst]. eapply setitem_no_identifiers; eassumption.
  - injection H as <-. exact Hno.
Qed.

Lemma apply_required_no_identifiers (kwargs : dict json)
    (st st' : json * list string) :
  no_identifiers (fst st) ->
  Gforms.apply_required kwargs st = Ok st' ->
  no_identifiers (fst st').
Proof.
  intros (Hid & Hq & Hg) H. unfold Gforms.apply_required in H.
  destruct (dict_get "required" kwargs) as [x|]; [|injection H as <-; repeat split; auto].
  apply rbind_ok in H as (b & Hb & H).
  destruct b; [|injection H as <-; repeat split; auto].
  inv_ok. cbn [fst]. rename a into qi, a0 into q, a1 into q', a2 into qi', Ha3 into H.
  repeat split.
  - eapply setitem_lacks; [ | exact Hid | eassumption]. discriminate.
  - intros w Hp.
    rewrite (setitem_path_eq "questionItem" ["question"] _ _ _ H) in Hp.
    rewrite (setitem_path_eq "question" [] _ _ _ Ha2) in Hp.
    injection Hp as <-.
    eapply setitem_lacks; [ | | exact Ha1]; [discriminate|].
    apply Hq. destruct (fst st); try discriminate.
    unfold Py.getitem in Ha. simpl.
    destruct (dict_get "questionItem" kvs); [|discriminate].
    injection Ha as ->.
    destruct qi; try discriminate. unfold Py.getitem in Ha0. simpl.
    destruct (dict_get "question" kvs0); [|discriminate].
    injection Ha0 as ->. reflexivity.
  - intros qs w Hp Hin.
    assert ("questionGroupItem" <> "questionItem") as Hne by discriminate.
    rewrite (setitem_path_other _ _ _ _ _ _ Hne H) in Hp.
    eauto.
Qed.

Lemma apply_kwarg_inv (k : string) (kwargs : dict json)
    (st st' : json * list string) :
  Gforms.apply_kwarg k kwargs st = Ok st' ->
  match dict_get k kwargs with
  | Some x =>
      Py.setitem (fst st) k x = Ok (fst st') /\ snd st' = (snd st ++ [k])%list
  | None => st' = st
  end.
Proof.
  unfold Gforms.apply_kwarg. destruct (dict_get k kwargs) as [x|]; intros H.
  - inv_ok. auto.
  - injection H as <-. reflexivity.
Qed.

Lemma apply_required_keeps (k : string) (p : list string) (kwargs : dict json)
    (st st' : json * list string) :
  k <> "questionItem" ->
  Gforms.apply_required kwargs st = Ok st' ->
  json_path (k :: p) (fst st') = json_path (k :: p) (fst st) /\
  incl (snd st) (snd st').
Proof.
  intros Hne H. unfold Gforms.apply_required in H.
  destruct (dict_get "required" kwargs) as [x|];
    [|injection H as <-; split; [reflexivity | apply incl_refl]].
  apply rbind_ok in H as (b & Hb & H).
  destruct b; [|injection H as <-; split; [reflexivity | apply incl_refl]].
  inv_ok. cbn [fst snd]. split.
  - eapply setitem_path_other; eassumption.
  - apply incl_appl, incl_refl.
Qed.

(** X4.  When [update_item] returns, it has read the form and then made
  one batched write holding one [updateItem] for the position of the
  first item carrying the identifier.  The item it sends carries no
  [itemId] and no [questionId] (neither of its question nor of the
  questions of its grid), and a title or a description given as a
  keyword argument is in it as given and named in the update mask. *)
Theorem update_item_sends_clean_item (svc : remote) (repr : json -> string)
    (form_id item_id r : json) (kwargs : dict json) (h t : list call) :
  Gforms.update_item svc repr form_id item_id kwargs h = (Ok r, t) ->
  exists (i : nat) (item : json) (mask : list string),
    located svc h form_id item_id i /\
    t = (h ++ [FormsGet form_id;
               batch_call form_id [Gforms.update_item_request item i mask]])%list /\
    no_identifiers item /\
    mask <> [] /\
    (forall v, dict_get "title" kwargs = Some v ->
               json_path ["title"] item = Some v /\ In "title" mask) /\
    (forall v, dict_get "description" kwargs = Some v ->
               json_path ["description"] item = Some v /\ In "description" mask).
Proof.
  unfold Gforms.update_item. intros H. inv_io.
  apply get_form_ok in Ha as [Hget ->].
  destruct a2 as [[idx original]|]; [|discriminate].
  apply find_item_some in Ha2 as (k & -> & _ & Hfirst). cbn [Nat.add] in H.
  inv_io.
  rename a2 into item0, a3 into item1, a4 into item2,
         a5 into st1, a6 into st2, a7 into st3.
  destruct (snd st3) as [|m0 mask] eqn:Emask; [discriminate|].
  apply execute_ok_trace in H. subst t.
  match goal with
  | G1 : Py.pop original _ = _, G2 : Py.update "questionItem" _ _ = _,
    G3 : Py.update "questionGroupItem" _ _ = _ |- _ =>
      pose proof (popped_item_no_identifiers _ _ _ _ G1 G2 G3) as Hno
  end.
  match goal with
  | G1 : Gforms.apply_kwarg "title" _ _ = _,
    G2 : Gforms.apply_kwarg "description" _ _ = _,
    G3 : Gforms.apply_required _ _ = _ |- _ =>
      rename G1 into Ht, G2 into Hd, G3 into Hr
  end.
  assert (no_identifiers (fst st1)) as Hno1
    by (eapply (apply_kwarg_no_identifiers "title" kwargs (item2, []));
        [discriminate | discriminate | discriminate | exact Hno | exact Ht]).
  assert (no_identifiers (fst st2)) as Hno2
    by (eapply (apply_kwarg_no_identifiers "description");
        [discriminate | discriminate | discriminate | exact Hno1 | exact Hd]).
  pose proof (apply_required_no_identifiers _ _ _ Hno2 Hr) as Hno3.
  exists k, (fst st3), (m0 :: mask).
  split; [exists a, a1; split; [exact Hget|]; split; [|exact Hfirst];
          unfold items_of; rewrite Ha0; exact Ha1|].
  split; [rewrite <- app_assoc; reflexivity|].
  split; [exact Hno3|]. split; [discriminate|].
  apply apply_kwarg_inv in Ht, Hd.
  assert ("title" <> "questionItem") as Nt by discriminate.
  assert ("description" <> "questionItem") as Nd by discriminate.
  destruct (apply_required_keeps "title" [] _ _ _ Nt Hr) as [Pt It].
  destruct (apply_required_keeps "description" [] _ _ _ Nd Hr) as [Pd Id].
  rewrite <- Emask. split.
  - intros v Hv. rewrite Hv in Ht. destruct Ht as [Hset Hm]. cbn [fst snd] in *.
    split.
    + rewrite Pt.
      assert (json_path ["title"] (fst st2) = json_path ["title"] (fst st1)) as ->.
      { destruct (dict_get "description" kwargs) as [y|].
        - destruct Hd as [Hs _].
          eapply setitem_path_other; [|exact Hs]. discriminate.
        - rewrite Hd. reflexivity. }
      rewrite (setitem_path_eq _ [] _ _ _ Hset). reflexivity.
    + apply It.
      assert (In "title" (snd st1)) as Hin by (rewrite Hm; left; reflexivity).
      destruct (dict_get "description" kwargs) as [y|].
      * destruct Hd as [_ ->]. apply in_or_app. left. exact Hin.
      * rewrite Hd. exact Hin.
  - intros v Hv. rewrite Hv in Hd. destruct Hd as [Hset Hm]. split.
    + rewrite Pd. rewrite (setitem_path_eq _ [] _ _ _ Hset). reflexivity.
    + apply Id. rewrite Hm. apply in_or_app. right. left. reflexivity.
Qed.

Lemma update_item_sends_clean_item_witness :
  exists (i : nat) (item : json) (mask : list string),
    located Cases.survey [] (JStr "src") (JStr "b") i /\
    [FormsGet (JStr "src");
     batch_call (JStr "src")
       [Gforms.update_item_request Cases.renamed_item 1 ["title"]]]
    = ([] ++ [FormsGet (JStr "src");
              batch_call (JStr "src") [Gforms.update_item_request item i mask]])%list /\
    no_identifiers item /\
    mask <> [] /\
    (forall v, dict_get "title" [("title", JStr "Team name")] = Some v ->
               json_path ["title"] item = Some v /\ In "title" mask) /\
    (forall v, dict_get "description" [("title", JStr "Team name")] = Some v ->
               json_path ["description"] item = Some v /\ In "description" mask).
Proof.
  apply (update_item_sends_clean_item Cases.survey Sample.repr (JStr "src")
           (JStr "b")
           (JObj []) [("title", JStr "Team name")] []).
  reflexivity.
Defined.

(** X5.  [update_item] on an item that is neither a question nor a grid,
  called with neither a title nor a description, raises [ValueError]
  after the one read of the form and writes nothing, whatever else the
  keyword arguments hold: [required] is ignored on such an item. *)
Theorem update_item_needs_a_field (svc : remote) (repr : json -> string)
    (form_id item_id form : json) (items : list json) (i : nat) (d : dict json)
    (kwargs : dict json) (h : list call) :
  svc h (FormsGet form_id) = Some form ->
  items_of form = Ok items ->
  first_with_id item_id items i ->
  nth_error items i = Some (JObj d) ->
  dict_get "questionItem" d = None ->
  dict_get "questionGroupItem" d = None ->
  dict_get "title" kwargs = None ->
  dict_get "description" kwargs = None ->
  Gforms.update_item svc repr form_id item_id kwargs h
  = (Raise (ValueError "No fields to update"), (h ++ [FormsGet form_id])%list).
Proof.
  intros Hget Hitems Hfirst Hnth Hq Hg Ht Hd.
  apply items_of_ok in Hitems as (v & Hv & Hiter).
  unfold Gforms.update_item. apply except_http_other; [|discriminate].
  rewrite (bind_run _ _ _ _ _ (get_form_at svc _ _ _ Hget)).
  rewrite (bind_run _ _ _ _ _ (lift_run _ _ _ Hv)).
  rewrite (bind_run _ _ _ _ _ (lift_run _ _ _ Hiter)).
  rewrite (bind_run _ _ _ _ _
             (lift_run _ _ _ (find_item_first _ _ _ 0 _ Hfirst Hnth))).
  cbn [Nat.add Py.pop lift bind].
  assert (dict_get "questionItem" (dict_del "itemId" d) = None) as Hq'
    by (rewrite dict_get_del_neq by discriminate; exact Hq).
  assert (dict_get "questionGroupItem" (dict_del "itemId" d) = None) as Hg'
    by (rewrite dict_get_del_neq by discriminate; exact Hg).
  rewrite (update_obj_none _ _ _ Hq'), (update_obj_none _ _ _ Hg').
  unfold Gforms.apply_kwarg. cbn [fst snd]. rewrite Ht, Hd.
  unfold Gforms.apply_required.
  destruct (dict_get "required" kwargs); [|reflexivity].
  cbn [fst Py.contains rbind]. unfold dict_has. rewrite Hq'. reflexivity.
Qed.

Lemma update_item_needs_a_field_witness :
  Gforms.update_item (Sample.serving (Sample.form None [Cases.section_item]))
    Sample.repr (JStr "src") (JStr "s1") [("required", JBool true)] []
  = (Raise (ValueError "No fields to update"), [FormsGet (JStr "src")]).
Proof.
  apply (update_item_needs_a_field
           (Sample.serving (Sample.form None [Cases.section_item]))
           Sample.repr (JStr "src") (JStr "s1") (Sample.form None [Cases.section_item])
           [Cases.section_item] 0
           [("itemId", JStr "s1"); ("title", JStr "Part two");
            ("pageBreakItem", JObj [])]
           [("required", JBool true)] []);
    try reflexivity.
  split.
  - exists Cases.section_item. split; [reflexivity|].
    exists (JStr "s1"). split; reflexivity.
  - intros j item Hj. lia.
Defined.

Lemma root_get_form_at (svc : remote) (form_id form : json) (h : list call) :
  svc h (FormsGet form_id) = Some form ->
  RootApi.get_form svc form_id h = (Ok form, (h ++ [FormsGet form_id])%list).
Proof.
  intros H. unfold RootApi.get_form, except_http, execute. rewrite H. reflexivity.
Qed.

Lemma root_get_item_index_at (svc : remote) (repr : json -> string)
    (form_id item_id form : json) (items : list json) (i : nat) (h : list call) :
  svc h (FormsGet form_id) = Some form ->
  items_of form = Ok items ->
  first_with_id item_id items i ->
  RootApi._get_item_index svc repr form_id item_id h
  = (Ok i, (h ++ [FormsGet form_id])%list).
Proof.
  intros Hget Hitems Hfirst.
  apply items_of_ok in Hitems as (v & Hv & Hiter).
  destruct (proj1 Hfirst) as (item & Hnth & _).
  unfold RootApi._get_item_index.
  rewrite (bind_run _ _ _ _ _ (root_get_form_at svc _ _ _ Hget)).
  rewrite (bind_run _ _ _ _ _ (lift_run _ _ _ Hv)).
  rewrite (bind_run _ _ _ _ _ (lift_run _ _ _ Hiter)).
  rewrite (bind_run _ _ _ _ _
             (lift_run _ _ _ (find_item_first _ _ _ 0 _ Hfirst Hnth))).
  reflexivity.
Qed.

(** X6.  [update_question] of the older client, asked to change neither
  the title nor [required] of an item the form has, does not reject the
  call: after the read it still makes one batched write, an [updateItem]
  with an empty item and an empty update mask, and returns its answer. *)
Theorem root_update_question_sends_empty_update (svc : remote)
    (repr : json -> string) (form_id item_id form : json) (items : list json)
    (i : nat) (kwargs : dict json) (h : list call) :
  svc h (FormsGet form_id) = Some form ->
  items_of form = Ok items ->
  first_with_id item_id items i ->
  dict_get "title" kwargs = None ->
  dict_get "required" kwargs = None ->
  let empty_update :=
    batch_call form_id
      [JObj [("updateItem",
              JObj [("item", JObj []);
                    ("location", JObj [("index", JNum (Z.of_nat i))]);
                    ("updateMask", JStr "")])]] in
  RootApi.update_question svc repr form_id item_id kwargs h
  = (match svc (h ++ [FormsGet form_id])%list empty_update with
     | Some answer => Ok answer
     | None => Raise (PyException "Failed to update question")
     end,
     (h ++ [FormsGet form_id; empty_update])%list).
Proof.
  intros Hget Hitems Hfirst Ht Hr empty_update.
  unfold RootApi.update_question.
  unfold except_http.
  rewrite (bind_run _ _ _ _ _
             (root_get_item_index_at svc repr _ _ _ _ _ h Hget Hitems Hfirst)).
  rewrite Ht, Hr. cbn [lift bind fst snd].
  unfold execute. fold empty_update.
  change (FormsBatchUpdate form_id
            (requests_body [Gforms.update_item_request (JObj []) i []]))
    with empty_update.
  rewrite <- app_assoc. cbn [app].
  destruct (svc (h ++ [FormsGet form_id])%list empty_update); reflexivity.
Qed.

Lemma root_update_question_sends_empty_update_witness :
  RootApi.update_question Cases.survey Sample.repr (JStr "src") (JStr "a")
    [("description", JStr "more")] []
  = (Ok (JObj []),
     [FormsGet (JStr "src");
      batch_call (JStr "src")
        [JObj [("updateItem",
                JObj [("item", JObj []);
                      ("location", JObj [("index", JNum 0)]);
                      ("updateMask", JStr "")])]]]).
Proof.
  apply (root_update_question_sends_empty_update Cases.survey Sample.repr
           (JStr "src") (JStr "a") (Sample.form None Sample.three_items)
           Sample.three_items 0 [("description", JStr "more")] []);
    try reflexivity.
  split.
  - exists (Sample.short_answer "a" "Name"). split; [reflexivity|].
    exists (JStr "a"). split; reflexivity.
  - intros j item Hj. lia.
Defined.

(** ** Adding a question *)

Lemma is_str_other (k : string) (v : json) : v <> JStr k -> Py.is_str k v = false.
Proof.
  destruct v; try reflexivity. intros H. cbn.
  apply String.eqb_neq. congruence.
Qed.

Lemma question_body_unsupported (repr : json -> string) (question_type : json)
    (kwargs : dict json) :
  unsupported question_type ->
  question_body repr question_type kwargs
  = Raise (ValueError
             ("Unsupported question type: "
              ++ match question_type with JStr s => s | _ => repr question_type end)).
Proof.
  intros Hun. unfold question_body.
  assert (forall t, Py.is_str (Models.value t) question_type = false) as Hno
    by (intros t; apply is_str_other, Hun).
  pose proof (Hno Models.SHORT_ANSWER) as H1. pose proof (Hno Models.PARAGRAPH) as H2.
  pose proof (Hno Models.MULTIPLE_CHOICE) as H3.
  pose proof (Hno Models.CHECKBOXES) as H4. pose proof (Hno Models.DROPDOWN) as H5.
  pose proof (Hno Models.LINEAR_SCALE) as H6. pose proof (Hno Models.DATE) as H7.
  pose proof (Hno Models.TIME) as H8. pose proof (Hno Models.FILE_UPLOAD) as H9.
  pose proof (Hno Models.MULTIPLE_CHOICE_GRID) as H10.
  pose proof (Hno Models.CHECKBOX_GRID) as H11. pose proof (Hno Models.RATING) as H12.
  cbn [Models.value] in *.
  rewrite H1, H2, H3, H4, H5, H6, H7, H8, H9, H10, H11, H12.
  reflexivity.
Qed.

Lemma iter_no_value_error (v : json) (msg : string) :
  Py.iter v <> Raise (ValueError msg).
Proof. destruct v; discriminate. Qed.

Lemma option_objects_no_value_error (v : json) (msg : string) :
  option_objects v <> Raise (ValueError msg).
Proof.
  unfold option_objects. destruct (Py.iter v) eqn:E; cbn; [discriminate|].
  intros [= ->]. exact (iter_no_value_error _ _ E).
Qed.

Lemma row_questions_no_value_error (v : json) (msg : string) :
  row_questions v <> Raise (ValueError msg).
Proof.
  unfold row_questions. destruct (Py.iter v) eqn:E; cbn; [discriminate|].
  intros [= ->]. exact (iter_no_value_error _ _ E).
Qed.

Lemma choice_question_no_value_error (type : string) (kwargs : dict json)
    (msg : string) :
  choice_question type kwargs <> Raise (ValueError msg).
Proof.
  unfold choice_question.
  destruct (option_objects (kwarg kwargs "options" (JArr []))) eqn:E; cbn;
    [discriminate|].
  intros [= ->]. exact (option_objects_no_value_error _ _ E).
Qed.

Lemma grid_question_no_value_error (type : string) (kwargs : dict json)
    (msg : string) :
  grid_question type kwargs <> Raise (ValueError msg).
Proof.
  unfold grid_question.
  destruct (row_questions (kwarg kwargs "rows" (JArr []))) eqn:E; cbn.
  - destruct (option_objects (kwarg kwargs "columns" (JArr []))) eqn:E'; cbn;
      [discriminate|].
    intros [= ->]. exact (option_objects_no_value_error _ _ E').
  - intros [= ->]. exact (row_questions_no_value_error _ _ E).
Qed.

Lemma question_body_supported (repr : json -> string) (t : Models.QuestionType)
    (kwargs : dict json) (msg : string) :
  question_body repr (JStr (Models.value t)) kwargs <> Raise (ValueError msg).
Proof.
  destruct t; cbn;
    first [ discriminate
          | apply choice_question_no_value_error
          | apply grid_question_no_value_error ].
Qed.

(** X7.  [add_question] raises [ValueError] exactly for the question
  types that are not members of [QuestionType]; it does so before making
  any request. *)
Theorem add_question_rejects_unknown_types (svc : remote) (repr : json -> string)
    (form_id question_type title : json) (kwargs : dict json) (h : list call) :
  ((exists msg,
       fst (Gforms.add_question svc repr form_id question_type title kwargs h)
       = Raise (ValueError msg))
   <-> unsupported question_type) /\
  (unsupported question_type ->
   Gforms.add_question svc repr form_id question_type title kwargs h
   = (Raise (ValueError ("Unsupported question type: "
                         ++ Gforms.fstr repr question_type)), h)).
Proof.
  assert (unsupported question_type ->
          Gforms.add_question svc repr form_id question_type title kwargs h
          = (Raise (ValueError ("Unsupported question type: "
                                ++ Gforms.fstr repr question_type)), h)) as Hrun.
  { intros Hun. unfold Gforms.add_question, build_question.
    rewrite (question_body_unsupported repr _ kwargs Hun). reflexivity. }
  split; [|exact Hrun]. split.
  - intros [msg Hmsg] t ->.
    unfold Gforms.add_question, build_question, except_http, bind, lift in Hmsg.
    destruct (question_body repr (JStr (Models.value t)) kwargs) as [body|e] eqn:E.
    + cbn [rbind] in Hmsg. unfold execute in Hmsg.
      destruct (svc h _); discriminate.
    + cbn [rbind] in Hmsg.
      destruct e; cbn in Hmsg; try discriminate.
      injection Hmsg as ->. exact (question_body_supported _ _ _ _ E).
  - intros Hun. rewrite (Hrun Hun). eexists. reflexivity.
Qed.

Lemma add_question_rejects_unknown_types_witness :
  Gforms.add_question Cases.survey Sample.repr (JStr "src") (JStr "ESSAY")
    (JStr "Why?") [] []
  = (Raise (ValueError "Unsupported question type: ESSAY"), []).
Proof.
  apply (proj2 (add_question_rejects_unknown_types Cases.survey Sample.repr
                  (JStr "src") (JStr "ESSAY") (JStr "Why?") [] [])).
  intros t. destruct t; discriminate.
Defined.

Lemma kwarg_set_other (k k' : string) (v default : json) (kwargs : dict json) :
  k' <> k -> kwarg (dict_set k v kwargs) k' default = kwarg kwargs k' default.
Proof.
  intros Hne. unfold kwarg. rewrite dict_get_set_neq by exact Hne. reflexivity.
Qed.

(** X8.  [add_question] reads thirteen keyword arguments and no other:
  passing one more, such as [description], changes neither the request it
  makes nor what it returns. *)
Theorem add_question_ignores_other_kwargs (svc : remote) (repr : json -> string)
    (form_id question_type title : json) (kwargs : dict json) (k : string)
    (v : json) (h : list call) :
  ~ In k add_question_kwargs ->
  Gforms.add_question svc repr form_id question_type title (dict_set k v kwargs) h
  = Gforms.add_question svc repr form_id question_type title kwargs h.
Proof.
  intros Hk.
  assert (forall k' default, In k' add_question_kwargs ->
            kwarg (dict_set k v kwargs) k' default = kwarg kwargs k' default) as Hsame.
  { intros k' default Hin. apply kwarg_set_other. intros ->. contradiction. }
  unfold Gforms.add_question, build_question, question_body,
    choice_question, grid_question.
  rewrite !Hsame by (unfold add_question_kwargs; simpl; tauto).
  reflexivity.
Qed.

Lemma add_question_ignores_other_kwargs_witness :
  ~ In "description" add_question_kwargs /\
  Gforms.add_question Cases.survey Sample.repr (JStr "src") (JStr "PARAGRAPH")
    (JStr "Why?") (dict_set "description" (JStr "Be brief") [("required", JBool true)]) []
  = Gforms.add_question Cases.survey Sample.repr (JStr "src") (JStr "PARAGRAPH")
      (JStr "Why?") [("required", JBool true)] [].
Proof.
  assert (~ In "description" add_question_kwargs) as Hk.
  { unfold add_question_kwargs. simpl. intros H.
    repeat (destruct H as [H|H]; [discriminate H|]). exact H. }
  split; [exact Hk|].
  exact (add_question_ignores_other_kwargs Cases.survey Sample.repr (JStr "src")
           (JStr "PARAGRAPH") (JStr "Why?") [("required", JBool true)]
           "description" (JStr "Be brief") [] Hk).
Defined.

(** ** Sections, form details and creation *)

(** X9.  When [add_section] returns: called without a position, it has
  read the form and then written the section break at the index that is
  the number of items of the form read, so after the last item; called
  with a position, it has made the write only, at that position. *)
Theorem add_section_position (svc : remote)
    (form_id title description position r : json) (h t : list call) :
  Gforms.add_section svc form_id title description position h = (Ok r, t) ->
  match position with
  | JNull =>
      exists form items n,
        svc h (FormsGet form_id) = Some form /\
        Py.get form "items" (JArr []) = Ok items /\
        Py.len items = Ok n /\
        t = (h ++ [FormsGet form_id;
                   batch_call form_id
                     [add_section_request title description (JNum (Z.of_nat n))]])%list
  | _ =>
      t = (h ++ [batch_call form_id
                   [add_section_request title description position]])%list
  end.
Proof.
  unfold Gforms.add_section. intros H. apply except_http_raise_ok in H.
  apply bind_ok in H as (p & h1 & Hp & H).
  apply execute_ok_trace in H. subst t.
  destruct position;
    try (apply ret_ok in Hp as [-> ->]; reflexivity).
  inv_io. apply get_form_ok in Ha as [Hget ->].
  exists a, a0, a1. repeat split; try assumption.
  rewrite <- app_assoc. reflexivity.
Qed.

Lemma add_section_position_witness :
  exists form items n,
    Cases.survey [] (FormsGet (JStr "src")) = Some form /\
    Py.get form "items" (JArr []) = Ok items /\
    Py.len items = Ok n /\
    [FormsGet (JStr "src");
     batch_call (JStr "src")
       [add_section_request (JStr "Part two") (JStr "") (JNum 3)]]
    = ([] ++ [FormsGet (JStr "src");
              batch_call (JStr "src")
                [add_section_request (JStr "Part two") (JStr "")
                   (JNum (Z.of_nat n))]])%list.
Proof.
  apply (add_section_position Cases.survey (JStr "src") (JStr "Part two")
           (JStr "") JNull (JObj []) []).
  reflexivity.
Defined.

Lemma root_get_form_ok (svc : remote) (form_id v : json) (h t : list call) :
  RootApi.get_form svc form_id h = (Ok v, t) ->
  svc h (FormsGet form_id) = Some v /\ t = (h ++ [FormsGet form_id])%list.
Proof.
  unfold RootApi.get_form. intros H. inv_io.
  unfold execute in H. destruct (svc h (FormsGet form_id)); [|discriminate].
  injection H as -> <-. auto.
Qed.

(** X10.  [update_form] called with neither a title nor a description
  raises [ValueError] before any request.  When it returns, it has made
  one batched write holding the title operation before the description
  operation (each only when given), then a read of the form whose answer
  it returns; between the two, the packaged client renames the Drive
  file when a title was given, the older client never does. *)
Theorem update_form_requests_made (svc : remote)
    (form_id title description : json) :
  (update_form_requests title description = [] ->
   forall h,
     Gforms.update_form svc form_id title description h
     = (Raise (ValueError "Must provide either title or description to update"), h) /\
     RootApi.update_form svc form_id title description h
     = (Raise (ValueError "Must provide either title or description to update"), h)) /\
  returns_after svc (Gforms.update_form svc form_id title description)
    (update_form_writes true form_id title description) (FormsGet form_id) /\
  returns_after svc (RootApi.update_form svc form_id title description)
    (update_form_writes false form_id title description) (FormsGet form_id).
Proof.
  split; [|split].
  - intros Hnone h. unfold Gforms.update_form, RootApi.update_form.
    change ((match title with
             | JNull => []
             | _ => [update_form_info "title" title]
             end ++
             match description with
             | JNull => []
             | _ => [update_form_info "description" description]
             end)%list) with (update_form_requests title description).
    rewrite Hnone. split; reflexivity.
  - intros h t r H. unfold Gforms.update_form in H.
    apply except_http_raise_ok in H.
    change ((match title with
             | JNull => []
             | _ => [update_form_info "title" title]
             end ++
             match description with
             | JNull => []
             | _ => [update_form_info "description" description]
             end)%list) with (update_form_requests title description) in H.
    unfold update_form_writes, batch_call.
    destruct (update_form_requests title description) as [|q qs];
      [discriminate|].
    cbn zeta iota beta in H. inv_io. apply execute_ok_trace in Ha. subst h0.
    apply get_form_ok in H as [Hget ->].
    destruct title;
      try (rewrite sync_drive_name_run in Ha0; injection Ha0 as _ <-;
           rewrite <- !app_assoc in *; cbn [app] in *; split;
           [reflexivity | exact Hget]).
    apply ret_ok in Ha0 as [_ ->]. cbn [app]. rewrite <- app_assoc. auto.
  - intros h t r H. unfold RootApi.update_form in H.
    apply except_http_raise_ok in H.
    change ((match title with
             | JNull => []
             | _ => [update_form_info "title" title]
             end ++
             match description with
             | JNull => []
             | _ => [update_form_info "description" description]
             end)%list) with (update_form_requests title description) in H.
    unfold update_form_writes, batch_call.
    destruct (update_form_requests title description) as [|q qs];
      [discriminate|].
    cbn zeta iota beta in H. inv_io. apply execute_ok_trace in Ha. subst h0.
    apply root_get_form_ok in H as [Hget ->].
    assert (match title with JNull | _ => @nil call end = []) as ->
      by (destruct title; reflexivity).
    rewrite <- app_assoc. auto.
Qed.

Lemma update_form_requests_made_witness :
  [batch_call (JStr "src") [update_form_info "title" (JStr "New")];
   DriveFilesUpdate (JStr "src") (JObj [("name", JStr "New")]);
   FormsGet (JStr "src")]
  = ([] ++ update_form_writes true (JStr "src") (JStr "New") JNull
        ++ [FormsGet (JStr "src")])%list /\
  Cases.survey ([] ++ update_form_writes true (JStr "src") (JStr "New") JNull)%list
    (FormsGet (JStr "src"))
  = Some (Sample.form None Sample.three_items).
Proof.
  apply (proj1 (proj2 (update_form_requests_made Cases.survey (JStr "src")
                         (JStr "New") JNull)) []).
  reflexivity.
Defined.

(** X11.  [create_form] of the packaged client does not depend on the
  Drive rename: once the creation is answered with a form identifier and
  the description update, if there is a description, is answered, it
  returns the identifier, the responder link of the answer ([None] when
  the answer has none) and the edit link, whether the rename that follows
  succeeds or fails. *)
Theorem create_form_survives_drive_failure (svc : remote)
    (repr : json -> string) (title description result form_id : json)
    (h : list call) :
  let creation := FormsCreate (JObj [("info", JObj [("title", title)])]) in
  svc h creation = Some result ->
  Py.getitem result "formId" = Ok form_id ->
  (Py.truthy description = true ->
   svc (h ++ [creation])%list
     (batch_call form_id
        [update_form_info "description" description; default_quiz_settings])
   <> None) ->
  exists responder,
    Py.get result "responderUri" JNull = Ok responder /\
    Gforms.create_form svc repr title description h
    = (Ok (JObj [("formId", form_id); ("responderUri", responder);
                 ("editUri", Gforms.edit_uri repr form_id)]),
       (h ++ create_form_calls title description form_id)%list).
Proof.
  intros creation Hcreate Hid Hdesc.
  destruct result as [| | | | |d]; try discriminate.
  destruct (Py.get (JObj d) "responderUri" JNull) as [responder|] eqn:Hresp;
    [|cbn in Hresp; destruct (dict_get "responderUri" d); discriminate].
  exists responder. split; [reflexivity|].
  unfold Gforms.create_form. apply except_http_run.
  assert (execute svc creation h = (Ok (JObj d), (h ++ [creation])%list)) as Hc
    by (unfold execute; rewrite Hcreate; reflexivity).
  fold creation. rewrite (bind_run _ _ _ _ _ Hc).
  rewrite (bind_run _ _ _ _ _ (lift_run _ _ _ Hid)).
  unfold create_form_calls. fold creation.
  destruct (Py.truthy description).
  - unfold batch_call in Hdesc.
    destruct (svc (h ++ [creation])%list
                (FormsBatchUpdate form_id
                   (requests_body
                      [update_form_info "description" description;
                       default_quiz_settings]))) as [answer|] eqn:Hw;
      [|exfalso; apply Hdesc; reflexivity].
    unfold bind at 1. unfold bind at 1. unfold execute at 1. rewrite Hw.
    cbn [ret]. unfold bind at 1. rewrite sync_drive_name_run.
    rewrite (bind_run _ _ _ _ _ (lift_run _ _ _ Hresp)).
    unfold ret, batch_call. rewrite <- !app_assoc. reflexivity.
  - unfold bind at 1. cbn [ret]. unfold bind at 1. rewrite sync_drive_name_run.
    rewrite (bind_run _ _ _ _ _ (lift_run _ _ _ Hresp)).
    unfold ret. rewrite <- !app_assoc. reflexivity.
Qed.

Lemma create_form_survives_drive_failure_witness :
  Cases.drive_down [FormsCreate (JObj [("info", JObj [("title", JStr "Copy")])]);
                    batch_call (JStr "new")
                      [update_form_info "description" (JStr "About");
                       default_quiz_settings]]
    (DriveFilesUpdate (JStr "new") (JObj [("name", JStr "Copy")]))
  = None /\
  exists responder,
    Py.get Sample.created "responderUri" JNull = Ok responder /\
    Gforms.create_form Cases.drive_down Sample.repr (JStr "Copy") (JStr "About") []
    = (Ok (JObj [("formId", JStr "new"); ("responderUri", responder);
                 ("editUri", Gforms.edit_uri Sample.repr (JStr "new"))]),
       ([] ++ create_form_calls (JStr "Copy") (JStr "About") (JStr "new"))%list).
Proof.
  split; [reflexivity|].
  apply (create_form_survives_drive_failure Cases.drive_down Sample.repr
           (JStr "Copy") (JStr "About") Sample.created (JStr "new") []).
  - reflexivity.
  - reflexivity.
  - intros _. discriminate.
Defined.

(** ** What a duplication reports *)

Lemma count_answered_le (svc : remote) (h calls : list call) :
  count_answered svc h calls <= List.length calls.
Proof.
  revert h. induction calls as [|c calls IH]; intros h; [apply Nat.le_refl|].
  cbn [count_answered List.length]. specialize (IH (h ++ [c])%list).
  destruct (svc h c); lia.
Qed.

Lemma copy_items_counts (svc : remote) (form_id : json) (items : list json)
    (i api_calls copied_count : nat) (h t : list call) (counts : nat * nat) :
  Gforms.copy_items svc form_id i items api_calls copied_count h = (Ok counts, t) ->
  exists requests,
    Gforms.item_requests i items = Ok requests /\
    t = (h ++ single_writes form_id requests)%list /\
    fst counts = api_calls + count_answered svc h (single_writes form_id requests) /\
    snd counts = copied_count + count_answered svc h (single_writes form_id requests).
Proof.
  revert i api_calls copied_count h.
  induction items as [|x items IH]; intros i api_calls copied_count h H.
  - cbn in H. injection H as <- <-. exists []. cbn.
    rewrite app_nil_r, !Nat.add_0_r. auto.
  - cbn [Gforms.copy_items] in H.
    apply bind_ok in H as (clean & h1 & Hclean & H).
    apply lift_ok in Hclean as [Hclean ->].
    unfold bind at 1 in H. unfold except_http at 1 in H.
    unfold bind at 1 in H. unfold execute at 1 in H.
    destruct (svc h (FormsBatchUpdate form_id
                       (requests_body [create_item clean i]))) as [answer|] eqn:E;
      cbn [ret] in H;
      apply IH in H as (requests & Hreq & -> & Hapi & Hcopied);
      exists (create_item clean i :: requests);
      cbn [Gforms.item_requests]; rewrite Hclean, Hreq;
      cbn [rbind single_writes map count_answered];
      fold (single_writes form_id requests);
      change (batch_call form_id [create_item clean i])
        with (FormsBatchUpdate form_id (requests_body [create_item clean i]));
      rewrite E, <- app_assoc; cbn [app];
      repeat split; lia.
Qed.

(** X12.  When the item-by-item duplication returns, it has attempted
  every operation of the copy, the settings replacement and one
  [createItem] per source item, in its own batched write, in order;
  [copiedItems] is the number of item writes the remote side answered,
  so at most [totalItems], and [apiCalls] is 2, plus 1 for the settings
  write, plus [copiedItems]: a failed item write is neither copied nor
  counted as a call. *)
Theorem legacy_counts_answered_writes (svc : remote) (repr : json -> string)
    (form_id new_title : json) (r : DuplicationResult) (t : list call) :
  Gforms._duplicate_form_legacy svc repr form_id new_title [] = (Ok r, t) ->
  exists p,
    prepared svc repr form_id new_title p /\
    t = (p_trace p ++ single_writes (newFormId r) (copy_requests p))%list /\
    totalItems r = List.length (p_item_list p) /\
    copiedItems r
    = count_answered svc
        (p_trace p ++ single_writes (newFormId r) (p_settings_requests p))%list
        (single_writes (newFormId r) (p_creates p)) /\
    copiedItems r <= totalItems r /\
    apiCalls r = 2 + bool_to_nat (p_has_settings p) + copiedItems r.
Proof.
  unfold Gforms._duplicate_form_legacy. intros H. inv_io.
  apply get_form_ok in Ha as [Hget ->]. cbn [app] in *.
  apply copy_items_counts in Ha8 as (creates & Hcreates & -> & Hapi & Hcopied).
  assert (exists sreqs,
             (if a4
              then exists settings,
                  Gforms.copy_settings a = Ok settings /\
                  sreqs = [update_settings settings]
              else sreqs = []) /\
             h5 = (h2 ++ single_writes a3 sreqs)%list /\
             a5 = 2 + bool_to_nat a4) as (sreqs & Hs & -> & ->).
  { destruct a4; inv_io; inv_exec.
    - exists [update_settings a4]. split; [eauto|]. split; reflexivity.
    - exists []. split; [reflexivity|]. rewrite app_nil_r. split; reflexivity. }
  exists {| p_original := a; p_description := a1; p_new_form := a2;
            p_form_id := a3; p_responder := a9; p_has_settings := a4;
            p_settings_requests := sreqs; p_item_list := a7;
            p_creates := creates; p_trace := h2 |}.
  cbn [newFormId totalItems copiedItems apiCalls p_trace p_item_list
       p_creates p_settings_requests p_has_settings copy_requests].
  split.
  { unfold prepared, built_from; cbn [p_original p_description p_new_form
      p_form_id p_responder p_has_settings p_settings_requests p_item_list
      p_creates p_trace].
    repeat split; eauto. }
  pose proof (count_answered_le svc (h2 ++ single_writes a3 sreqs)%list
                (single_writes a3 creates)) as Hle.
  unfold single_writes in Hle at 3. rewrite length_map in Hle.
  rewrite (item_requests_length _ _ _ Hcreates) in Hle.
  apply iter_len in Ha7. rewrite Ha7 in Ha10. injection Ha10 as <-.
  unfold copy_requests, single_writes. cbn [p_settings_requests p_creates].
  rewrite map_app, app_assoc.
  repeat split; try reflexivity; unfold single_writes in *; lia.
Qed.

Lemma legacy_counts_answered_writes_witness :
  exists r t,
    Gforms._duplicate_form_legacy Sample.flaky Sample.repr (JStr "src")
      (JStr "Copy") [] = (Ok r, t) /\
    copiedItems r = 1 /\ totalItems r = 3 /\ apiCalls r = 3 /\
    exists p,
      prepared Sample.flaky Sample.repr (JStr "src") (JStr "Copy") p /\
      t = (p_trace p ++ single_writes (newFormId r) (copy_requests p))%list /\
      totalItems r = List.length (p_item_list p) /\
      copiedItems r
      = count_answered Sample.flaky
          (p_trace p ++ single_writes (newFormId r) (p_settings_requests p))%list
          (single_writes (newFormId r) (p_creates p)) /\
      copiedItems r <= totalItems r /\
      apiCalls r = 2 + bool_to_nat (p_has_settings p) + copiedItems r.
Proof.
  eexists. eexists. split; [reflexivity|].
  split; [reflexivity|]. split; [reflexivity|]. split; [reflexivity|].
  apply (legacy_counts_answered_writes Sample.flaky Sample.repr (JStr "src")
           (JStr "Copy")).
  reflexivity.
Defined.

Lemma submit_chunks_ok (svc : remote) (form_id : json) (chunks : list (list json))
    (idx api_calls total_copied : nat) (h t : list call) (counts : nat * nat) :
  Gforms.submit_chunks svc form_id idx chunks api_calls total_copied h
  = (Ok counts, t) ->
  counts = (api_calls + List.length chunks,
            total_copied + List.length (filter is_create_item (concat chunks))) /\
  t = (h ++ map (batch_call form_id) chunks)%list.
Proof.
  revert idx api_calls total_copied h.
  induction chunks as [|ch chunks IH]; intros idx api_calls total_copied h H.
  - cbn in H. injection H as <- <-.
    cbn. rewrite !Nat.add_0_r, app_nil_r. auto.
  - cbn [Gforms.submit_chunks] in H.
    apply bind_ok in H as (answer & h1 & Hw & H).
    apply except_http_raise_ok, execute_ok_trace in Hw. subst h1.
    apply IH in H as [-> ->].
    cbn [concat map List.length]. rewrite filter_app, length_app, <- app_assoc.
    split; [f_equal; lia | reflexivity].
Qed.

(** X13.  With a positive chunk size the batch duplication copies all
  or raises: when it returns, not one remote call having been assumed to
  succeed, every chunk it planned was written, [copiedItems] equals
  [totalItems], the number of source items, and [apiCalls] is 2 plus the
  number of batched writes of the copy. *)
Theorem batch_returns_only_complete_copies (svc : remote) (repr : json -> string)
    (form_id new_title : json) (chunk_size : Z) (r : DuplicationResult)
    (t : list call) :
  (0 < chunk_size)%Z ->
  Gforms._duplicate_form_batch svc repr form_id new_title chunk_size [] = (Ok r, t) ->
  exists p,
    prepared svc repr form_id new_title p /\
    t = (p_trace p
         ++ map (batch_call (newFormId r))
              (planned_chunks (p_has_settings p) (copy_requests p) chunk_size))%list /\
    concat (planned_chunks (p_has_settings p) (copy_requests p) chunk_size)
    = copy_requests p /\
    totalItems r = List.length (p_item_list p) /\
    copiedItems r = totalItems r /\
    apiCalls r
    = 2 + List.length
            (planned_chunks (p_has_settings p) (copy_requests p) chunk_size).
Proof.
  intros Hpos. unfold Gforms._duplicate_form_batch. intros H. inv_io.
  apply get_form_ok in Ha as [Hget ->]. cbn [app] in *.
  apply settings_requests_built in Ha6.
  assert (built_from a a2 a5 a6 a7 a8) as Hbuilt.
  { unfold built_from. repeat split; eauto. }
  destruct (planned_chunks_creates _ _ _ _ _ _ Hbuilt chunk_size Hpos)
    as [Hcount Hconcat].
  pose proof (iter_len _ _ Ha7) as Hlen. rewrite Hlen in Ha11.
  injection Ha11 as <-.
  assert (a9 = (2 + List.length (planned_chunks a5 (a6 ++ a8) chunk_size),
                List.length a7) /\
          h9 = (h3 ++ map (batch_call a4)
                        (planned_chunks a5 (a6 ++ a8) chunk_size))%list)
    as [-> ->].
  { unfold planned_chunks in *.
    destruct (a6 ++ a8)%list as [|q qs] eqn:Ereq.
    - apply ret_ok in Ha9 as [-> ->]. cbn. rewrite app_nil_r.
      apply app_eq_nil in Ereq as [_ ->].
      apply item_requests_length in Ha8. cbn in Ha8. rewrite <- Ha8. auto.
    - destruct (Z.leb (Z.of_nat (List.length (q :: qs))) chunk_size).
      + inv_io. inv_exec.
        match goal with
        | G : Py.len a0 = Ok _ |- _ => rewrite Hlen in G; injection G as <-
        end. auto.
      + inv_io. unfold Gforms.chunks_of in Ha.
        destruct (Z.eqb_spec chunk_size 0) as [E0|_]; [lia|].
        destruct (Z.ltb_spec chunk_size 0) as [E0|_]; [lia|].
        injection Ha as <-.
        apply submit_chunks_ok in Ha9 as [-> ->].
        rewrite Hcount. auto. }
  exists {| p_original := a; p_description := a2; p_new_form := a3;
            p_form_id := a4; p_responder := a10; p_has_settings := a5;
            p_settings_requests := a6; p_item_list := a7; p_creates := a8;
            p_trace := h3 |}.
  cbn [newFormId totalItems copiedItems apiCalls fst snd p_trace p_item_list
       p_creates p_settings_requests p_has_settings copy_requests].
  split.
  { unfold prepared; cbn [p_original p_description p_new_form
      p_form_id p_responder p_has_settings p_settings_requests p_item_list
      p_creates p_trace].
    repeat split; eauto. }
  repeat split; try reflexivity. exact Hconcat.
Qed.

Lemma batch_returns_only_complete_copies_witness :
  (0 < 2)%Z /\
  exists r t,
    Gforms._duplicate_form_batch Cases.survey Sample.repr (JStr "src")
      (JStr "Copy") 2 [] = (Ok r, t) /\
    copiedItems r = 3 /\
    exists p,
      prepared Cases.survey Sample.repr (JStr "src") (JStr "Copy") p /\
      t = (p_trace p
           ++ map (batch_call (newFormId r))
                (planned_chunks (p_has_settings p) (copy_requests p) 2))%list /\
      concat (planned_chunks (p_has_settings p) (copy_requests p) 2)
      = copy_requests p /\
      totalItems r = List.length (p_item_list p) /\
      copiedItems r = totalItems r /\
      apiCalls r
      = 2 + List.length (planned_chunks (p_has_settings p) (copy_requests p) 2).
Proof.
  split; [reflexivity|].
  eexists. eexists. split; [reflexivity|]. split; [reflexivity|].
  apply (batch_returns_only_complete_copies Cases.survey Sample.repr (JStr "src")
           (JStr "Copy") 2); reflexivity.
Defined.

(** X14.  A chunk size that is not positive is not rejected.  Once the
  source is read, the copy created and the operations built, and there is
  at least one operation: with a negative chunk size the batch
  duplication makes no further request, so nothing is copied, and it
  returns normally, reporting [copiedItems] 0, [apiCalls] 2 and [chunked]
  true; with chunk size 0 it raises [ValueError] at that point. *)
Theorem batch_with_nonpositive_chunk_size (svc : remote) (repr : json -> string)
    (form_id new_title : json) (chunk_size : Z) (p : preparation) :
  prepared svc repr form_id new_title p ->
  copy_requests p <> [] ->
  (chunk_size <= 0)%Z ->
  Gforms._duplicate_form_batch svc repr form_id new_title chunk_size []
  = (if Z.eqb chunk_size 0
     then Raise (ValueError "range() arg 3 must not be zero")
     else Ok {| newFormId := p_form_id p;
                responderUri := p_responder p;
                editUri := Gforms.edit_uri repr (p_form_id p);
                copiedItems := 0;
                totalItems := List.length (p_item_list p);
                apiCalls := 2;
                method := "batch";
                chunked := Some true |},
     p_trace p).
Proof.
  intros (Hget & Hbuilt & Hcreate & Hfid & Hresp) Hsome Hle.
  destruct Hbuilt as ((info & Hinfo & Hdesc) & Hhs & Hset
                      & (items & Hitems & Hiter) & Hreq).
  pose proof (iter_len _ _ Hiter) as Hlen.
  unfold copy_requests in Hsome.
  assert ((if p_has_settings p
           then let* settings := Gforms.copy_settings (p_original p) in
                Ok [update_settings settings]
           else Ok []) = Ok (p_settings_requests p)) as Hsreqs.
  { destruct (p_has_settings p).
    - destruct Hset as (settings & -> & ->). reflexivity.
    - rewrite Hset. reflexivity. }
  assert (Gforms.get_form svc form_id [] = (Ok (p_original p), [FormsGet form_id]))
    as Hg by (apply (get_form_at svc form_id _ [] Hget)).
  unfold Gforms._duplicate_form_batch.
  assert (forall (k : nat * nat -> io DuplicationResult),
             bind (match (p_settings_requests p ++ p_creates p)%list with
                   | [] => ret (2, 0)
                   | _ :: _ =>
                       if Z.leb (Z.of_nat (List.length
                                             (p_settings_requests p ++ p_creates p)))
                            chunk_size
                       then
                         do _ <- except_http
                                   (execute svc
                                      (FormsBatchUpdate (p_form_id p)
                                         (requests_body
                                            (p_settings_requests p ++ p_creates p))))
                                   (raise (PyException "Failed to batch duplicate form")) ;;
                         do n <- lift (Py.len items) ;;
                         ret (3, n)
                       else
                         do chunks <- lift (Gforms.chunks_of (p_has_settings p)
                                              (p_settings_requests p ++ p_creates p)
                                              chunk_size) ;;
                         Gforms.submit_chunks svc (p_form_id p) 0 chunks 2 0
                   end) k (p_trace p)
             = if Z.eqb chunk_size 0
               then (Raise (ValueError "range() arg 3 must not be zero"), p_trace p)
               else k (2, 0) (p_trace p)) as Hcounts.
  { intros k.
    destruct (p_settings_requests p ++ p_creates p)%list as [|q qs] eqn:E;
      [congruence|].
    assert (Z.leb (Z.of_nat (List.length (q :: qs))) chunk_size = false) as ->
      by (apply Z.leb_gt; cbn [List.length]; lia).
    unfold Gforms.chunks_of.
    destruct (Z.eqb_spec chunk_size 0) as [E0|N0]; [reflexivity|].
    destruct (Z.ltb_spec chunk_size 0) as [_|N1]; [reflexivity | lia]. }
  destruct (Z.eqb chunk_size 0) eqn:E0.
  - apply except_http_other; [|discriminate].
    rewrite (bind_run _ _ _ _ _ Hg).
    rewrite (bind_run _ _ _ _ _ (lift_run _ _ _ Hitems)).
    rewrite (bind_run _ _ _ _ _ (lift_run _ _ _ Hinfo)).
    rewrite (bind_run _ _ _ _ _ (lift_run _ _ _ Hdesc)).
    rewrite (bind_run _ _ _ _ _ Hcreate).
    rewrite (bind_run _ _ _ _ _ (lift_run _ _ _ Hfid)).
    rewrite (bind_run _ _ _ _ _ (lift_run _ _ _ Hhs)).
    rewrite (bind_run _ _ _ _ _ (lift_run _ _ _ Hsreqs)).
    rewrite (bind_run _ _ _ _ _ (lift_run _ _ _ Hiter)).
    rewrite (bind_run _ _ _ _ _ (lift_run _ _ _ Hreq)).
    cbv zeta. rewrite Hcounts. reflexivity.
  - apply except_http_run.
    rewrite (bind_run _ _ _ _ _ Hg).
    rewrite (bind_run _ _ _ _ _ (lift_run _ _ _ Hitems)).
    rewrite (bind_run _ _ _ _ _ (lift_run _ _ _ Hinfo)).
    rewrite (bind_run _ _ _ _ _ (lift_run _ _ _ Hdesc)).
    rewrite (bind_run _ _ _ _ _ Hcreate).
    rewrite (bind_run _ _ _ _ _ (lift_run _ _ _ Hfid)).
    rewrite (bind_run _ _ _ _ _ (lift_run _ _ _ Hhs)).
    rewrite (bind_run _ _ _ _ _ (lift_run _ _ _ Hsreqs)).
    rewrite (bind_run _ _ _ _ _ (lift_run _ _ _ Hiter)).
    rewrite (bind_run _ _ _ _ _ (lift_run _ _ _ Hreq)).
    cbv zeta. rewrite Hcounts.
    rewrite (bind_run _ _ _ _ _ (lift_run _ _ _ Hresp)).
    rewrite (bind_run _ _ _ _ _ (lift_run _ _ _ Hlen)).
    cbn [fst snd]. unfold ret. f_equal. f_equal. f_equal. f_equal.
    apply Z.ltb_lt.
    destruct (p_settings_requests p ++ p_creates p)%list; [congruence|].
    cbn [List.length]. apply Z.eqb_neq in E0. lia.
Qed.

Lemma batch_with_nonpositive_chunk_size_witness :
  Gforms._duplicate_form_batch Sample.flaky Sample.repr (JStr "src")
    (JStr "Copy") (-1) []
  = (Ok {| newFormId := JStr "new";
           responderUri := JStr "https://forms/new";
           editUri := Gforms.edit_uri Sample.repr (JStr "new");
           copiedItems := 0;
           totalItems := 3;
           apiCalls := 2;
           method := "batch";
           chunked := Some true |},
     FormsGet (JStr "src")
     :: create_form_calls (JStr "Copy") (JStr "") (JStr "new")).
Proof.
  refine (batch_with_nonpositive_chunk_size Sample.flaky Sample.repr (JStr "src")
            (JStr "Copy") (-1) Sample.flaky_preparation flaky_prepared _ _).
  - discriminate.
  - discriminate.
Defined.

(** ** Exceptions of the sanitizer *)

Lemma local_ok {A : Type} (a : A) : local (Ok a).
Proof. discriminate. Qed.

Lemma local_rbind {A B : Type} (m : result A) (k : A -> result B) :
  local m -> (forall a, local (k a)) -> local (rbind m k).
Proof.
  intros Hm Hk. destruct m as [a|e]; cbn; [apply Hk|].
  intros [= ->]. apply Hm. reflexivity.
Qed.

Lemma local_mapM {A B : Type} (f : A -> result B) (l : list A) :
  (forall a, local (f a)) -> local (mapM f l).
Proof.
  intros Hf. induction l as [|x l IH]; cbn [mapM]; [apply local_ok|].
  apply local_rbind; [apply Hf|]. intros y.
  apply local_rbind; [exact IH|]. intros ys. apply local_ok.
Qed.

Lemma local_contains (k : string) (v : json) : local (Py.contains k v).
Proof. destruct v; discriminate. Qed.

Lemma local_getitem (v : json) (k : string) : local (Py.getitem v k).
Proof. destruct v; try discriminate. cbn. destruct (dict_get k kvs); discriminate. Qed.

Lemma local_setitem (v : json) (k : string) (x : json) : local (Py.setitem v k x).
Proof. destruct v; discriminate. Qed.

Lemma local_pop (v : json) (k : string) : local (Py.pop v k).
Proof. destruct v; discriminate. Qed.

Lemma local_iter (v : json) : local (Py.iter v).
Proof. destruct v; discriminate. Qed.

Lemma local_clean_newlines (v : json) : local (Py.clean_newlines v).
Proof. destruct v; discriminate. Qed.

Lemma local_if {A : Type} (b : bool) (x y : result A) :
  local x -> local y -> local (if b then x else y).
Proof. destruct b; auto. Qed.

Lemma local_update (k : string) (f : json -> result json) (v : json) :
  (forall x, local (f x)) -> local (Py.update k f v).
Proof.
  intros Hf. unfold Py.update.
  apply local_rbind; [apply local_contains|]. intros b.
  apply local_if; [|apply local_ok].
  apply local_rbind; [apply local_getitem|]. intros x.
  apply local_rbind; [apply Hf|]. intros x'. apply local_setitem.
Qed.

Lemma local_for_each (f : json -> result json) (v : json) :
  (forall x, local (f x)) -> local (Py.for_each f v).
Proof.
  intros Hf. unfold Py.for_each.
  apply local_rbind; [apply local_iter|]. intros xs.
  apply local_rbind; [apply local_mapM; exact Hf|]. intros ys. apply local_ok.
Qed.

Ltac local_tac :=
  repeat first
    [ progress intros
    | apply local_ok
    | apply local_contains
    | apply local_getitem
    | apply local_setitem
    | apply local_pop
    | apply local_iter
    | apply local_clean_newlines
    | apply local_update
    | apply local_for_each
    | apply local_mapM
    | apply local_if
    | apply local_rbind ].

Lemma local_copy_field (norm : json -> result json) (k : string) (x : json)
    (d : dict json) :
  (forall v, local (norm v)) -> local (copy_field norm k x d).
Proof. intros Hn. unfold copy_field. local_tac. apply Hn. Qed.

Lemma local_clean_item (x : json) : local (Gforms._clean_item_for_duplication x).
Proof.
  unfold Gforms._clean_item_for_duplication.
  apply local_rbind; [apply local_copy_field; local_tac|]. intros d1.
  apply local_rbind; [apply local_copy_field; local_tac|]. intros d2.
  unfold Gforms.clean_scale_labels, Gforms.clean_choice_options,
    Gforms.clean_grid_columns, Gforms.clean_option_values, Gforms.clean_text_key,
    build_question_item, pop_question_ids.
  local_tac.
Qed.

Lemma local_item_requests (i : nat) (items : list json) :
  local (Gforms.item_requests i items).
Proof.
  revert i. induction items as [|x items IH]; intros i; cbn [Gforms.item_requests];
    [apply local_ok|].
  apply local_rbind; [apply local_clean_item|]. intros c.
  apply local_rbind; [apply IH|]. intros rs. apply local_ok.
Qed.

(** X15.  The batch duplication sanitizes every item before it writes
  any: when the sanitizer raises on some item of the source, the
  exception, never an [HttpError], leaves [duplicate_form] as it is, after
  the copy has been created and before any operation of the copy is
  written, so an empty copy is left behind. *)
Theorem batch_sanitizes_before_writing (svc : remote) (repr : json -> string)
    (form_id new_title : json) (chunk_size : Z)
    (original description new_form : json) (item_list : list json)
    (tr : list call) (e : exn) :
  svc [] (FormsGet form_id) = Some original ->
  description_of original = Ok description ->
  Gforms.create_form svc repr new_title description [FormsGet form_id]
  = (Ok new_form, tr) ->
  (Py.contains "settings" original = Ok true ->
   exists settings, Gforms.copy_settings original = Ok settings) ->
  items_of original = Ok item_list ->
  Gforms.item_requests 0 item_list = Raise e ->
  Gforms.duplicate_form svc repr form_id new_title true chunk_size []
  = (Raise e, tr) /\
  e <> HttpError /\
  copy_calls tr = [].
Proof.
  intros Hget Hdesc Hcreate Hsettings Hitems Hreq.
  assert (e <> HttpError) as He.
  { intros ->. exact (local_item_requests 0 item_list Hreq). }
  unfold description_of in Hdesc.
  apply rbind_ok in Hdesc as (info & Hinfo & Hdesc).
  apply items_of_ok in Hitems as (items & Hitems & Hiter).
  destruct (create_form_ok _ _ _ _ _ _ _ Hcreate) as (fid & responder & -> & ->).
  split; [|split; [exact He|]].
  - cbn [Gforms.duplicate_form]. unfold Gforms._duplicate_form_batch.
    apply except_http_other; [|exact He].
    rewrite (bind_run _ _ _ _ _ (get_form_at svc form_id _ [] Hget)).
    rewrite (bind_run _ _ _ _ _ (lift_run _ _ _ Hitems)).
    rewrite (bind_run _ _ _ _ _ (lift_run _ _ _ Hinfo)).
    rewrite (bind_run _ _ _ _ _ (lift_run _ _ _ Hdesc)).
    cbn [app]. rewrite (bind_run _ _ _ _ _ Hcreate).
    assert (exists hs, Py.contains "settings" original = Ok hs) as [hs Hhs].
    { destruct original; try discriminate. eexists. reflexivity. }
    assert (Py.getitem
              (JObj [("formId", fid); ("responderUri", responder);
                     ("editUri", Gforms.edit_uri repr fid)]) "formId" = Ok fid)
      as Hfid by reflexivity.
    rewrite (bind_run _ _ _ _ _ (lift_run _ _ _ Hfid)).
    rewrite (bind_run _ _ _ _ _ (lift_run _ _ _ Hhs)).
    assert (exists sreqs,
               (if hs
                then let* settings := Gforms.copy_settings original in
                     Ok [update_settings settings]
                else Ok []) = Ok sreqs) as [sreqs Hsreqs].
    { destruct hs; [|eexists; reflexivity].
      destruct (Hsettings Hhs) as [settings ->]. eexists. reflexivity. }
    rewrite (bind_run _ _ _ _ _ (lift_run _ _ _ Hsreqs)).
    rewrite (bind_run _ _ _ _ _ (lift_run _ _ _ Hiter)).
    apply bind_raise. unfold lift. rewrite Hreq. reflexivity.
  - change (copy_calls ([FormsGet form_id]
                        ++ create_form_calls new_title description fid) = []).
    rewrite copy_calls_app, create_form_calls_no_copy. reflexivity.
Qed.

Lemma batch_sanitizes_before_writing_witness :
  Gforms.duplicate_form (Sample.serving Cases.broken_form) Sample.repr
    (JStr "src") (JStr "Copy") true 100 []
  = (Raise KeyError,
     FormsGet (JStr "src")
     :: create_form_calls (JStr "Copy") (JStr "") (JStr "new")) /\
  KeyError <> HttpError /\
  copy_calls (FormsGet (JStr "src")
              :: create_form_calls (JStr "Copy") (JStr "") (JStr "new")) = [].
Proof.
  apply (batch_sanitizes_before_writing (Sample.serving Cases.broken_form)
           Sample.repr (JStr "src") (JStr "Copy") 100 Cases.broken_form
           (JStr "")
           (JObj [("formId", JStr "new");
                  ("responderUri", JStr "https://forms/new");
                  ("editUri", Gforms.edit_uri Sample.repr (JStr "new"))])
           [Sample.short_answer "a" "Name"; Cases.broken_item]).
  - reflexivity.
  - reflexivity.
  - reflexivity.
  - discriminate.
  - reflexivity.
  - reflexivity.
Defined.

(** ** Templates *)

Lemma option_values_back (xs : list json) :
  mapM (fun opt => Py.get opt "value" (JStr ""))
    (map (fun opt => JObj [("value", opt)]) xs) = Ok xs.
Proof.
  induction xs as [|x xs IH]; [reflexivity|].
  cbn [map mapM]. cbn [Py.get dict_get String.eqb Ascii.eqb Bool.eqb rbind].
  rewrite IH. reflexivity.
Qed.

(** X16.  The question that [add_question] builds for a member of
  [QuestionType], in the item it sends, is read back by the loop of
  [export_to_template] with the same title and [required] flag and, for
  a choice question, the same options in order; the type read back is
  the type given, except that a rating comes back as [LINEAR_SCALE] and
  the two grids as [SHORT_ANSWER]. *)
Theorem exported_type_of_added_question (repr : json -> string)
    (t : Models.QuestionType) (kwargs : dict json) (title question : json) :
  build_question repr (JStr (Models.value t)) kwargs = Ok question ->
  exists entry,
    Templates.export_question (new_question_item title question)
    = Ok (Some entry) /\
    json_path ["title"] entry = Some title /\
    json_path ["required"] entry = Some (kwarg kwargs "required" (JBool false)) /\
    json_path ["type"] entry = Some (JStr (Models.value (exported_as t))) /\
    (is_choice t = true ->
     exists xs,
       Py.iter (kwarg kwargs "options" (JArr [])) = Ok xs /\
       json_path ["options"] entry = Some (JArr xs)).
Proof.
  unfold build_question. intros H. apply rbind_ok in H as (body & Hbody & H).
  injection H as <-.
  destruct t; cbn in Hbody;
    try (injection Hbody as <-; eexists; cbn;
         repeat split; try reflexivity; discriminate).
  - unfold choice_question, option_objects in Hbody. inv_ok.
    eexists. cbn. rewrite option_values_back. cbn.
    repeat split; try reflexivity. intros _. eexists. split; [eassumption|reflexivity].
  - unfold choice_question, option_objects in Hbody. inv_ok.
    eexists. cbn. rewrite option_values_back. cbn.
    repeat split; try reflexivity. intros _. eexists. split; [eassumption|reflexivity].
  - unfold choice_question, option_objects in Hbody. inv_ok.
    eexists. cbn. rewrite option_values_back. cbn.
    repeat split; try reflexivity. intros _. eexists. split; [eassumption|reflexivity].
  - injection Hbody as <-.
    unfold Templates.export_question, new_question_item.
    cbn -[Templates.copy_if_set]. unfold Templates.copy_if_set.
    cbn [Py.get dict_get String.eqb Ascii.eqb Bool.eqb rbind].
    destruct (Py.truthy (kwarg kwargs "lowLabel" (JStr "")));
      destruct (Py.truthy (kwarg kwargs "highLabel" (JStr "")));
      eexists; cbn; repeat split; try reflexivity; discriminate.
  - injection Hbody as <-.
    unfold Templates.export_question, new_question_item.
    cbn -[Templates.copy_if_set]. unfold Templates.copy_if_set.
    cbn [Py.get dict_get String.eqb Ascii.eqb Bool.eqb rbind].
    destruct (Py.truthy (kwarg kwargs "folderId" (JStr "")));
      eexists; cbn; repeat split; try reflexivity; discriminate.
  - unfold grid_question, row_questions, option_objects in Hbody. inv_ok.
    eexists. cbn. repeat split; try reflexivity. discriminate.
  - unfold grid_question, row_questions, option_objects in Hbody. inv_ok.
    eexists. cbn. repeat split; try reflexivity. discriminate.
Qed.

Lemma exported_type_of_added_question_witness :
  exists entry,
    Templates.export_question
      (new_question_item (JStr "Stars")
         (JObj [("required", JBool false);
                ("scaleQuestion",
                 JObj [("low", JNum 1); ("high", JNum 10);
                       ("lowLabel", JStr ""); ("highLabel", JStr "")])]))
    = Ok (Some entry) /\
    json_path ["title"] entry = Some (JStr "Stars") /\
    json_path ["required"] entry
    = Some (kwarg [("high", JNum 10)] "required" (JBool false)) /\
    json_path ["type"] entry
    = Some (JStr (Models.value (exported_as Models.RATING))) /\
    (is_choice Models.RATING = true ->
     exists xs,
       Py.iter (kwarg [("high", JNum 10)] "options" (JArr [])) = Ok xs /\
       json_path ["options"] entry = Some (JArr xs)).
Proof.
  apply (exported_type_of_added_question Sample.repr Models.RATING
           [("high", JNum 10)] (JStr "Stars")).
  reflexivity.
Defined.

Lemma export_question_inv (item : json) (e : option json) :
  Templates.export_question item = Ok e ->
  carries_question item = match e with Some _ => true | None => false end.
Proof.
  unfold Templates.export_question, carries_question. intros H.
  apply rbind_ok in H as (b & -> & H). destruct b; cbn [negb] in H.
  - repeat (apply rbind_ok in H as (? & _ & H)). injection H as <-. reflexivity.
  - injection H as <-. reflexivity.
Qed.

Lemma exported_entries (items : list json) (exported : list (option json)) :
  mapM Templates.export_question items = Ok exported ->
  Forall2 (fun item q => Templates.export_question item = Ok (Some q))
    (filter carries_question items) (Templates.entries exported).
Proof.
  revert exported. induction items as [|x items IH]; intros exported H.
  - injection H as <-. constructor.
  - cbn [mapM] in H. inv_ok. cbn [filter Templates.entries flat_map].
    rewrite (export_question_inv _ _ Ha). destruct a as [q|].
    + cbn [app]. constructor; [exact Ha|]. apply IH. exact Ha0.
    + apply IH. exact Ha0.
Qed.

(** X17.  The template [export_to_template] builds lists the question
  items of the form and nothing else: its [questions] are the entries of
  the items that carry [questionItem], one each, in the order of the
  form; sections, texts, images, videos and grids are left out. *)
Theorem template_lists_question_items (form t : json) :
  Templates.template form = Ok t ->
  exists items qs,
    items_of form = Ok items /\
    json_path ["questions"] t = Some (JArr qs) /\
    Forall2 (fun item q => Templates.export_question item = Ok (Some q))
      (filter carries_question items) qs.
Proof.
  unfold Templates.template. intros H. inv_ok.
  exists a3, (Templates.entries a4). split; [|split].
  - unfold items_of. rewrite Ha2. exact Ha3.
  - reflexivity.
  - apply exported_entries. assumption.
Qed.

Lemma template_lists_question_items_witness :
  exists items qs,
    items_of (Sample.form None [Cases.section_item; Sample.short_answer "a" "Name";
                                Sample.grid_item]) = Ok items /\
    json_path ["questions"]
      (JObj [("form", JObj [("title", JStr "Survey"); ("description", JStr "")]);
             ("questions",
              JArr [JObj [("title", JStr "Name"); ("required", JBool true);
                          ("type", JStr "SHORT_ANSWER")]])])
    = Some (JArr qs) /\
    Forall2 (fun item q => Templates.export_question item = Ok (Some q))
      (filter carries_question items) qs.
Proof.
  apply (template_lists_question_items
           (Sample.form None [Cases.section_item; Sample.short_answer "a" "Name";
                              Sample.grid_item])).
  reflexivity.
Defined.

(** ** The rows of an export *)

Lemma foldM_invariant {A S : Type} (f : A -> S -> result S) (P : S -> Prop)
    (l : list A) (s s' : S) :
  (forall x s1 s2, f x s1 = Ok s2 -> P s1 -> P s2) ->
  foldM f l s = Ok s' -> P s -> P s'.
Proof.
  intros Hf. revert s. induction l as [|x l IH]; intros s H Hs.
  - injection H as <-. exact Hs.
  - cbn [foldM] in H. apply rbind_ok in H as (s1 & H1 & H).
    eapply IH; [exact H|]. eapply Hf; eassumption.
Qed.

Lemma mapM_length {A B : Type} (f : A -> result B) (l : list A) (l' : list B) :
  mapM f l = Ok l' -> List.length l' = List.length l.
Proof.
  revert l'. induction l as [|x l IH]; intros l' H.
  - injection H as <-. reflexivity.
  - cbn [mapM] in H. inv_ok. cbn [List.length]. f_equal. apply IH. assumption.
Qed.

Lemma assoc_set_length (k v : json) (m : list (json * json)) :
  List.length (assoc_set k v m) <= S (List.length m).
Proof.
  induction m as [|[k' v'] m IH]; cbn [assoc_set List.length]; [lia|].
  destruct (Py.eq k' k); cbn [List.length]; lia.
Qed.

Lemma question_map_set_length (k v : json) (m m' : list (json * json)) :
  question_map_set k v m = Ok m' -> List.length m' <= S (List.length m).
Proof.
  unfold question_map_set.
  destruct k; intros H; try discriminate; injection H as <-;
    apply assoc_set_length.
Qed.

Lemma header_grows (start : list json) (k title : json)
    (st : list (json * json) * list json) (m : list (json * json)) :
  question_map_set k title (fst st) = Ok m ->
  header_covers start st ->
  header_covers start (m, (snd st ++ [title])%list).
Proof.
  unfold header_covers. intros Hm [Hc Hf]. cbn [fst snd].
  apply question_map_set_length in Hm. rewrite length_app. cbn [List.length].
  split; [lia|]. rewrite firstn_app.
  replace (List.length start - List.length (snd st)) with 0 by lia.
  cbn [firstn]. rewrite app_nil_r. exact Hf.
Qed.

Lemma header_of_row_covers (repr : json -> string) (start : list json)
    (grid_title q : json) (st st' : list (json * json) * list json) :
  Gforms.header_of_row repr grid_title q st = Ok st' ->
  header_covers start st -> header_covers start st'.
Proof.
  unfold Gforms.header_of_row. intros H Hc.
  apply rbind_ok in H as (qid & _ & H).
  apply rbind_ok in H as (rq & _ & H).
  apply rbind_ok in H as (rt & _ & H).
  destruct (Py.truthy qid).
  - apply rbind_ok in H as (m & Hm & H). injection H as <-.
    eapply header_grows; eassumption.
  - injection H as <-. exact Hc.
Qed.

Lemma header_of_item_covers (repr : json -> string) (start : list json)
    (item : json) (st st' : list (json * json) * list json) :
  Gforms.header_of_item repr item st = Ok st' ->
  header_covers start st -> header_covers start st'.
Proof.
  unfold Gforms.header_of_item. intros H Hc.
  apply rbind_ok in H as (isq & _ & H). destruct isq.
  - apply rbind_ok in H as (qi & _ & H).
    apply rbind_ok in H as (q & _ & H).
    apply rbind_ok in H as (qid & _ & H).
    destruct (Py.truthy qid).
    + apply rbind_ok in H as (title & _ & H).
      apply rbind_ok in H as (m & Hm & H). injection H as <-.
      eapply header_grows; eassumption.
    + injection H as <-. exact Hc.
  - apply rbind_ok in H as (isg & _ & H). destruct isg.
    + apply rbind_ok in H as (gt & _ & H).
      apply rbind_ok in H as (g & _ & H).
      apply rbind_ok in H as (qs & _ & H).
      apply rbind_ok in H as (ql & _ & H).
      eapply (foldM_invariant _ (header_covers start)); [|exact H|exact Hc].
      intros x s1 s2. apply header_of_row_covers.
    + injection H as <-. exact Hc.
Qed.

Lemma header_start_covers (ts em : bool) :
  header_covers (header_start ts em) ([], header_start ts em).
Proof.
  unfold header_covers. cbn [fst snd List.length].
  rewrite firstn_all. split; [lia | reflexivity].
Qed.

Lemma response_row_length (ts em : bool) (ids : list json) (response : json)
    (row : list json) :
  response_row ts em ids response = Ok row ->
  List.length row = List.length (header_start ts em) + List.length ids.
Proof.
  unfold response_row, header_start. intros H.
  apply rbind_ok in H as (stamp & Hs & H).
  apply rbind_ok in H as (email & He & H).
  apply rbind_ok in H as (answers & _ & H).
  apply rbind_ok in H as (cells & Hc & H). injection H as <-.
  apply mapM_length in Hc. rewrite !length_app, Hc.
  destruct ts, em; inv_ok; cbn [List.length app]; lia.
Qed.

Lemma response_rows_length (ts em : bool) (ids : list json)
    (responses : list json) (rows : list (list json)) :
  mapM (response_row ts em ids) responses = Ok rows ->
  Forall (fun row => List.length row
                     = List.length (header_start ts em) + List.length ids) rows.
Proof.
  revert rows. induction responses as [|x responses IH]; intros rows H.
  - injection H as <-. constructor.
  - cbn [mapM] in H. inv_ok. constructor.
    + eapply response_row_length; eassumption.
    + apply IH. assumption.
Qed.

(** X18.  An export makes two requests, the read of the form and one
  listing of up to 1000 responses, and never writes.  When the listing
  holds no response it returns an empty text and [rowCount] 0.
  Otherwise what it returns is the header row followed by the row of
  every response listed, in the order of the listing, [rowCount] being
  the number of responses; the header starts with the timestamp and
  e-mail titles asked for, and every row has the same number of cells,
  never more than the header has titles. *)
Theorem export_rows_fit_header (svc : remote) (repr : json -> string)
    (writerow : list json -> string) (form_id : json)
    (include_timestamps include_email : bool) (r : ExportResult)
    (t : list call) :
  Gforms.export_responses_csv svc repr writerow form_id
    include_timestamps include_email [] = (Ok r, t) ->
  t = [FormsGet form_id; ResponsesList form_id [("pageSize", JNum 1000)]] /\
  exported svc form_id include_timestamps include_email writerow r.
Proof.
  unfold Gforms.export_responses_csv. intros H. inv_io.
  apply get_form_ok in Ha as [Hget ->].
  unfold Gforms.list_responses in Ha0. inv_io. cbn [Py.truthy] in Ha0.
  pose proof Ha0 as Hlisted.
  apply execute_ok_trace in Ha0. subst h0. cbn [app] in *.
  assert (svc [FormsGet form_id]
            (ResponsesList form_id [("pageSize", JNum 1000)]) = Some a0)
    as Hanswer.
  { unfold execute in Hlisted.
    destruct (svc [FormsGet form_id]
                (ResponsesList form_id [("pageSize", JNum 1000)]));
      [injection Hlisted as ->; reflexivity | discriminate]. }
  destruct (Py.truthy a1) eqn:Htruthy; cbn [negb] in H.
  - inv_io. split; [reflexivity|].
    exists a0, a1. split; [exact Hanswer|]. split; [assumption|].
    rewrite Htruthy.
    match goal with
    | Hfold : foldM _ _ _ = Ok ?st, Hrows : mapM _ ?rs = Ok ?rows,
      Hiter : Py.iter a1 = Ok ?rs, Hlen : Py.len a1 = Ok _ |- _ =>
        exists (snd st), (map fst (fst st)), rs, rows;
        cbn [csv rowCount];
        pose proof (foldM_invariant _
                      (header_covers (header_start include_timestamps
                                        include_email))
                      _ _ _ (fun x s1 s2 => header_of_item_covers repr _ x s1 s2)
                      Hfold (header_start_covers _ _)) as [Hc Hf];
        split; [exact Hiter|]; split;
        [ apply mapM_ok_Forall2; exact Hrows |];
        split; [reflexivity|]; split;
        [ apply iter_len in Hiter; rewrite Hiter in Hlen;
          injection Hlen as <-; reflexivity |];
        split; [exact Hf|]; split; [rewrite length_map; exact Hc|];
        eapply response_rows_length; eassumption
    end.
  - apply ret_ok in H as [-> ->]. split; [reflexivity|].
    exists a0, a1. split; [exact Hanswer|]. split; [assumption|].
    rewrite Htruthy. reflexivity.
Qed.

Lemma export_rows_fit_header_witness :
  exists r t,
    Gforms.export_responses_csv Cases.answered_survey Sample.repr Sample.writerow
      (JStr "src") true true [] = (Ok r, t) /\
    rowCount r = 2 /\
    t = [FormsGet (JStr "src");
         ResponsesList (JStr "src") [("pageSize", JNum 1000)]] /\
    exported Cases.answered_survey (JStr "src") true true Sample.writerow r.
Proof.
  eexists. eexists. split; [reflexivity|]. split; [reflexivity|].
  apply (export_rows_fit_header Cases.answered_survey Sample.repr Sample.writerow
           (JStr "src") true true).
  reflexivity.
Defined.

(** ** What the sanitizer keeps *)

Lemma contains_false_path (k : string) (x : json) :
  Py.contains k x = Ok false -> json_path [k] x = None.
Proof.
  destruct x; try discriminate; try reflexivity.
  cbn. unfold dict_has. destruct (dict_get k kvs); [discriminate | reflexivity].
Qed.

Lemma getitem_path (k : string) (x y : json) :
  Py.getitem x k = Ok y -> json_path [k] x = Some y.
Proof.
  destruct x; try discriminate. cbn.
  destruct (dict_get k kvs); [|discriminate]. intros [= ->]. reflexivity.
Qed.

Lemma dict_keys_set {V : Type} (k : string) (v : V) (d : dict V) :
  incl (dict_keys (dict_set k v d)) (k :: dict_keys d).
Proof.
  induction d as [|[k' v'] d IH]; cbn [dict_set dict_keys map fst].
  - apply incl_refl.
  - destruct (String.eqb k k') eqn:E.
    + apply String.eqb_eq in E. subst k'. cbn [dict_keys map fst].
      intros a [<- | Ha]; [left; reflexivity | right; right; exact Ha].
    + cbn [dict_keys map fst].
      intros a [<- | Ha]; [right; left; reflexivity|].
      destruct (IH a Ha) as [<- | Hin]; [left; reflexivity | right; right; exact Hin].
Qed.

Lemma dict_get_keys {V : Type} (k : string) (d : dict V) :
  dict_get k d <> None -> In k (dict_keys d).
Proof.
  induction d as [|[k' v'] d IH]; cbn [dict_get dict_keys map fst];
    [congruence|].
  destruct (String.eqb k k') eqn:E.
  - apply String.eqb_eq in E. subst k'. left. reflexivity.
  - intros H. right. apply IH, H.
Qed.

Lemma text_field_keys (n1 n2 : json -> result json) (x : json) (d1 d2 : dict json) :
  copy_field n1 "title" x [] = Ok d1 ->
  copy_field n2 "description" x d1 = Ok d2 ->
  incl (dict_keys d2) ["title"; "description"].
Proof.
  intros H1 H2.
  apply copy_field_inv in H1 as [[_ ->] | (y1 & y1' & _ & _ & _ & ->)];
    apply copy_field_inv in H2 as [[_ ->] | (y2 & y2' & _ & _ & _ & ->)];
    cbn; intros a Ha; cbn in Ha; cbn; tauto.
Qed.

Lemma copy_first_kind_first (ks : list string) (x : json) (d d' : dict json) :
  copy_first_kind ks x d = Ok d' ->
  (first_kind ks x = None /\ d' = d) \/
  (exists k y, first_kind ks x = Some (k, y) /\ In k ks /\ d' = dict_set k y d).
Proof.
  induction ks as [|k ks IH]; cbn [copy_first_kind first_kind]; intros H.
  - injection H as <-. left. auto.
  - apply rbind_ok in H as (b & Hb & H). destruct b.
    + apply rbind_ok in H as (y & Hy & H). injection H as <-.
      right. exists k, y. rewrite (getitem_path _ _ _ Hy).
      split; [reflexivity|]. split; [left; reflexivity | reflexivity].
    + rewrite (contains_false_path _ _ Hb).
      apply IH in H as [[Hn ->] | (k' & y & Hf & Hin & ->)].
      * left. auto.
      * right. exists k', y. split; [exact Hf|]. split; [right; exact Hin | reflexivity].
Qed.

Lemma item_kind_not_text (k : string) :
  In k item_kinds -> k <> "title" /\ k <> "description".
Proof.
  unfold item_kinds, plain_kinds. cbn.
  intros [<- | [<- | [<- | [<- | [<- | [<- | []]]]]]]; split; discriminate.
Qed.

Lemma first_kind_of_set (ks : list string) (k : string) (y : json) (d : dict json) :
  In k ks ->
  (forall k', In k' ks -> dict_get k' d = None) ->
  first_kind ks (JObj (dict_set k y d)) = Some (k, y).
Proof.
  induction ks as [|k' ks IH]; intros Hin Hnone; [contradiction|].
  cbn [first_kind json_path].
  destruct (string_dec k' k) as [->|Hne].
  - rewrite dict_get_set_eq. reflexivity.
  - rewrite dict_get_set_neq by exact Hne.
    rewrite (Hnone k') by (left; reflexivity).
    apply IH.
    + destruct Hin as [E|Hin]; [congruence | exact Hin].
    + intros k0 H0. apply Hnone. right. exact H0.
Qed.

Lemma kept_one_kind (x : json) (d2 : dict json) (k : string) (y y0 : json) :
  incl (dict_keys d2) ["title"; "description"] ->
  (forall k', k' <> "title" -> k' <> "description" -> dict_get k' d2 = None) ->
  In k item_kinds ->
  kind_payload x = Some (k, y0) ->
  keeps_known_fields x (JObj (dict_set k y d2)).
Proof.
  intros Hkeys Hnone Hin Hx.
  assert (forall k', In k' item_kinds -> dict_get k' d2 = None) as Hkinds.
  { intros k' Hk'. destruct (item_kind_not_text _ Hk'). apply Hnone; assumption. }
  assert (kind_payload (JObj (dict_set k y d2)) = Some (k, y)) as Hc
    by (apply first_kind_of_set; assumption).
  exists (dict_set k y d2). split; [reflexivity|]. split; [|split].
  - intros a Ha. apply dict_keys_set in Ha as [<- | Ha].
    + right. right. exact Hin.
    + apply Hkeys in Ha. cbn in Ha. cbn. tauto.
  - rewrite Hc, Hx. reflexivity.
  - intros k0 Hk0 Hget. rewrite Hc. cbn [option_map fst]. f_equal.
    destruct (string_dec k0 k) as [E|Hne]; [congruence|].
    rewrite dict_get_set_neq in Hget by exact Hne.
    exfalso. apply Hget, Hkinds, Hk0.
Qed.

Lemma kept_no_kind (x : json) (d2 : dict json) :
  incl (dict_keys d2) ["title"; "description"] ->
  (forall k', k' <> "title" -> k' <> "description" -> dict_get k' d2 = None) ->
  kind_payload x = None ->
  keeps_known_fields x (JObj d2).
Proof.
  intros Hkeys Hnone Hx.
  assert (forall k', In k' item_kinds -> dict_get k' d2 = None) as Hkinds.
  { intros k' Hk'. destruct (item_kind_not_text _ Hk'). apply Hnone; assumption. }
  assert (kind_payload (JObj d2) = None) as Hc.
  { unfold kind_payload. generalize item_kinds, Hkinds.
    induction l as [|k ks IH]; intros H; [reflexivity|].
    cbn [first_kind json_path]. rewrite (H k) by (left; reflexivity).
    apply IH. intros k' Hk'. apply H. right. exact Hk'. }
  exists d2. split; [reflexivity|]. split; [|split].
  - intros a Ha. apply Hkeys in Ha. cbn in Ha. cbn. tauto.
  - rewrite Hc, Hx. reflexivity.
  - intros k Hk Hget. exfalso. apply Hget, Hkinds, Hk.
Qed.

Lemma kept_in_three_ways (x c : json) (d2 : dict json) :
  incl (dict_keys d2) ["title"; "description"] ->
  (forall k', k' <> "title" -> k' <> "description" -> dict_get k' d2 = None) ->
  (exists qi new_item,
      Py.getitem x "questionItem" = Ok qi /\
      c = JObj (dict_set "questionItem" new_item d2)) \/
  (exists g0 g,
      Py.contains "questionItem" x = Ok false /\
      Py.getitem x "questionGroupItem" = Ok g0 /\
      c = JObj (dict_set "questionGroupItem" g d2)) \/
  (exists d3,
      Py.contains "questionItem" x = Ok false /\
      Py.contains "questionGroupItem" x = Ok false /\
      copy_first_kind plain_kinds x d2 = Ok d3 /\
      c = JObj d3) ->
  keeps_known_fields x c.
Proof.
  intros Hkeys Hnone
    [ (qi & ni & Hqi & ->)
    | [ (g0 & g & Hq & Hg & ->) | (d3 & Hq & Hg & Hk & ->) ] ].
  - apply (kept_one_kind x d2 _ ni qi Hkeys Hnone); [left; reflexivity|].
    unfold kind_payload, item_kinds. cbn [first_kind].
    rewrite (getitem_path _ _ _ Hqi). reflexivity.
  - apply (kept_one_kind x d2 _ g g0 Hkeys Hnone); [right; left; reflexivity|].
    unfold kind_payload, item_kinds. cbn [first_kind].
    rewrite (contains_false_path _ _ Hq), (getitem_path _ _ _ Hg). reflexivity.
  - assert (kind_payload x = first_kind plain_kinds x) as Hx.
    { unfold kind_payload, item_kinds. cbn [first_kind].
      rewrite (contains_false_path _ _ Hq), (contains_false_path _ _ Hg).
      reflexivity. }
    apply copy_first_kind_first in Hk as [[Hn ->] | (k & y & Hf & Hin & ->)].
    + apply kept_no_kind; [assumption | assumption | congruence].
    + apply (kept_one_kind x d2 k y y Hkeys Hnone);
        [right; right; exact Hin | congruence].
Qed.

(** X19.  Whatever item either copy of the sanitizer is given, the
  clean item it returns is an object holding at most a title, a
  description and one item kind: the first kind the source carries in
  the order question, grid, page break, text, image, video.  Every other
  field of the source is dropped, and a source of none of these kinds
  yields an item without a kind. *)
Theorem clean_item_keeps_known_fields (x c : json) :
  Gforms._clean_item_for_duplication x = Ok c
  \/ RootApi._clean_item_for_duplication x = Ok c ->
  keeps_known_fields x c.
Proof.
  intros [H | H].
  - apply gforms_clean_item_inv in H
      as (d1 & d2 & H1 & H2 &
          [ (qi & q0 & q1 & q2 & q3 & ni & _ & Hqi & _ & _ & _ & _ & _ & ->)
          | [ (g0 & g1 & g2 & Hq & _ & Hg & _ & _ & ->)
            | (d3 & Hq & Hg & Hk & ->) ] ]);
      apply (kept_in_three_ways x _ d2
               (text_field_keys _ _ _ _ _ H1 H2)
               (text_fields_only _ _ _ _ _ H1 H2)); eauto 10.
  - apply root_clean_item_inv in H
      as (d1 & d2 & H1 & H2 &
          [ (qi & q0 & q0' & q1 & ni & _ & Hqi & _ & _ & _ & _ & ->)
          | [ (g0 & g1 & Hq & _ & Hg & _ & ->)
            | (d3 & Hq & Hg & Hk & ->) ] ]);
      apply (kept_in_three_ways x _ d2
               (text_field_keys _ _ _ _ _ H1 H2)
               (text_fields_only _ _ _ _ _ H1 H2)); eauto 10.
Qed.

Lemma clean_item_keeps_known_fields_witness :
  keeps_known_fields Cases.unknown_kind_item (JObj [("title", JStr "Pick a date")]).
Proof.
  apply clean_item_keeps_known_fields. left. reflexivity.
Defined.

(** ** A duplication leaves its source alone *)

Lemma create_form_calls_written (title description fid : json) :
  Forall (written_to fid) (create_form_calls title description fid).
Proof.
  unfold create_form_calls.
  destruct (Py.truthy description); repeat constructor.
Qed.

Lemma batch_calls_written (fid : json) (chunks : list (list json)) :
  Forall (written_to fid) (map (batch_call fid) chunks).
Proof. induction chunks; cbn [map]; constructor; [reflexivity | assumption]. Qed.

Lemma single_writes_written (fid : json) (requests : list json) :
  Forall (written_to fid) (single_writes fid requests).
Proof.
  unfold single_writes.
  induction requests; cbn [map]; constructor; [reflexivity | assumption].
Qed.

Lemma root_create_form_ok (svc : remote) (repr : json -> string)
    (title description new_form : json) (h t : list call) :
  RootApi.create_form svc repr title description h = (Ok new_form, t) ->
  exists fid ext,
    Py.getitem new_form "formId" = Ok fid /\
    t = (h ++ ext)%list /\ Forall (written_to fid) ext.
Proof.
  unfold RootApi.create_form. intros H. inv_io.
  apply execute_ok_trace in Ha. subst h0.
  exists a0. destruct (Py.truthy description); inv_io; inv_exec.
  - eexists. split; [reflexivity|]. split.
    + rewrite <- app_assoc. reflexivity.
    + repeat constructor.
  - eexists. split; [reflexivity|]. split; [reflexivity|]. repeat constructor.
Qed.

Lemma root_copy_items_written (svc : remote) (fid : json) (items : list json)
    (i copied : nat) (h t : list call) (n : nat) :
  RootApi.copy_items svc fid i items copied h = (Ok n, t) ->
  exists ext, t = (h ++ ext)%list /\ Forall (written_to fid) ext.
Proof.
  revert i copied h. induction items as [|x items IH]; intros i copied h H.
  - cbn in H. injection H as _ <-. exists []. rewrite app_nil_r. auto.
  - cbn [RootApi.copy_items] in H.
    apply bind_ok in H as (clean & h1 & Hclean & H).
    apply lift_ok in Hclean as [_ ->].
    unfold bind at 1 in H. unfold except_http at 1 in H.
    unfold bind at 1 in H. unfold execute at 1 in H.
    destruct (svc h _); cbn [ret] in H;
      apply IH in H as (ext & -> & Hext);
      eexists; (split; [rewrite <- app_assoc; reflexivity|]);
      constructor; [reflexivity | exact Hext | reflexivity | exact Hext].
Qed.

Lemma batch_source_only_read (svc : remote) (repr : json -> string)
    (form_id new_title : json) (chunk_size : Z) (r : DuplicationResult)
    (t : list call) :
  Gforms._duplicate_form_batch svc repr form_id new_title chunk_size [] = (Ok r, t) ->
  source_only_read form_id (newFormId r) t.
Proof.
  unfold Gforms._duplicate_form_batch. intros H. inv_io.
  apply get_form_ok in Ha as [_ ->]. cbn [app] in *.
  match goal with
  | G : Gforms.create_form _ _ _ _ _ = _ |- _ =>
      destruct (create_form_ok _ _ _ _ _ _ _ G) as (fid & responder & -> & ->)
  end.
  match goal with
  | G : Py.getitem _ "formId" = Ok _ |- _ => injection G as <-
  end.
  cbn [newFormId].
  assert (exists ext, h9 = (([FormsGet form_id]
                             ++ create_form_calls new_title a2 fid) ++ ext)%list
                      /\ Forall (written_to fid) ext) as (ext & -> & Hext).
  { destruct (a6 ++ a8)%list as [|q qs].
    - apply ret_ok in Ha9 as [_ ->]. exists []. rewrite app_nil_r. auto.
    - destruct (Z.leb _ chunk_size).
      + inv_io. inv_exec. eexists. split; [reflexivity|]. repeat constructor.
      + inv_io. apply submit_chunks_ok in Ha9 as [_ ->].
        eexists. split; [reflexivity|]. apply batch_calls_written. }
  eexists. split; [cbn [app]; reflexivity|].
  apply Forall_app. split; [apply create_form_calls_written | exact Hext].
Qed.

Lemma legacy_source_only_read (svc : remote) (repr : json -> string)
    (form_id new_title : json) (r : DuplicationResult) (t : list call) :
  Gforms._duplicate_form_legacy svc repr form_id new_title [] = (Ok r, t) ->
  source_only_read form_id (newFormId r) t.
Proof.
  unfold Gforms._duplicate_form_legacy. intros H. inv_io.
  apply get_form_ok in Ha as [_ ->]. cbn [app] in *.
  match goal with
  | G : Gforms.create_form _ _ _ _ _ = _ |- _ =>
      destruct (create_form_ok _ _ _ _ _ _ _ G) as (fid & responder & -> & ->)
  end.
  match goal with
  | G : Py.getitem _ "formId" = Ok _ |- _ => injection G as <-
  end.
  cbn [newFormId].
  match goal with
  | G : Gforms.copy_items _ _ _ _ _ _ _ = _ |- _ =>
      apply copy_items_counts in G as (creates & _ & -> & _)
  end.
  assert (exists ext, h5 = (([FormsGet form_id]
                             ++ create_form_calls new_title a1 fid) ++ ext)%list
                      /\ Forall (written_to fid) ext) as (ext & -> & Hext).
  { destruct a4; inv_io; inv_exec.
    - eexists. split; [reflexivity|]. repeat constructor.
    - exists []. rewrite app_nil_r. auto. }
  eexists. split; [cbn [app]; rewrite <- !app_assoc; reflexivity|].
  apply Forall_app. split; [apply create_form_calls_written|].
  apply Forall_app. split; [exact Hext | apply single_writes_written].
Qed.

Lemma root_duplicate_source_only_read (svc : remote) (repr : json -> string)
    (form_id new_title : json) (r : RootApi.DuplicateResult) (t : list call) :
  RootApi.duplicate_form svc repr form_id new_title [] = (Ok r, t) ->
  source_only_read form_id (RootApi.newFormId r) t.
Proof.
  unfold RootApi.duplicate_form. intros H. inv_io.
  apply root_get_form_ok in Ha as [_ ->]. cbn [app] in *.
  match goal with
  | G : RootApi.create_form _ _ _ _ _ = _ |- _ =>
      apply root_create_form_ok in G as (fid & ext1 & Hfid & -> & Hext1)
  end.
  match goal with
  | G : Py.getitem _ "formId" = Ok _ |- _ =>
      rewrite Hfid in G; injection G as <-
  end.
  cbn [RootApi.newFormId].
  match goal with
  | G : RootApi.copy_items _ _ _ _ _ _ = _ |- _ =>
      apply root_copy_items_written in G as (ext3 & -> & Hext3)
  end.
  assert (exists ext, h5 = (([FormsGet form_id] ++ ext1) ++ ext)%list
                      /\ Forall (written_to fid) ext) as (ext2 & -> & Hext2).
  { destruct a4; inv_io; inv_exec.
    - eexists. split; [reflexivity|]. repeat constructor.
    - exists []. rewrite app_nil_r. auto. }
  eexists. split; [cbn [app]; rewrite <- !app_assoc; reflexivity|].
  apply Forall_app. split; [exact Hext1|].
  apply Forall_app. split; [exact Hext2 | exact Hext3].
Qed.

(** X20.  A duplication reads its source once and never writes to it:
  when [duplicate_form] returns, in batch or item-by-item mode and in
  either client, its first request is the read of the source and every
  later one is the creation of the copy or a write addressed to the form
  identifier it reports as [newFormId]. *)
Theorem duplicate_form_writes_to_the_copy_only (svc : remote)
    (repr : json -> string) (form_id new_title : json) :
  (forall use_batch chunk_size r t,
      Gforms.duplicate_form svc repr form_id new_title use_batch chunk_size []
      = (Ok r, t) ->
      source_only_read form_id (newFormId r) t) /\
  (forall r t,
      RootApi.duplicate_form svc repr form_id new_title [] = (Ok r, t) ->
      source_only_read form_id (RootApi.newFormId r) t).
Proof.
  split.
  - intros [|] chunk_size r t H; cbn [Gforms.duplicate_form] in H.
    + eapply batch_source_only_read; eassumption.
    + eapply legacy_source_only_read; eassumption.
  - intros r t. apply root_duplicate_source_only_read.
Qed.

Lemma duplicate_form_writes_to_the_copy_only_witness :
  exists r t,
    RootApi.duplicate_form Sample.flaky Sample.repr (JStr "src") (JStr "Copy") []
    = (Ok r, t) /\
    RootApi.copiedItems r = 1 /\
    source_only_read (JStr "src") (RootApi.newFormId r) t.
Proof.
  eexists. eexists. split; [reflexivity|]. split; [reflexivity|].
  apply (proj2 (duplicate_form_writes_to_the_copy_only Sample.flaky Sample.repr
                  (JStr "src") (JStr "Copy"))).
  reflexivity.
Defined.

(** ** What a personalisation touches and counts *)

Section AddsOnly.

Context {A B : Type} (P : call -> Prop).

Lemma adds_only_ret (a : A) : adds_only P (ret a).
Proof. intros h. exists []. cbn. rewrite app_nil_r. auto. Qed.

Lemma adds_only_raise (e : exn) : adds_only P (@raise A e).
Proof. intros h. exists []. cbn. rewrite app_nil_r. auto. Qed.

Lemma adds_only_lift (r : result A) : adds_only P (lift r).
Proof. intros h. exists []. cbn. rewrite app_nil_r. auto. Qed.

Lemma adds_only_bind (m : io A) (k : A -> io B) :
  adds_only P m -> (forall a, adds_only P (k a)) -> adds_only P (bind m k).
Proof.
  intros Hm Hk h. unfold bind.
  destruct (Hm h) as (e1 & E1 & F1). destruct (m h) as [[a|e] h1].
  - cbn in E1. subst h1. destruct (Hk a (h ++ e1)%list) as (e2 & E2 & F2).
    exists (e1 ++ e2)%list. rewrite E2, app_assoc. split; [reflexivity|].
    apply Forall_app. auto.
  - cbn in E1. subst h1. exists e1. auto.
Qed.

Lemma adds_only_except_http (m handler : io A) :
  adds_only P m -> adds_only P handler -> adds_only P (except_http m handler).
Proof.
  intros Hm Hh h. unfold except_http.
  destruct (Hm h) as (e1 & E1 & F1). destruct (m h) as [[a|e] h1].
  - cbn in E1. subst h1. exists e1. auto.
  - cbn in E1. subst h1.
    destruct e; try (exists e1; auto; fail).
    destruct (Hh (h ++ e1)%list) as (e2 & E2 & F2).
    exists (e1 ++ e2)%list. rewrite E2, app_assoc. split; [reflexivity|].
    apply Forall_app. auto.
Qed.

Lemma adds_only_except_any (m handler : io A) :
  adds_only P m -> adds_only P handler -> adds_only P (except_any m handler).
Proof.
  intros Hm Hh h. unfold except_any.
  destruct (Hm h) as (e1 & E1 & F1). destruct (m h) as [[a|e] h1].
  - cbn in E1. subst h1. exists e1. auto.
  - cbn in E1. subst h1.
    destruct (Hh (h ++ e1)%list) as (e2 & E2 & F2).
    exists (e1 ++ e2)%list. rewrite E2, app_assoc. split; [reflexivity|].
    apply Forall_app. auto.
Qed.

End AddsOnly.

Lemma adds_only_execute (P : call -> Prop) (svc : remote) (c : call) :
  P c -> adds_only P (execute svc c).
Proof. intros Hc h. exists [c]. cbn. auto. Qed.

Ltac adds_only_tac :=
  repeat first
    [ progress intros
    | apply adds_only_ret
    | apply adds_only_raise
    | apply adds_only_lift
    | apply adds_only_execute; reflexivity
    | apply adds_only_except_http
    | apply adds_only_except_any
    | apply adds_only_bind
    | match goal with
      | |- adds_only _ (if ?b then _ else _) => destruct b
      | |- adds_only _ (match ?x with _ => _ end) => destruct x
      end ].

Section PersonalizeScope.

Variable svc : remote.
Variable repr : json -> string.
Variable form_id : json.

Lemma get_form_about : adds_only (about form_id) (Gforms.get_form svc form_id).
Proof. unfold Gforms.get_form. adds_only_tac. Qed.

Lemma update_item_about (item_id : json) (kwargs : dict json) :
  adds_only (about form_id) (Gforms.update_item svc repr form_id item_id kwargs).
Proof.
  unfold Gforms.update_item.
  apply adds_only_except_http; [|apply adds_only_raise].
  apply adds_only_bind; [apply get_form_about|].
  adds_only_tac.
Qed.

Lemma update_form_about (title description : json) :
  adds_only (about form_id) (Gforms.update_form svc form_id title description).
Proof.
  unfold Gforms.update_form, Gforms._sync_drive_name.
  apply adds_only_except_http; [|apply adds_only_raise].
  cbv zeta.
  destruct (_ ++ _)%list; [apply adds_only_raise|].
  apply adds_only_bind; [apply adds_only_execute; reflexivity|]. intros _.
  apply adds_only_bind; [|intros _; apply get_form_about].
  destruct title; adds_only_tac.
Qed.

Lemma personalize_items_about (replacements : list (string * string))
    (items : list json) (n : nat) (ups : list string) :
  adds_only (about form_id)
    (Gforms.personalize_items svc repr form_id replacements items n ups).
Proof.
  revert n ups. induction items as [|item items IH]; intros n ups;
    cbn [Gforms.personalize_items]; [apply adds_only_ret|].
  repeat (apply adds_only_bind; [apply adds_only_lift|]; intros ?).
  destruct (_ || _); [|apply IH].
  apply adds_only_bind.
  - apply adds_only_except_any; [|apply adds_only_ret].
    apply adds_only_bind; [apply update_item_about | intros; apply adds_only_ret].
  - intros [|]; apply IH.
Qed.

Lemma personalize_form_about (replacements : list (string * string)) :
  adds_only (about form_id)
    (Gforms.personalize_form svc repr form_id replacements).
Proof.
  unfold Gforms.personalize_form.
  apply adds_only_except_http; [|apply adds_only_raise].
  apply adds_only_bind; [apply get_form_about|]. intros form.
  repeat (apply adds_only_bind; [apply adds_only_lift|]; intros ?).
  apply adds_only_bind.
  { destruct (_ || _); [|apply adds_only_ret].
    apply adds_only_bind; [apply update_form_about | intros; apply adds_only_ret]. }
  intros ups.
  repeat (apply adds_only_bind; [apply adds_only_lift|]; intros ?).
  apply adds_only_bind; [apply personalize_items_about|]. intros counts.
  adds_only_tac.
Qed.

Lemma personalize_items_counts (replacements : list (string * string))
    (items : list json) (n : nat) (ups : list string)
    (h t : list call) (counts : nat * list string) :
  Gforms.personalize_items svc repr form_id replacements items n ups h
  = (Ok counts, t) ->
  exists k,
    k <= List.length items /\
    fst counts = n + k /\
    List.length (snd counts) = List.length ups + k.
Proof.
  revert n ups h. induction items as [|item items IH]; intros n ups h H.
  - cbn in H. injection H as <- _. exists 0. cbn. rewrite !Nat.add_0_r. auto.
  - cbn [Gforms.personalize_items] in H.
    repeat (apply bind_ok in H as (? & ? & Hl & H);
            apply lift_ok in Hl as [_ ->]).
    destruct (_ || _).
    + apply bind_ok in H as (updated & h1 & _ & H).
      destruct updated; apply IH in H as (k & Hk & Hn & Hu).
      * exists (S k). rewrite length_app in Hu. cbn [List.length] in *.
        repeat split; lia.
      * exists k. cbn [List.length]. repeat split; lia.
    + apply IH in H as (k & Hk & Hn & Hu).
      exists k. cbn [List.length]. repeat split; lia.
Qed.

End PersonalizeScope.

(** X21.  Whatever its outcome, [personalize_form] only makes requests
  that name the form it was given: reads of it, batched writes to it and
  the rename of its Drive file.  When it returns, the form identifier it
  reports is that form's, [itemsUpdated] is at most [totalItems], and the
  list of updates holds one entry per item updated, plus one when the
  title or the description of the form was updated. *)
Theorem personalize_form_stays_on_its_form (svc : remote) (repr : json -> string)
    (form_id : json) (replacements : list (string * string)) :
  adds_only (about form_id)
    (Gforms.personalize_form svc repr form_id replacements) /\
  forall h r t,
    Gforms.personalize_form svc repr form_id replacements h = (Ok r, t) ->
    p_formId r = form_id /\
    itemsUpdated r <= p_totalItems r /\
    itemsUpdated r <= List.length (updates r) <= S (itemsUpdated r).
Proof.
  split; [apply personalize_form_about|].
  intros h r t H. unfold Gforms.personalize_form in H.
  apply except_http_raise_ok in H.
  apply bind_ok in H as (form & h1 & _ & H).
  repeat (apply bind_ok in H as (? & ? & Hl & H);
          apply lift_ok in Hl as [_ ->]).
  apply bind_ok in H as (ups & h2 & Hups & H).
  assert (List.length ups <= 1) as Hone.
  { destruct (_ || _).
    - apply bind_ok in Hups as (? & ? & _ & Hups).
      apply ret_ok in Hups as [-> _]. cbn. lia.
    - apply ret_ok in Hups as [-> _]. cbn. lia. }
  apply bind_ok in H as (items & h3 & Hitems & H).
  apply lift_ok in Hitems as [Hitems ->].
  apply bind_ok in H as (item_list & h4 & Hiter & H).
  apply lift_ok in Hiter as [Hiter ->].
  apply bind_ok in H as (counts & h5 & Hcounts & H).
  apply personalize_items_counts in Hcounts as (k & Hk & Hn & Hu).
  apply bind_ok in H as (total & h6 & Htotal & H).
  apply lift_ok in Htotal as [Htotal ->].
  apply ret_ok in H as [-> _]. cbn [p_formId itemsUpdated p_totalItems updates].
  rewrite (iter_len _ _ Hiter) in Htotal. injection Htotal as <-.
  split; [reflexivity|]. lia.
Qed.

Lemma personalize_form_stays_on_its_form_witness :
  exists r t,
    Gforms.personalize_form (Sample.serving Sample.placeholder_form) Sample.repr
      (JStr "f") [("A", "B")] [] = (Ok r, t) /\
    updates r = ["Form title/description updated"] /\
    p_formId r = JStr "f" /\
    itemsUpdated r <= p_totalItems r /\
    itemsUpdated r <= List.length (updates r) <= S (itemsUpdated r).
Proof.
  eexists. eexists. split; [reflexivity|]. split; [reflexivity|].
  eapply (proj2 (personalize_form_stays_on_its_form
                   (Sample.serving Sample.placeholder_form) Sample.repr
                   (JStr "f") [("A", "B")]) []).
  reflexivity.
Defined.

(** ** Listing the forms *)

Lemma list_forms_entries_names (svc : remote) (files : list json)
    (form : option json) (forms out : list json) (h t : list call) :
  Gforms.list_forms_entries svc files form forms h = (Ok (Some out), t) ->
  exists entries,
    out = (forms ++ entries)%list /\ Forall2 names_file files entries.
Proof.
  revert form forms h. induction files as [|file files IH]; intros form forms h H.
  - cbn in H. injection H as <- _. exists []. rewrite app_nil_r. split; constructor.
  - cbn [Gforms.list_forms_entries] in H.
    apply bind_ok in H as (form_id & h1 & Hid & H).
    apply lift_ok in Hid as [Hid ->].
    apply bind_ok in H as (st & h2 & _ & H).
    apply bind_ok in H as (title & h3 & Htitle & H).
    apply lift_ok in Htitle as [Htitle ->].
    destruct (fst st) as [f|]; [|apply ret_ok in H as [H _]; discriminate].
    apply bind_ok in H as (responder & h4 & Hr & H).
    apply lift_ok in Hr as [_ ->].
    apply IH in H as (entries & -> & Hall).
    exists (Gforms.listed_form form_id title responder (snd st) :: entries).
    split; [rewrite <- app_assoc; reflexivity|].
    constructor; [|exact Hall].
    unfold names_file.
    rewrite (getitem_path _ _ _ Hid), (getitem_path _ _ _ Htitle).
    repeat split; discriminate.
Qed.

(** X22.  When the loop of [list_forms] over the files of a Drive
  listing returns, the list it returns has one entry per file, in the
  order of the listing, each carrying the identifier and the name of its
  file as [formId] and [title]; the page token of the listing is passed
  on when there is one. *)
Theorem list_forms_lists_every_file (svc : remote) (results listing : json)
    (h t : list call) :
  Gforms.list_forms_of svc results h = (Ok (Some listing), t) ->
  exists files forms,
    files_of results = Ok files /\
    json_path ["forms"] listing = Some (JArr forms) /\
    Forall2 names_file files forms /\
    json_path ["nextPageToken"] listing = json_path ["nextPageToken"] results.
Proof.
  unfold Gforms.list_forms_of. intros H.
  apply bind_ok in H as (fs & h1 & Hfs & H). apply lift_ok in Hfs as [Hfs ->].
  apply bind_ok in H as (files & h2 & Hiter & H).
  apply lift_ok in Hiter as [Hiter ->].
  apply bind_ok in H as (entries & h3 & Hentries & H).
  destruct entries as [forms|]; [|apply ret_ok in H as [H _]; discriminate].
  apply list_forms_entries_names in Hentries as (entries & -> & Hall).
  cbn [app] in *.
  apply bind_ok in H as (more & h4 & Hmore & H).
  apply lift_ok in Hmore as [Hmore ->].
  exists files, entries. split; [unfold files_of; rewrite Hfs; exact Hiter|].
  destruct more.
  - apply bind_ok in H as (token & h5 & Htoken & H).
    apply lift_ok in Htoken as [Htoken ->].
    apply ret_ok in H as [H _]. injection H as ->.
    rewrite (getitem_path _ _ _ Htoken). repeat split; auto.
  - apply ret_ok in H as [H _]. injection H as ->.
    rewrite (contains_false_path _ _ Hmore). repeat split; auto.
Qed.

Lemma list_forms_lists_every_file_witness :
  exists files forms,
    files_of Cases.drive_listing = Ok files /\
    json_path ["forms"]
      (JObj [("forms",
              JArr [Gforms.listed_form (JStr "f1") (JStr "First")
                      (JStr "https://forms/f1") 1;
                    Gforms.listed_form (JStr "f2") (JStr "Second")
                      (JStr "https://forms/f1") 0]);
             ("nextPageToken", JStr "page2")])
    = Some (JArr forms) /\
    Forall2 names_file files forms /\
    json_path ["nextPageToken"]
      (JObj [("forms",
              JArr [Gforms.listed_form (JStr "f1") (JStr "First")
                      (JStr "https://forms/f1") 1;
                    Gforms.listed_form (JStr "f2") (JStr "Second")
                      (JStr "https://forms/f1") 0]);
             ("nextPageToken", JStr "page2")])
    = json_path ["nextPageToken"] Cases.drive_listing.
Proof.
  apply (list_forms_lists_every_file Cases.first_only Cases.drive_listing _ []
           [FormsGet (JStr "f1"); ResponsesList (JStr "f1") [];
            FormsGet (JStr "f2")]).
  reflexivity.
Defined.

Lemma fetch_listed_unreadable (svc : remote) (form_id : json)
    (form : option json) (h : list call) :
  svc h (FormsGet form_id) = None ->
  Gforms.fetch_listed svc form_id form h
  = (Ok (form, 0), (h ++ [FormsGet form_id])%list).
Proof.
  intros H. unfold Gforms.fetch_listed, bind, except_any, execute.
  rewrite H. reflexivity.
Qed.

Lemma unreadable_entries (svc : remote) (files : list json)
    (previous link : json) (forms : list json) (h : list call) :
  unreadable svc files ->
  named_files files ->
  Py.get previous "responderUri" (JStr "") = Ok link ->
  exists entries t,
    Gforms.list_forms_entries svc files (Some previous) forms h
    = (Ok (Some (forms ++ entries)%list), t) /\
    Forall2 (borrows_link link) files entries.
Proof.
  intros Hun Hnamed Hlink. revert forms h.
  induction Hnamed as [|file files (form_id & title & Hid & Htitle) _ IH];
    intros forms h.
  - exists [], h. rewrite app_nil_r. split; [reflexivity | constructor].
  - cbn [Gforms.list_forms_entries].
    rewrite (bind_run _ _ _ _ _ (lift_run _ _ _ Hid)).
    rewrite (bind_run _ _ _ _ _
               (fetch_listed_unreadable svc form_id (Some previous) h
                  (Hun file form_id h (or_introl eq_refl) Hid))).
    rewrite (bind_run _ _ _ _ _ (lift_run _ _ _ Htitle)).
    cbn [fst snd].
    rewrite (bind_run _ _ _ _ _ (lift_run _ _ _ Hlink)).
    destruct (IH (fun f i h' Hin => Hun f i h' (or_intror Hin))
                (forms ++ [Gforms.listed_form form_id title link 0])%list
                (h ++ [FormsGet form_id])%list) as (entries & t & Hrun & Hall).
    exists (Gforms.listed_form form_id title link 0 :: entries), t.
    rewrite Hrun, <- app_assoc. split; [reflexivity|].
    constructor; [|exact Hall]. exists form_id, title. auto.
Qed.

Lemma files_of_run (results : json) (files : list json) (h : list call) :
  files_of results = Ok files ->
  exists l,
    lift (Py.get results "files" (JArr [])) h = (Ok l, h) /\
    lift (Py.iter l) h = (Ok files, h).
Proof.
  unfold files_of. intros H.
  destruct (Py.get results "files" (JArr [])) as [l|e] eqn:E; [|discriminate].
  exists l. split; [reflexivity|]. cbn in H. unfold lift. rewrite H. reflexivity.
Qed.

(** X23.  When the form of the first file of the Drive listing cannot be
  read, the loop of [list_forms] reaches [form.get] with [form] never
  assigned, where Python raises [UnboundLocalError]: after that one read
  no list of forms is returned, whatever the other files are. *)
Theorem list_forms_first_form_unreadable (svc : remote)
    (results first form_id title : json) (rest : list json) (h : list call) :
  files_of results = Ok (first :: rest) ->
  Py.getitem first "id" = Ok form_id ->
  Py.getitem first "name" = Ok title ->
  svc h (FormsGet form_id) = None ->
  Gforms.list_forms_of svc results h = (Ok None, (h ++ [FormsGet form_id])%list).
Proof.
  intros Hfiles Hid Htitle Hnone.
  destruct (files_of_run results _ h Hfiles) as (l & Hget & Hiter).
  unfold Gforms.list_forms_of.
  rewrite (bind_run _ _ _ _ _ Hget), (bind_run _ _ _ _ _ Hiter).
  cbn [Gforms.list_forms_entries].
  assert (Gforms.list_forms_entries svc (first :: rest) None [] h
          = (Ok None, (h ++ [FormsGet form_id])%list)) as Hrun.
  { cbn [Gforms.list_forms_entries].
    rewrite (bind_run _ _ _ _ _ (lift_run _ _ _ Hid)).
    rewrite (bind_run _ _ _ _ _ (fetch_listed_unreadable svc form_id None h Hnone)).
    rewrite (bind_run _ _ _ _ _ (lift_run _ _ _ Htitle)).
    reflexivity. }
  rewrite (bind_run _ _ _ _ _ Hrun). reflexivity.
Qed.

Lemma list_forms_first_form_unreadable_witness :
  Gforms.list_forms_of Cases.first_only
    (JObj [("files", JArr [Cases.second_file; Cases.first_file])]) []
  = (Ok None, ([] ++ [FormsGet (JStr "f2")])%list).
Proof.
  apply (list_forms_first_form_unreadable Cases.first_only _ Cases.second_file
           (JStr "f2") (JStr "Second") [Cases.first_file] []);
    reflexivity.
Defined.

(** X24.  [list_forms] gives a file whose form cannot be read the link
  of another form: when the first form of the listing is read and none
  of the later ones can be, [list_forms] returns, and every later file is
  listed with [responseCount] 0 and the [responderUri] of the first
  form. *)
Theorem list_forms_borrows_responder_link (svc : remote)
    (results first form_id title form link : json) (rest : list json)
    (h : list call) :
  files_of results = Ok (first :: rest) ->
  Py.getitem first "id" = Ok form_id ->
  Py.getitem first "name" = Ok title ->
  svc h (FormsGet form_id) = Some form ->
  Py.get form "responderUri" (JStr "") = Ok link ->
  named_files rest ->
  unreadable svc rest ->
  exists listing n entries t,
    Gforms.list_forms_of svc results h = (Ok (Some listing), t) /\
    json_path ["forms"] listing
    = Some (JArr (Gforms.listed_form form_id title link n :: entries)) /\
    Forall2 (borrows_link link) rest entries.
Proof.
  intros Hfiles Hid Htitle Hform Hlink Hnamed Hun.
  destruct (files_of_run results _ h Hfiles) as (l & Hget & Hiter).
  assert (exists n h1,
             Gforms.fetch_listed svc form_id None h = (Ok (Some form, n), h1))
    as (n & h1 & Hfetch).
  { unfold Gforms.fetch_listed. unfold bind at 1. unfold except_any at 1.
    unfold bind at 1. unfold execute at 1. rewrite Hform. cbn [ret].
    unfold bind at 1.
    destruct (except_any _ _ _) as [[n|e] h1] eqn:E.
    - exists n, h1. reflexivity.
    - exfalso. unfold except_any in E.
      destruct (bind _ _ _) as [[x|e'] h']; discriminate. }
  destruct (unreadable_entries svc rest form link
              ([] ++ [Gforms.listed_form form_id title link n])%list h1
              Hun Hnamed Hlink) as (entries & t & Hrun & Hall).
  assert (Gforms.list_forms_entries svc (first :: rest) None [] h
          = (Ok (Some (Gforms.listed_form form_id title link n :: entries)), t))
    as Hloop.
  { cbn [Gforms.list_forms_entries].
    rewrite (bind_run _ _ _ _ _ (lift_run _ _ _ Hid)).
    rewrite (bind_run _ _ _ _ _ Hfetch).
    rewrite (bind_run _ _ _ _ _ (lift_run _ _ _ Htitle)).
    cbn [fst snd].
    rewrite (bind_run _ _ _ _ _ (lift_run _ _ _ Hlink)).
    exact Hrun. }
  unfold Gforms.list_forms_of.
  rewrite (bind_run _ _ _ _ _ Hget), (bind_run _ _ _ _ _ Hiter).
  rewrite (bind_run _ _ _ _ _ Hloop).
  destruct results as [| | | | |d]; try discriminate Hfiles.
  assert (exists more, Py.contains "nextPageToken" (JObj d) = Ok more)
    as (more & Hmore) by (eexists; reflexivity).
  rewrite (bind_run _ _ _ _ _ (lift_run _ _ _ Hmore)).
  destruct more.
  - assert (exists token, Py.getitem (JObj d) "nextPageToken" = Ok token)
      as (token & Htoken).
    { injection Hmore as Hhas. unfold dict_has in Hhas. cbn [Py.getitem].
      destruct (dict_get "nextPageToken" d);
        [eexists; reflexivity | discriminate Hhas]. }
    rewrite (bind_run _ _ _ _ _ (lift_run _ _ _ Htoken)).
    eexists _, n, entries, t. split; [reflexivity|]. split; [reflexivity|].
    exact Hall.
  - eexists _, n, entries, t. split; [reflexivity|]. split; [reflexivity|].
    exact Hall.
Qed.

Lemma list_forms_borrows_responder_link_witness :
  exists listing n entries t,
    Gforms.list_forms_of Cases.first_only Cases.drive_listing []
    = (Ok (Some listing), t) /\
    json_path ["forms"] listing
    = Some (JArr (Gforms.listed_form (JStr "f1") (JStr "First")
                    (JStr "https://forms/f1") n :: entries)) /\
    Forall2 (borrows_link (JStr "https://forms/f1")) [Cases.second_file] entries.
Proof.
  apply (list_forms_borrows_responder_link Cases.first_only Cases.drive_listing
           Cases.first_file (JStr "f1") (JStr "First") Cases.first_form
           (JStr "https://forms/f1") [Cases.second_file] []).
  - reflexivity.
  - reflexivity.
  - reflexivity.
  - reflexivity.
  - reflexivity.
  - constructor; [|constructor].
    exists (JStr "f2"), (JStr "Second"). split; reflexivity.
  - intros file form_id h [<-|[]] [= <-]. reflexivity.
Defined.

(** ** Text typed on the command line *)

Lemma unescape_head (s : string) (rest : string) :
  Str.replace_scan Commands.escaped_newline (String Str.LF EmptyString) 0 s
  = String "n"%char rest ->
  exists rest', s = String "n"%char rest'.
Proof.
  destruct s as [|c s]; [discriminate|].
  cbn [Str.replace_scan].
  destruct (prefix Commands.escaped_newline (String c s)).
  - discriminate.
  - intros [= -> _]. eexists. reflexivity.
Qed.

Lemma replace_scan_step (old new : string) (c : ascii) (rest : string) :
  Str.replace_scan old new 0 (String c rest)
  = if prefix old (String c rest)
    then (new ++ Str.replace_scan old new (String.length old - 1) rest)%string
    else String c (Str.replace_scan old new 0 rest).
Proof. reflexivity. Qed.

Lemma escaped_prefix (c : ascii) (rest : string) :
  prefix Commands.escaped_newline (String c rest) = true ->
  c = "092"%char /\ exists r, rest = String "n"%char r.
Proof.
  unfold Commands.escaped_newline. cbn [prefix].
  destruct (Ascii.ascii_dec "092"%char c) as [<-|]; [|discriminate].
  destruct rest as [|b r]; [discriminate|]. cbn [prefix].
  destruct (Ascii.ascii_dec "n"%char b) as [<-|]; [|discriminate].
  intros _. split; [reflexivity|]. eexists. reflexivity.
Qed.

Lemma unescape_clean_pair (s : string) :
  Str.contains Commands.escaped_newline
    (Str.replace_scan Commands.escaped_newline (String Str.LF EmptyString) 0 s)
  = false /\
  forall c,
    Str.contains Commands.escaped_newline
      (Str.replace_scan Commands.escaped_newline (String Str.LF EmptyString) 0
         (String c s))
    = false.
Proof.
  induction s as [|a s [IH1 IH2]].
  - split; [reflexivity|]. intros c. cbn [Str.replace_scan].
    destruct (prefix Commands.escaped_newline (String c EmptyString)) eqn:Hp.
    + apply escaped_prefix in Hp. destruct Hp as (_ & r & Hr). discriminate Hr.
    + cbn [Str.contains]. rewrite Hp. reflexivity.
  - split; [apply IH2|]. intros c.
    rewrite replace_scan_step.
    destruct (prefix Commands.escaped_newline (String c (String a s))) eqn:Hp.
    + change (Str.contains Commands.escaped_newline
                (String Str.LF
                   (Str.replace_scan Commands.escaped_newline
                      (String Str.LF EmptyString) 0 s)) = false).
      cbn [Str.contains]. rewrite IH1, orb_false_r.
      destruct (prefix Commands.escaped_newline (String Str.LF _)) eqn:Hq;
        [|reflexivity].
      apply escaped_prefix in Hq. destruct Hq as (Hq & _). discriminate Hq.
    + cbn [Str.contains]. rewrite (IH2 a), orb_false_r.
      destruct (prefix Commands.escaped_newline
                  (String c (Str.replace_scan _ _ _ _))) eqn:Hq;
        [|reflexivity].
      apply escaped_prefix in Hq. destruct Hq as (-> & r & Hr).
      destruct (unescape_head _ _ Hr) as (rest' & [= -> ->]).
      destruct rest'; vm_compute in Hp; discriminate Hp.
Qed.

Lemma unescape_nothing (s : string) :
  Str.contains Commands.escaped_newline s = false ->
  Str.replace_scan Commands.escaped_newline (String Str.LF EmptyString) 0 s = s.
Proof.
  induction s as [|c s IH]; [reflexivity|].
  cbn [Str.contains Str.replace_scan]. intros H.
  apply orb_false_iff in H. destruct H as [Hp Hrest].
  rewrite Hp, (IH Hrest). reflexivity.
Qed.

(** X25.  [_process_text] returns a text in which no backslash is
  followed by the letter n: its one pass replaces every escaped newline
  and the line feeds it puts in make no new one.  A text without an
  escaped newline, the empty one included, is returned as it is. *)
Theorem process_text_leaves_no_escaped_newline (s : string) :
  exists s',
    Commands._process_text (JStr s) = Ok (JStr s') /\
    Str.contains Commands.escaped_newline s' = false /\
    (Str.contains Commands.escaped_newline s = false -> s' = s).
Proof.
  unfold Commands._process_text. cbn [Py.truthy].
  destruct s as [|c s].
  - exists EmptyString. repeat split. 
  - cbn [String.eqb negb Py.replace Str.replace Commands.escaped_newline].
    eexists. split; [reflexivity|]. split.
    + apply (proj2 (unescape_clean_pair s) c).
    + apply unescape_nothing.
Qed.
